(** * Completion sync of lightcap/clip-in: a shallow embedding

    The development follows [src/lib/peloton/completion-sync.ts]:

    - [timestampToDateInTimezone] (the calendar resolver), over a model of
      the JavaScript [Date] value and of the two library calls it makes
      ([format] of date-fns and [toZonedTime] of date-fns-tz);
    - the candidate index [plannedByDateAndRide], a two-level map from
      scheduled date to ride id to the planned workouts, each bucket sorted
      by [sort_order];
    - [syncCompletedWorkouts], written in a small state-and-exception monad
      over the two collaborators (the Peloton client and the Supabase
      client).  Every call to a collaborator is recorded in a trace, so that
      statements about "writes attempted" are statements about that trace.

    Around it, three route handlers are embedded in the same style:

    - [POST] of the sync-completions route, the caller of
      [syncCompletedWorkouts];
    - [POST] of the reorder route, which writes the [sort_order] that the
      candidate index sorts by (both versions of the listing);
    - [POST] of the FTP sync route. *)

From Stdlib Require Import ZArith String Ascii List Lia DecimalString Sorted Permutation.
From Stdlib Require Import SpecFloat.
From stdpp Require Import base gmap strings list.

Open Scope Z_scope.

(** ** JavaScript values the code relies on *)

Module Js.

(** What a [throw] carries: an [Error] object with its message, or any
    other value (the code only asks [error instanceof Error]). *)
Inductive Thrown : Type :=
  | ErrorObject (message : string)
  | NonError.

(** Result of an expression that may throw. *)
Inductive Exc (A : Type) : Type :=
  | Ok (a : A)
  | Throw (e : Thrown).
Arguments Ok {A} a.
Arguments Throw {A} e.

(** Truthiness of a string: only the empty string is falsy. *)
Definition truthy (s : string) : bool :=
  match s with
  | EmptyString => false
  | String _ _ => true
  end.

(** [Number.prototype.toString] on a non-negative integer. *)
Definition toString (n : Z) : string :=
  NilZero.string_of_uint (N.to_uint (Z.to_N n)).

(** [String.prototype.padStart(width, "0")]. *)
Fixpoint zeros (n : nat) : string :=
  match n with
  | O => ""
  | S k => String "0" (zeros k)
  end.

Definition padStart0 (width : nat) (s : string) : string :=
  zeros (width - String.length s) +:+ s.

(** A [Date] holds a time value in milliseconds since the epoch, or is an
    Invalid Date ([None]).  [timeClip] is the abstract operation TimeClip of
    the language specification. *)
Definition Date : Type := option Z.

Definition maxTime : Z := 8640000000000000.

Definition timeClip (t : Z) : Date :=
  if Z.abs t <=? maxTime then Some t else None.

(** [new Date(ms)] for an integral number of milliseconds. *)
Definition newDate (ms : Z) : Date := timeClip ms.

Definition msPerDay : Z := 86400000.

(** Calendar fields (year, month 1..12, day 1..31) of a day number counted
    from 1970-01-01, in the proleptic Gregorian calendar. *)
Definition civilFromDays (days : Z) : Z * Z * Z :=
  let z := days + 719468 in
  let era := z / 146097 in
  let doe := z - era * 146097 in
  let yoe := (doe - doe / 1460 + doe / 36524 - doe / 146096) / 365 in
  let doy := doe - (365 * yoe + yoe / 4 - yoe / 100) in
  let mp := (5 * doy + 2) / 153 in
  let d := doy - (153 * mp + 2) / 5 + 1 in
  let m := if mp <? 10 then mp + 3 else mp - 9 in
  let y := yoe + era * 400 + (if m <=? 2 then 1 else 0) in
  (y, m, d).

(** Calendar fields of a wall-clock reading in milliseconds. *)
Definition civilOfMs (wall : Z) : Z * Z * Z := civilFromDays (wall / msPerDay).

(** The abstract operations of the language specification on time values:
    [Day], [TimeWithinDay], [MakeTime], [MakeDate], and [MakeDay] with the
    month counted from 0 and months and days that overflow carried over. *)
Definition Day (t : Z) : Z := t / msPerDay.

Definition TimeWithinDay (t : Z) : Z := t mod msPerDay.

Definition MakeTime (hour min sec ms : Z) : Z :=
  hour * 3600000 + min * 60000 + sec * 1000 + ms.

Definition MakeDate (day time : Z) : Z := day * msPerDay + time.

(** Day number of the first day of month [m] (1..12) of year [y]. *)
Definition daysFromCivil (y m : Z) : Z :=
  let y' := if m <=? 2 then y - 1 else y in
  let era := y' / 400 in
  let yoe := y' - era * 400 in
  let mp := if 2 <? m then m - 3 else m + 9 in
  let doy := (153 * mp + 2) / 5 in
  let doe := yoe * 365 + yoe / 4 - yoe / 100 + doy in
  era * 146097 + doe - 719468.

Definition MakeDay (year month date : Z) : Z :=
  let ym := year + month / 12 in
  let mn := month mod 12 in
  daysFromCivil ym (mn + 1) + date - 1.

(** The UTC getters of a valid [Date]. *)
Definition getUTCFullYear (t : Z) : Z := fst (fst (civilOfMs t)).
Definition getUTCMonth (t : Z) : Z := snd (fst (civilOfMs t)) - 1.
Definition getUTCDate (t : Z) : Z := snd (civilOfMs t).
Definition getUTCHours (t : Z) : Z := TimeWithinDay t / 3600000.
Definition getUTCMinutes (t : Z) : Z := TimeWithinDay t / 60000 mod 60.
Definition getUTCSeconds (t : Z) : Z := TimeWithinDay t / 1000 mod 60.
Definition getUTCMilliseconds (t : Z) : Z := TimeWithinDay t mod 1000.

(** [setUTCFullYear(year, month, date)] and
    [setUTCHours(hour, min, sec, ms)]: the first starts from +0 on an
    Invalid Date, the second leaves an Invalid Date as it is. *)
Definition setUTCFullYear (d : Date) (year month date : Z) : Date :=
  let t := match d with Some t => t | None => 0 end in
  timeClip (MakeDate (MakeDay year month date) (TimeWithinDay t)).

Definition setUTCHours (d : Date) (hour min sec ms : Z) : Date :=
  match d with
  | Some t => timeClip (MakeDate (Day t) (MakeTime hour min sec ms))
  | None => None
  end.

(** [Date.prototype.toISOString]: throws a RangeError on an Invalid Date. *)
Definition isoYear (y : Z) : string :=
  if (0 <=? y) && (y <=? 9999) then padStart0 4 (toString y)
  else (if y <? 0 then "-" else "+") +:+ padStart0 6 (toString (Z.abs y)).

Definition toISOString (d : Date) : Exc string :=
  match d with
  | None => Throw (ErrorObject "Invalid time value")
  | Some t =>
      let '(y, m, dd) := civilOfMs t in
      let r := t mod msPerDay in
      Ok (isoYear y +:+ "-" +:+ padStart0 2 (toString m) +:+ "-"
          +:+ padStart0 2 (toString dd) +:+ "T"
          +:+ padStart0 2 (toString (r / 3600000)) +:+ ":"
          +:+ padStart0 2 (toString (r / 60000 mod 60)) +:+ ":"
          +:+ padStart0 2 (toString (r / 1000 mod 60)) +:+ "."
          +:+ padStart0 3 (toString (r mod 1000)) +:+ "Z")
  end.

End Js.

Import Js.

(** ** The host: time-zone data and the process's own zone

    [zoneOffset tz] is [Some f] when [Intl.DateTimeFormat] accepts [tz] as a
    time-zone name, and then [f t] is that zone's offset from UTC, in
    milliseconds, at the instant [t]; it is [None] when the constructor
    throws a RangeError.  The process's own zone is given by the two
    readings of the local time-zone adjustment of the language
    specification: [localOffset t] is the offset in force at the instant
    [t], and [localOffsetAtWall wall] the offset with which the local
    wall-clock reading [wall] is turned into an instant. *)
Record Host : Type := {
  zoneOffset : string -> option (Z -> Z);
  localOffset : Z -> Z;
  localOffsetAtWall : Z -> Z
}.

(** [LocalTime] and [UTC] of the language specification, and the two
    local-time setters that [toZonedTime] calls. *)
Definition LocalTime (h : Host) (t : Z) : Z := t + localOffset h t.

Definition UTC (h : Host) (wall : Z) : Z := wall - localOffsetAtWall h wall.

Definition setFullYear (h : Host) (d : Date) (year month date : Z) : Date :=
  let t := match d with Some t => LocalTime h t | None => 0 end in
  timeClip (UTC h (MakeDate (MakeDay year month date) (TimeWithinDay t))).

Definition setHours (h : Host) (d : Date) (hour min sec ms : Z) : Date :=
  match d with
  | Some t =>
      timeClip (UTC h (MakeDate (Day (LocalTime h t)) (MakeTime hour min sec ms)))
  | None => None
  end.

Module DateFns.

(** Year, month and day as the pattern "yyyy-MM-dd" prints them: the year
    of the era (so year 0 prints as 0001), zero-padded to four digits. *)
Definition yyyyMMdd (ymd : Z * Z * Z) : string :=
  let '(y, m, d) := ymd in
  let year := if 0 <? y then y else 1 - y in
  padStart0 4 (toString year) +:+ "-" +:+ padStart0 2 (toString m)
    +:+ "-" +:+ padStart0 2 (toString d).

(** [format(date, "yyyy-MM-dd")] of date-fns: reads the local-time fields
    of [date]; throws RangeError("Invalid time value") on an Invalid Date. *)
Definition format (h : Host) (date : Date) : Exc string :=
  match date with
  | None => Throw (ErrorObject "Invalid time value")
  | Some t => Ok (yyyyMMdd (civilOfMs (LocalTime h t)))
  end.

End DateFns.

(** [toZonedTime] of date-fns-tz, with the helpers it goes through. *)
Module DateFnsTz.

Definition digitValue (c : ascii) : option Z :=
  let n := Z.of_nat (nat_of_ascii c) in
  if (48 <=? n) && (n <=? 57) then Some (n - 48) else None.

Definition twoDigits (a b : ascii) : option Z :=
  match digitValue a, digitValue b with
  | Some x, Some y => Some (10 * x + y)
  | _, _ => None
  end.

Definition signOf (c : ascii) : option Z :=
  if Ascii.eqb c "+" then Some 1
  else if Ascii.eqb c "-" then Some (-1)
  else None.

Definition validateTimezone (hours : Z) (minutes : option Z) : bool :=
  (-23 <=? hours) && (hours <=? 23) &&
  match minutes with
  | Some m => (0 <=? m) && (m <=? 59)
  | None => true
  end.

(** The zone strings that [tzParseTimezone] reads by their letters, before
    it asks [Intl]: the empty string, "Z", "+hh", "+hh:mm" and "+hhmm"
    (either sign).  [Matched None] is the NaN of a match that fails
    [validateTimezone]. *)
Inductive Lexical : Type :=
  | NoMatch
  | Matched (offsetMilliseconds : option Z).

Definition hhmm (sg hh : Z) (c d : ascii) : Lexical :=
  match twoDigits c d with
  | Some mm =>
      if validateTimezone hh (Some mm)
      then let absoluteOffset := Z.abs hh * 3600000 + mm * 60000 in
           Matched (Some (if sg =? 1 then - absoluteOffset else absoluteOffset))
      else Matched None
  | None => NoMatch
  end.

Definition lexicalOffset (tz : string) : Lexical :=
  match tz with
  | EmptyString => Matched (Some 0)
  | String s EmptyString =>
      if Ascii.eqb s "Z" then Matched (Some 0) else NoMatch
  | String s (String a (String b rest)) =>
      match signOf s, twoDigits a b with
      | Some sg, Some hh =>
          match rest with
          | EmptyString =>
              let hours := sg * hh in
              if validateTimezone hours None
              then Matched (Some (- (hours * 3600000)))
              else Matched None
          | String c (String d EmptyString) => hhmm sg hh c d
          | String colon (String c (String d EmptyString)) =>
              if Ascii.eqb colon ":" then hhmm sg hh c d else NoMatch
          | _ => NoMatch
          end
      | _, _ => NoMatch
      end
  | _ => NoMatch
  end.

(** [tzTokenizeDate]: year, month, day, hour, minute and second of the
    zone's wall clock as [Intl.DateTimeFormat] prints them with numeric
    fields and no era -- the year is the year of the era. *)
Definition tzTokenizeDate (off : Z -> Z) (t : Z) : Z * Z * Z * Z * Z * Z :=
  let wall := t + off t in
  let '(y, m, d) := civilOfMs wall in
  (if 0 <? y then y else 1 - y, m, d,
   getUTCHours wall, getUTCMinutes wall, getUTCSeconds wall).

Definition newDateUTC (fullYear month day hour minute second millisecond : Z)
    : Date :=
  setUTCHours (setUTCFullYear (Some 0) fullYear month day)
    hour minute second millisecond.

(** [calcOffset]: the milliseconds of the instant are dropped, since the
    tokens do not carry them. *)
Definition calcOffset (off : Z -> Z) (t : Z) : option Z :=
  let '(year, month, day, hour, minute, second) := tzTokenizeDate off t in
  match newDateUTC year (month - 1) day (hour mod 24) minute second 0 with
  | Some asUTC =>
      let over := Z.rem t 1000 in
      let asTS := t - (if 0 <=? over then over else 1000 + over) in
      Some (asUTC - asTS)
  | None => None
  end.

(** [tzParseTimezone(timezoneString, date, true)]; [None] is NaN. *)
Definition tzParseTimezone (h : Host) (timezoneString : string) (date : Date)
    : option Z :=
  match lexicalOffset timezoneString with
  | Matched r => r
  | NoMatch =>
      match zoneOffset h timezoneString, date with
      | Some off, Some t => option_map Z.opp (calcOffset off t)
      | _, _ => None
      end
  end.

(** [toZonedTime(date, timeZone)]: a [Date] whose local-time fields are set
    to the UTC fields of the instant moved by the zone's offset. *)
Definition toZonedTime (h : Host) (date : Date) (timeZone : string) : Date :=
  let d :=
    match date, tzParseTimezone h timeZone date with
    | Some t, Some offsetMilliseconds => timeClip (t - offsetMilliseconds)
    | _, _ => None
    end in
  match d with
  | Some u =>
      setHours h
        (setFullYear h (Some 0) (getUTCFullYear u) (getUTCMonth u) (getUTCDate u))
        (getUTCHours u) (getUTCMinutes u) (getUTCSeconds u)
        (getUTCMilliseconds u)
  | None => None
  end.

End DateFnsTz.

(** ** The calendar resolver *)

(** [isValidTimezone]: the constructor of [Intl.DateTimeFormat] either
    accepts the name or throws. *)
Definition isValidTimezone (h : Host) (tz : string) : bool :=
  match zoneOffset h tz with
  | Some _ => true
  | None => false
  end.

(** [timestampToDateInTimezone(timestamp, timezone?)].  The [try] covers the
    zoned branch only; the final [format] is outside it. *)
Definition timestampToDateInTimezone (h : Host) (timestamp : Z)
    (timezone : option string) : Exc string :=
  let date := newDate (timestamp * 1000) in
  let zoned :=
    match timezone with
    | Some tz =>
        if truthy tz && isValidTimezone h tz
        then Some (DateFns.format h (DateFnsTz.toZonedTime h date tz))
        else None
    | None => None
    end in
  match zoned with
  | Some (Ok s) => Ok s
  | _ => DateFns.format h date
  end.

(** ** Data *)

(** The part of [PelotonWorkout] the sync reads.  [w_created_at] is in epoch
    seconds; [w_ride] is absent when the workout has no class attached. *)
Record Ride : Type := { ride_id : string }.

Record PelotonWorkout : Type := {
  w_id : string;
  w_status : string;
  w_created_at : Z;
  w_ride : option Ride
}.

(** A row of [planned_workouts] as selected by the eligibility query. *)
Record PlannedRow : Type := {
  pw_id : string;
  pw_peloton_ride_id : string;
  pw_scheduled_date : string;
  pw_sort_order : Z;
  pw_peloton_workout_id : option string
}.

Record PlannedWorkoutMatch : Type := {
  m_id : string;
  m_peloton_ride_id : string;
  m_sort_order : Z;
  m_peloton_workout_id : option string
}.

Record CompletionSyncResult : Type := {
  success : bool;
  matched : nat;
  error : option string
}.

Record SyncOptions : Type := { timezone : option string }.

(** [options?.timezone] *)
Definition optionsTimezone (options : option SyncOptions) : option string :=
  match options with
  | Some o => timezone o
  | None => None
  end.

(** The predicate of [response.data.filter]:
    [w.status === "COMPLETE" && w.ride?.id]. *)
Definition isCompletedWithRide (w : PelotonWorkout) : bool :=
  String.eqb (w_status w) "COMPLETE" &&
  match w_ride w with
  | Some r => truthy (ride_id r)
  | None => false
  end.

(** ** The candidate index *)

Definition toMatch (pw : PlannedRow) : PlannedWorkoutMatch :=
  {| m_id := pw_id pw;
     m_peloton_ride_id := pw_peloton_ride_id pw;
     m_sort_order := pw_sort_order pw;
     m_peloton_workout_id := pw_peloton_workout_id pw |}.

(** One turn of the loop that fills [plannedByDateAndRide]: create the
    date's inner map and the ride's array when missing, then push. *)
Definition addPlanned (idx : gmap string (gmap string (list PlannedWorkoutMatch)))
    (pw : PlannedRow) : gmap string (gmap string (list PlannedWorkoutMatch)) :=
  let dateKey := pw_scheduled_date pw in
  let byRide := default ∅ (idx !! dateKey) in
  let workouts := default [] (byRide !! pw_peloton_ride_id pw) in
  <[dateKey := <[pw_peloton_ride_id pw := workouts ++ [toMatch pw]]> byRide]> idx.

(** The comparator handed to [sort]: [(a, b) => a.sort_order - b.sort_order]. *)
Definition compareSortOrder (a b : PlannedWorkoutMatch) : Z :=
  m_sort_order a - m_sort_order b.

(** [Array.prototype.sort] is stable; with a consistent comparator its
    result is the one that stable insertion computes. *)
Fixpoint insertSorted (x : PlannedWorkoutMatch) (l : list PlannedWorkoutMatch)
    : list PlannedWorkoutMatch :=
  match l with
  | [] => [x]
  | y :: l' =>
      if compareSortOrder x y <=? 0 then x :: y :: l' else y :: insertSorted x l'
  end.

Fixpoint sortBySortOrder (l : list PlannedWorkoutMatch) : list PlannedWorkoutMatch :=
  match l with
  | [] => []
  | x :: l' => insertSorted x (sortBySortOrder l')
  end.

(** The index after both loops: filled, then every bucket sorted. *)
Definition plannedByDateAndRide (plannedWorkouts : list PlannedRow)
    : gmap string (gmap string (list PlannedWorkoutMatch)) :=
  fmap (M := gmap string) (fmap (M := gmap string) sortBySortOrder)
    (foldl addPlanned ∅ plannedWorkouts).

(** ** Collaborators and the trace of calls made to them *)

Record GetUserWorkoutsOptions : Type := { limit : Z; joins : string }.

Record PostgrestError : Type := { pe_message : string }.

(** What the awaited eligibility query resolves to. *)
Record SelectResponse : Type := {
  sel_data : option (list PlannedRow);
  sel_error : option PostgrestError
}.

(** What the awaited update resolves to. *)
Record UpdateResponse : Type := { upd_error : option PostgrestError }.

(** The object passed to [.update(...)]. *)
Record WorkoutUpdate : Type := {
  u_status : string;
  u_completed_at : string;
  u_peloton_workout_id : string
}.

(** The collaborators act on a world [W] of their own (the remote
    services); a call may resolve to a value or reject. *)
Record PelotonClient (W : Type) : Type := {
  getUserWorkouts :
    string -> GetUserWorkoutsOptions -> W -> W * Exc (list PelotonWorkout)
}.
Arguments getUserWorkouts {W} _ _ _ _.

Record SupabaseClient (W : Type) : Type := {
  (** [from("planned_workouts").select(...).eq("user_id", userId)
       .eq("status", "planned").is("peloton_workout_id", null)] *)
  selectPlanned : string -> W -> W * Exc SelectResponse;
  (** [from("planned_workouts").update(payload).eq("id", id)] *)
  updatePlanned : WorkoutUpdate -> string -> W -> W * Exc UpdateResponse
}.
Arguments selectPlanned {W} _ _ _.
Arguments updatePlanned {W} _ _ _ _.

(** One entry per call, with what the call resolved to. *)
Inductive Event : Type :=
  | EvGetUserWorkouts (pelotonUserId : string) (opts : GetUserWorkoutsOptions)
      (r : Exc (list PelotonWorkout))
  | EvSelect (userId : string) (r : Exc SelectResponse)
  | EvUpdate (id : string) (payload : WorkoutUpdate) (r : Exc UpdateResponse).

(** ** A state-and-exception monad for the body of the run *)

Definition M (W A : Type) : Type := W * list Event -> (W * list Event) * Exc A.

Definition ret {W A} (a : A) : M W A := fun s => (s, Ok a).

Definition bind {W A B} (c : M W A) (k : A -> M W B) : M W B :=
  fun s =>
    match c s with
    | (s', Ok a) => k a s'
    | (s', Throw e) => (s', Throw e)
    end.

(** An expression that may throw and touches no collaborator. *)
Definition lift {W A} (x : Exc A) : M W A := fun s => (s, x).

Notation "'let*' x ':=' c 'in' k" := (bind c (fun x => k))
  (at level 10, x name, c at level 100, k at level 200).

Definition awaitGetUserWorkouts {W} (peloton : PelotonClient W)
    (pelotonUserId : string) (opts : GetUserWorkoutsOptions)
    : M W (list PelotonWorkout) :=
  fun '(w, tr) =>
    let '(w', r) := getUserWorkouts peloton pelotonUserId opts w in
    ((w', tr ++ [EvGetUserWorkouts pelotonUserId opts r]), r).

Definition awaitSelect {W} (supabase : SupabaseClient W) (userId : string)
    : M W SelectResponse :=
  fun '(w, tr) =>
    let '(w', r) := selectPlanned supabase userId w in
    ((w', tr ++ [EvSelect userId r]), r).

Definition awaitUpdate {W} (supabase : SupabaseClient W)
    (payload : WorkoutUpdate) (id : string) : M W UpdateResponse :=
  fun '(w, tr) =>
    let '(w', r) := updatePlanned supabase payload id w in
    ((w', tr ++ [EvUpdate id payload r]), r).

(** ** The matching engine *)

(** The four run-scoped trackers declared before the loop. *)
Record LoopState : Type := {
  successfulUpdates : list string;
  matchedPelotonWorkoutIds : gset string;
  attemptedIds : list string;
  failedUpdates : nat
}.

Definition initialLoopState : LoopState :=
  {| successfulUpdates := [];
     matchedPelotonWorkoutIds := ∅;
     attemptedIds := [];
     failedUpdates := 0%nat |}.

(** [attemptedIds.includes(id)] *)
Definition includes (l : list string) (x : string) : bool :=
  bool_decide (x ∈ l).

(** [candidates.find((c) => !attemptedIds.includes(c.id))] *)
Definition findUnattempted (attempted : list string)
    (candidates : list PlannedWorkoutMatch) : option PlannedWorkoutMatch :=
  List.find (fun c => negb (includes attempted (m_id c))) candidates.

(** [completedWorkout.ride!.id]: a TypeError when the ride is absent. *)
Definition rideIdOf (cw : PelotonWorkout) : Exc string :=
  match w_ride cw with
  | Some r => Ok (ride_id r)
  | None =>
      Throw (ErrorObject "Cannot read properties of undefined (reading 'id')")
  end.

Section Engine.

Context {W : Type}.
Variable host : Host.
Variable supabase : SupabaseClient W.
Variable options : option SyncOptions.
Variable index : gmap string (gmap string (list PlannedWorkoutMatch)).

(** The body of [for (const completedWorkout of completedWorkouts)];
    a [continue] returns the state unchanged. *)
Definition matchOne (st : LoopState) (cw : PelotonWorkout) : M W LoopState :=
  let* rideId := lift (rideIdOf cw) in
  let* completionDate :=
    lift (timestampToDateInTimezone host (w_created_at cw)
            (optionsTimezone options)) in
  if bool_decide (w_id cw ∈ matchedPelotonWorkoutIds st) then ret st else
  match index !! completionDate with
  | None => ret st
  | Some byDate =>
      match byDate !! rideId with
      | None => ret st
      | Some candidates =>
          if (length candidates =? 0)%nat then ret st else
          match findUnattempted (attemptedIds st) candidates with
          | None => ret st
          | Some m =>
              let st1 :=
                {| successfulUpdates := successfulUpdates st;
                   matchedPelotonWorkoutIds :=
                     matchedPelotonWorkoutIds st ∪ {[ w_id cw ]};
                   attemptedIds := attemptedIds st ++ [m_id m];
                   failedUpdates := failedUpdates st |} in
              let* completedAt :=
                lift (toISOString (newDate (w_created_at cw * 1000))) in
              let* r :=
                awaitUpdate supabase
                  {| u_status := "completed";
                     u_completed_at := completedAt;
                     u_peloton_workout_id := w_id cw |}
                  (m_id m) in
              match upd_error r with
              | Some _ =>
                  ret {| successfulUpdates := successfulUpdates st1;
                         matchedPelotonWorkoutIds := matchedPelotonWorkoutIds st1;
                         attemptedIds := attemptedIds st1;
                         failedUpdates := S (failedUpdates st1) |}
              | None =>
                  ret {| successfulUpdates := successfulUpdates st1 ++ [m_id m];
                         matchedPelotonWorkoutIds := matchedPelotonWorkoutIds st1;
                         attemptedIds := attemptedIds st1;
                         failedUpdates := failedUpdates st1 |}
              end
          end
      end
  end.

(** The whole loop, in the order of [completedWorkouts]. *)
Fixpoint matchAll (completedWorkouts : list PelotonWorkout) (st : LoopState)
    : M W LoopState :=
  match completedWorkouts with
  | [] => ret st
  | cw :: rest => let* st' := matchOne st cw in matchAll rest st'
  end.

End Engine.

(** The summary returned after the loop. *)
Definition summary (st : LoopState) : CompletionSyncResult :=
  {| success := (failedUpdates st =? 0)%nat;
     matched := length (successfulUpdates st);
     error :=
       if (0 <? failedUpdates st)%nat
       then Some (toString (Z.of_nat (failedUpdates st))
                    +:+ " workout(s) failed to update in database")
       else None |}.

Definition noMatch : CompletionSyncResult :=
  {| success := true; matched := 0%nat; error := None |}.

(** The body of the [try] block of [syncCompletedWorkouts]. *)
Definition syncBody {W} (host : Host) (userId pelotonUserId : string)
    (peloton : PelotonClient W) (supabase : SupabaseClient W)
    (options : option SyncOptions) : M W CompletionSyncResult :=
  let* data :=
    awaitGetUserWorkouts peloton pelotonUserId
      {| limit := 20; joins := "ride" |} in
  let completedWorkouts := List.filter isCompletedWithRide data in
  if (length completedWorkouts =? 0)%nat then ret noMatch else
  let* response := awaitSelect supabase userId in
  match sel_error response with
  | Some fetchError =>
      ret {| success := false;
             matched := 0%nat;
             error := Some ("Failed to fetch planned workouts: "
                              +:+ pe_message fetchError) |}
  | None =>
      match sel_data response with
      | None => ret noMatch
      | Some plannedWorkouts =>
          if (length plannedWorkouts =? 0)%nat then ret noMatch else
          let* st :=
            matchAll host supabase options
              (plannedByDateAndRide plannedWorkouts)
              completedWorkouts initialLoopState in
          ret (summary st)
      end
  end.

(** The [catch] clause: [error instanceof Error ? error.message
    : "Unknown error"]. *)
Definition caught (e : Thrown) : CompletionSyncResult :=
  {| success := false;
     matched := 0%nat;
     error := Some (match e with
                    | ErrorObject message => message
                    | NonError => "Unknown error"
                    end) |}.

(** [syncCompletedWorkouts]: the body under the top-level [try]/[catch].
    A run starts from a world [w] with an empty trace and yields the final
    world, the trace of calls and the summary. *)
Definition syncCompletedWorkouts {W} (host : Host) (userId pelotonUserId : string)
    (peloton : PelotonClient W) (supabase : SupabaseClient W)
    (options : option SyncOptions) (w : W)
    : W * list Event * CompletionSyncResult :=
  match syncBody host userId pelotonUserId peloton supabase options (w, []) with
  | ((w', tr), Ok r) => (w', tr, r)
  | ((w', tr), Throw e) => (w', tr, caught e)
  end.

(** The trace and the summary of a run. *)
Definition runTrace {W} (host : Host) (userId pelotonUserId : string)
    (peloton : PelotonClient W) (supabase : SupabaseClient W)
    (options : option SyncOptions) (w : W) : list Event :=
  snd (fst (syncCompletedWorkouts host userId pelotonUserId peloton supabase options w)).

Definition runResult {W} (host : Host) (userId pelotonUserId : string)
    (peloton : PelotonClient W) (supabase : SupabaseClient W)
    (options : option SyncOptions) (w : W) : CompletionSyncResult :=
  snd (syncCompletedWorkouts host userId pelotonUserId peloton supabase options w).

(** * The vocabulary of the statements *)

(** ** Order and membership of a bucket *)

Definition orderLe (a b : PlannedWorkoutMatch) : Prop :=
  m_sort_order a <= m_sort_order b.

Definition hasOrder (k : Z) (c : PlannedWorkoutMatch) : bool :=
  m_sort_order c =? k.

(** The rows that end up in the bucket of a date and a ride. *)
Definition inBucket (d r : string) (pw : PlannedRow) : bool :=
  String.eqb (pw_scheduled_date pw) d && String.eqb (pw_peloton_ride_id pw) r.

(** [plannedByDateAndRide.get(d)?.get(r)] *)
Definition lookupBucket (idx : gmap string (gmap string (list PlannedWorkoutMatch)))
    (d r : string) : option (list PlannedWorkoutMatch) :=
  match idx !! d with
  | Some byDate => byDate !! r
  | None => None
  end.

(** ** Reading a trace *)

Definition asUpdate (e : Event)
    : option (string * WorkoutUpdate * Exc UpdateResponse) :=
  match e with
  | EvUpdate id payload r => Some (id, payload, r)
  | _ => None
  end.

(** The writes a trace holds, oldest first. *)
Definition updates (tr : list Event)
    : list (string * WorkoutUpdate * Exc UpdateResponse) :=
  omap asUpdate tr.

(** The planned-workout id each write was addressed to. *)
Definition writeTargets (tr : list Event) : list string :=
  map (fun u => fst (fst u)) (updates tr).

(** The Peloton workout id each write carried. *)
Definition writeActivities (tr : list Event) : list string :=
  map (fun u => u_peloton_workout_id (snd (fst u))) (updates tr).

Definition writePairs (tr : list Event) : list (string * string) :=
  map (fun u => (fst (fst u), u_peloton_workout_id (snd (fst u)))) (updates tr).

(** A write succeeded when it resolved without an error, and failed when
    it resolved with one. *)
Definition isSuccess (u : string * WorkoutUpdate * Exc UpdateResponse) : bool :=
  match snd u with
  | Ok {| upd_error := None |} => true
  | _ => false
  end.

Definition isFailure (u : string * WorkoutUpdate * Exc UpdateResponse) : bool :=
  match snd u with
  | Ok {| upd_error := Some _ |} => true
  | _ => false
  end.

Definition succeededWrites (tr : list Event) : nat :=
  length (List.filter isSuccess (updates tr)).

Definition failedWrites (tr : list Event) : nat :=
  length (List.filter isFailure (updates tr)).

(** The completed workouts of the feed, and the rows an eligibility query
    that resolved without error returned. *)
Definition eligibleActivities (tr : list Event) : list PelotonWorkout :=
  flat_map (fun e => match e with
                     | EvGetUserWorkouts _ _ (Ok data) =>
                         List.filter isCompletedWithRide data
                     | _ => []
                     end) tr.

Definition eligiblePlanned (tr : list Event) : list PlannedRow :=
  flat_map (fun e => match e with
                     | EvSelect _ (Ok {| sel_data := Some rows;
                                         sel_error := None |}) => rows
                     | _ => []
                     end) tr.

(** ** Choosing a candidate *)

(** [find] returns the first candidate that has not been attempted. *)
Definition FirstFree (attempted : list string)
    (bucket : list PlannedWorkoutMatch) (m : PlannedWorkoutMatch) : Prop :=
  exists l1 l2,
    bucket = l1 ++ m :: l2 /\
    (forall c, c ∈ l1 -> m_id c ∈ attempted) /\
    (m_id m ∉ attempted).

Section Choice.

Variable host : Host.
Variable options : option SyncOptions.
Variable index : gmap string (gmap string (list PlannedWorkoutMatch)).

(** What one turn of the loop decides before it writes: an exception, a
    [continue], or the candidate to write to. *)
Definition choose (consumed : gset string) (attempted : list string)
    (cw : PelotonWorkout) : Exc (option PlannedWorkoutMatch) :=
  match rideIdOf cw with
  | Throw e => Throw e
  | Ok rideId =>
      match timestampToDateInTimezone host (w_created_at cw)
              (optionsTimezone options) with
      | Throw e => Throw e
      | Ok completionDate =>
          if bool_decide (w_id cw ∈ consumed) then Ok None
          else Ok (match lookupBucket index completionDate rideId with
                   | Some candidates => findUnattempted attempted candidates
                   | None => None
                   end)
      end
  end.

(** The writes of a loop in which nothing throws: they depend on the feed
    and the index only, not on how any write resolves. *)
Fixpoint plannedWrites (completedWorkouts : list PelotonWorkout)
    (consumed : gset string) (attempted : list string)
    : list (string * string) :=
  match completedWorkouts with
  | [] => []
  | cw :: rest =>
      match choose consumed attempted cw with
      | Ok (Some m) =>
          (m_id m, w_id cw)
            :: plannedWrites rest (consumed ∪ {[ w_id cw ]})
                 (attempted ++ [m_id m])
      | _ => plannedWrites rest consumed attempted
      end
  end.

End Choice.

(** ** One turn of the loop *)

(** The trackers once the entry is marked attempted and the activity
    consumed, and once the outcome of the write is recorded. *)
Definition marked (st : LoopState) (cw : PelotonWorkout)
    (m : PlannedWorkoutMatch) : LoopState :=
  {| successfulUpdates := successfulUpdates st;
     matchedPelotonWorkoutIds := matchedPelotonWorkoutIds st ∪ {[ w_id cw ]};
     attemptedIds := attemptedIds st ++ [m_id m];
     failedUpdates := failedUpdates st |}.

Definition recorded (st1 : LoopState) (m : PlannedWorkoutMatch)
    (r : UpdateResponse) : LoopState :=
  match upd_error r with
  | Some _ =>
      {| successfulUpdates := successfulUpdates st1;
         matchedPelotonWorkoutIds := matchedPelotonWorkoutIds st1;
         attemptedIds := attemptedIds st1;
         failedUpdates := S (failedUpdates st1) |}
  | None =>
      {| successfulUpdates := successfulUpdates st1 ++ [m_id m];
         matchedPelotonWorkoutIds := matchedPelotonWorkoutIds st1;
         attemptedIds := attemptedIds st1;
         failedUpdates := failedUpdates st1 |}
  end.

Definition payloadFor (cw : PelotonWorkout) (completedAt : string)
    : WorkoutUpdate :=
  {| u_status := "completed";
     u_completed_at := completedAt;
     u_peloton_workout_id := w_id cw |}.

(** The trackers after a write, however it resolved. *)
Definition afterWrite (st : LoopState) (cw : PelotonWorkout)
    (m : PlannedWorkoutMatch) (out : Exc UpdateResponse) : LoopState :=
  match out with
  | Ok r => recorded (marked st cw m) m r
  | Throw _ => marked st cw m
  end.

(** ** What the loop maintains

    [Inv index tr st] relates the trace to the trackers.  Because the
    entry is pushed on [attemptedIds] before the write is awaited, the
    relation also holds for the trackers as they stand when a write
    rejects. *)
Record Inv (index : gmap string (gmap string (list PlannedWorkoutMatch)))
    (tr : list Event) (st : LoopState) : Prop := {
  inv_targets : writeTargets tr = attemptedIds st;
  inv_nodup : NoDup (attemptedIds st);
  inv_consumed : forall x, x ∈ writeActivities tr -> x ∈ matchedPelotonWorkoutIds st;
  inv_consumed_nodup : NoDup (writeActivities tr);
  inv_succeeded : length (successfulUpdates st) = succeededWrites tr;
  inv_failed : failedUpdates st = failedWrites tr;
  inv_indexed : forall x, x ∈ attemptedIds st ->
    exists d r bucket m,
      lookupBucket index d r = Some bucket /\ (m ∈ bucket) /\ m_id m = x
}.

(** The events that are writes. *)
Definition isUpdate (e : Event) : Prop :=
  match e with
  | EvUpdate _ _ _ => True
  | _ => False
  end.

(** ** First come, first served

    A write is in order when it goes to the first candidate, in its
    bucket, that no earlier write of the run was addressed to. *)
Definition FifoWrite (host : Host) (options : option SyncOptions)
    (index : gmap string (gmap string (list PlannedWorkoutMatch)))
    (feed : list PelotonWorkout) (before : list string)
    (id : string) (payload : WorkoutUpdate) : Prop :=
  exists cw r d bucket m,
    (cw ∈ feed) /\
    w_id cw = u_peloton_workout_id payload /\
    rideIdOf cw = Ok r /\
    timestampToDateInTimezone host (w_created_at cw) (optionsTimezone options)
      = Ok d /\
    lookupBucket index d r = Some bucket /\
    FirstFree before bucket m /\
    m_id m = id.

Definition FifoTrace (host : Host) (options : option SyncOptions)
    (index : gmap string (gmap string (list PlannedWorkoutMatch)))
    (feed : list PelotonWorkout) (tr : list Event) : Prop :=
  forall tr1 id payload out tr2,
    tr = tr1 ++ EvUpdate id payload out :: tr2 ->
    FifoWrite host options index feed (writeTargets tr1) id payload.

(** ** The shapes a run can take *)

Definition fetchOptions : GetUserWorkoutsOptions :=
  {| limit := 20; joins := "ride" |}.

Definition selectFailure (fetchError : PostgrestError) : CompletionSyncResult :=
  {| success := false;
     matched := 0%nat;
     error := Some ("Failed to fetch planned workouts: "
                      +:+ pe_message fetchError) |}.

Section RunShapes.

Context {W : Type}.
Variable host : Host.
Variables userId pelotonUserId : string.
Variable supabase : SupabaseClient W.
Variable options : option SyncOptions.

(** Trace and outcome of the [try] block, return path by return path. *)
Inductive RunCase : list Event -> Exc CompletionSyncResult -> Prop :=
  | RunFetchRejected e :
      RunCase [EvGetUserWorkouts pelotonUserId fetchOptions (Throw e)] (Throw e)
  | RunNothingCompleted data :
      List.filter isCompletedWithRide data = [] ->
      RunCase [EvGetUserWorkouts pelotonUserId fetchOptions (Ok data)] (Ok noMatch)
  | RunSelectRejected data e :
      List.filter isCompletedWithRide data <> [] ->
      RunCase [EvGetUserWorkouts pelotonUserId fetchOptions (Ok data);
               EvSelect userId (Throw e)] (Throw e)
  | RunSelectFailed data resp fetchError :
      List.filter isCompletedWithRide data <> [] ->
      sel_error resp = Some fetchError ->
      RunCase [EvGetUserWorkouts pelotonUserId fetchOptions (Ok data);
               EvSelect userId (Ok resp)] (Ok (selectFailure fetchError))
  | RunNothingPlanned data resp :
      List.filter isCompletedWithRide data <> [] ->
      sel_error resp = None ->
      sel_data resp = None \/ sel_data resp = Some [] ->
      RunCase [EvGetUserWorkouts pelotonUserId fetchOptions (Ok data);
               EvSelect userId (Ok resp)] (Ok noMatch)
  | RunLoop data resp rows w2 :
      List.filter isCompletedWithRide data <> [] ->
      sel_error resp = None ->
      sel_data resp = Some rows ->
      rows <> [] ->
      let res :=
        matchAll host supabase options (plannedByDateAndRide rows)
          (List.filter isCompletedWithRide data) initialLoopState
          (w2, [EvGetUserWorkouts pelotonUserId fetchOptions (Ok data);
                EvSelect userId (Ok resp)]) in
      RunCase (snd (fst res))
        (match snd res with
         | Ok st => Ok (summary st)
         | Throw e => Throw e
         end).

End RunShapes.

(** ** The shape of a printed date *)

Definition isDigit (c : ascii) : bool :=
  (48 <=? nat_of_ascii c)%nat && (nat_of_ascii c <=? 57)%nat.

Fixpoint allDigits (s : string) : bool :=
  match s with
  | EmptyString => true
  | String c s' => isDigit c && allDigits s'
  end.

(** A year of four digits or more, a month and a day of two digits each,
    joined by dashes. *)
Definition isYmdString (s : string) : Prop :=
  exists yyyy MM dd,
    s = yyyy +:+ "-" +:+ MM +:+ "-" +:+ dd /\
    allDigits yyyy = true /\ (4 <= String.length yyyy)%nat /\
    allDigits MM = true /\ String.length MM = 2%nat /\
    allDigits dd = true /\ String.length dd = 2%nat.

(** ** Wall-clock readings of the process's own zone *)

(** The local wall-clock reading [wall] exists in the process's zone and
    stands for an instant within the range of [Date]: converted to an
    instant and back, it reads the same.  (A reading skipped by a
    daylight-saving change does not.) *)
Definition LocalRoundTrip (h : Host) (wall : Z) : Prop :=
  Z.abs (UTC h wall) <= maxTime /\ LocalTime h (UTC h wall) = wall.

(** The reading that [toZonedTime] sets first: the day of [wall], at the
    time of day that the epoch has in the process's zone. *)
Definition epochTimeOn (h : Host) (wall : Z) : Z :=
  MakeDate (Day wall) (TimeWithinDay (LocalTime h 0)).

(** ** Test doubles, as in the repository's test-suite

    The world of the doubles is the number of updates issued so far, so
    that a store can fail the n-th write. *)

Module Mock.

Definition peloton (r : Exc (list PelotonWorkout)) : PelotonClient nat :=
  {| getUserWorkouts := fun _ _ w => (w, r) |}.

Definition supabase (sel : Exc SelectResponse)
    (upd : nat -> Exc UpdateResponse) : SupabaseClient nat :=
  {| selectPlanned := fun _ w => (w, sel);
     updatePlanned := fun _ _ w => (S w, upd w) |}.

Definition rows (l : list PlannedRow) : Exc SelectResponse :=
  Ok {| sel_data := Some l; sel_error := None |}.

Definition updateOk : Exc UpdateResponse := Ok {| upd_error := None |}.

Definition updateFails (msg : string) : Exc UpdateResponse :=
  Ok {| upd_error := Some {| pe_message := msg |} |}.

(** An excerpt of the zone data: UTC, and Los Angeles with its 2024
    daylight-saving window (10 March 10:00 UTC to 3 November 09:00 UTC). *)
Definition host : Host :=
  {| zoneOffset := fun tz =>
       if String.eqb tz "UTC" then Some (fun _ => 0)
       else if String.eqb tz "America/Los_Angeles" then
         Some (fun t => if (1710064800000 <=? t) && (t <? 1730624400000)
                        then -25200000 else -28800000)
       else None;
     localOffset := fun _ => 0;
     localOffsetAtWall := fun _ => 0 |}.

Definition workout (id : string) (created_at : Z) (ride : string)
    : PelotonWorkout :=
  {| w_id := id; w_status := "COMPLETE"; w_created_at := created_at;
     w_ride := Some {| ride_id := ride |} |}.

Definition planned (id ride date : string) (order : Z) : PlannedRow :=
  {| pw_id := id; pw_peloton_ride_id := ride; pw_scheduled_date := date;
     pw_sort_order := order; pw_peloton_workout_id := None |}.

Definition utc : option SyncOptions := Some {| timezone := Some "UTC"%string |}.

(** [n] completions of one ride on 2024-01-20, and [n] rows planned for
    that ride on that day, with distinct ids. *)
Definition manyWorkouts (n : nat) : list PelotonWorkout :=
  map (fun i => workout ("peloton-workout-" +:+ toString (Z.of_nat i))
                  1705708800 "ride-123")
      (seq 0 n).

Definition manyPlanned (n : nat) : list PlannedRow :=
  map (fun i => planned ("planned-workout-" +:+ toString (Z.of_nat i))
                  "ride-123" "2024-01-20" (Z.of_nat i))
      (seq 0 n).

End Mock.

(** * Further vocabulary: the rest of the behaviour of a run *)

(** ** Where a write comes from

    A write stems from a completed workout of the feed: it is addressed to
    the first free candidate of that workout's bucket and carries the
    payload built from that workout. *)
Definition WriteOrigin (host : Host) (options : option SyncOptions)
    (index : gmap string (gmap string (list PlannedWorkoutMatch)))
    (feed : list PelotonWorkout) (before : list string)
    (id : string) (payload : WorkoutUpdate) : Prop :=
  exists cw r d bucket m completedAt,
    (cw ∈ feed) /\
    rideIdOf cw = Ok r /\
    timestampToDateInTimezone host (w_created_at cw) (optionsTimezone options)
      = Ok d /\
    lookupBucket index d r = Some bucket /\
    FirstFree before bucket m /\
    m_id m = id /\
    toISOString (newDate (w_created_at cw * 1000)) = Ok completedAt /\
    payload = payloadFor cw completedAt.

Definition OriginTrace (host : Host) (options : option SyncOptions)
    (index : gmap string (gmap string (list PlannedWorkoutMatch)))
    (feed : list PelotonWorkout) (tr : list Event) : Prop :=
  forall tr1 id payload out tr2,
    tr = tr1 ++ EvUpdate id payload out :: tr2 ->
    WriteOrigin host options index feed (writeTargets tr1) id payload.

(** ** When a completed workout is left without a write

    Either the workout was given a write after all, or every candidate of
    its bucket (if it has one) was the target of a write. *)
Definition Exhausted (host : Host) (options : option SyncOptions)
    (index : gmap string (gmap string (list PlannedWorkoutMatch)))
    (tr : list Event) (cw : PelotonWorkout) : Prop :=
  (w_id cw ∈ writeActivities tr) \/
  forall r d bucket,
    rideIdOf cw = Ok r ->
    timestampToDateInTimezone host (w_created_at cw) (optionsTimezone options)
      = Ok d ->
    lookupBucket index d r = Some bucket ->
    forall c, c ∈ bucket -> m_id c ∈ writeTargets tr.

(** * The reorder endpoint

    [POST /api/planner/workouts/reorder] writes the position of each
    planned workout of a day as its [sort_order], the value the candidate
    index sorts by. *)

(** ** JSON values, as [request.json()] yields them *)

(** A number is an IEEE 754 double; an object is the list of its members. *)
#[warnings="-register-all"]
Inductive Json : Type :=
  | JNull
  | JBool (b : bool)
  | JNumber (x : spec_float)
  | JString (s : string)
  | JArray (items : list Json)
  | JObject (members : list (string * Json)).

(** Truthiness: null, false, zero, NaN and the empty string are falsy. *)
Definition truthyJson (v : Json) : bool :=
  match v with
  | JNull => false
  | JBool b => b
  | JNumber (S754_zero _) => false
  | JNumber S754_nan => false
  | JNumber _ => true
  | JString s => truthy s
  | JArray _ => true
  | JObject _ => true
  end.

(** Truthiness of a property that may be missing ([undefined] is falsy). *)
Definition truthyProperty (v : option Json) : bool :=
  match v with
  | Some x => truthyJson x
  | None => false
  end.

Fixpoint member (key : string) (members : list (string * Json)) : option Json :=
  match members with
  | [] => None
  | (k, v) :: rest => if String.eqb k key then Some v else member key rest
  end.

(** Destructuring one of the properties the handlers read ([date],
    [workoutIds], [timezone]) out of a parsed body: a TypeError on null;
    [undefined] on anything that is not an object with that member. *)
Definition destructure (body : Json) (key : string) : Exc (option Json) :=
  match body with
  | JNull =>
      Throw (ErrorObject ("Cannot destructure property '" +:+ key
                            +:+ "' of 'body' as it is null."))
  | JObject members => Ok (member key members)
  | _ => Ok None
  end.

(** ** Responses *)

(** The bodies the two planner handlers send. *)
Inductive ResponseBody : Type :=
  | BodyError (error : string)
  | BodySuccess
  | BodySyncFailed (error : string) (matched : nat)
  | BodySynced (message : string) (matched : nat).

(** [NextResponse.json(body, { status })]; the status defaults to 200. *)
Record Response : Type := { status : Z; body : ResponseBody }.

(** ** Collaborators of the reorder handler *)

Record User : Type := { user_id : string }.

Record AuthError : Type := { ae_message : string }.

(** What [supabase.auth.getUser()] resolves to. *)
Record AuthResponse : Type := {
  auth_user : option User;
  auth_error : option AuthError
}.

Record ReorderEnv (W : Type) : Type := {
  (** [request.json()] *)
  requestJson : W -> W * Exc Json;
  (** [createUntypedClient()] *)
  createUntypedClient : W -> W * Exc unit;
  (** [supabase.auth.getUser()] *)
  getUser : W -> W * Exc AuthResponse;
  (** [from("planned_workouts").update({ sort_order }).eq("id", id)
       .eq("user_id", userId)] *)
  updateSortOrder : Json -> nat -> string -> W -> W * Exc UpdateResponse
}.
Arguments requestJson {W} _ _.
Arguments createUntypedClient {W} _ _.
Arguments getUser {W} _ _.
Arguments updateSortOrder {W} _ _ _ _ _.

Inductive ReorderEvent : Type :=
  | RvJson (r : Exc Json)
  | RvCreateClient (r : Exc unit)
  | RvGetUser (r : Exc AuthResponse)
  | RvUpdate (id : Json) (sort_order : nat) (userId : string)
      (r : Exc UpdateResponse).

(** ** The handler *)

(** The same monad as for the sync, over the events of this handler. *)
Definition RM (W A : Type) : Type :=
  W * list ReorderEvent -> (W * list ReorderEvent) * Exc A.

Definition retR {W A} (a : A) : RM W A := fun s => (s, Ok a).

Definition bindR {W A B} (c : RM W A) (k : A -> RM W B) : RM W B :=
  fun s =>
    match c s with
    | (s', Ok a) => k a s'
    | (s', Throw e) => (s', Throw e)
    end.

Definition liftR {W A} (x : Exc A) : RM W A := fun s => (s, x).

Notation "'let+' x ':=' c 'in' k" := (bindR c (fun x => k))
  (at level 10, x name, c at level 100, k at level 200).

Definition awaitR {W A} (call : W -> W * Exc A) (ev : Exc A -> ReorderEvent)
    : RM W A :=
  fun '(w, tr) => let '(w', r) := call w in ((w', tr ++ [ev r]), r).

(** One entry of [results]: [{ id, index, error: result.error }]. *)
Record ReorderResult : Type := {
  rr_id : Json;
  rr_index : nat;
  rr_error : option PostgrestError
}.

(** [workoutIds.map((id, index) => ...)]: every update is issued, in the
    order of the array, before any of them is awaited. *)
Fixpoint issueUpdates {W} (env : ReorderEnv W) (userId : string)
    (workoutIds : list Json) (index : nat) (s : W * list ReorderEvent)
    : (W * list ReorderEvent) * list (Exc ReorderResult) :=
  match workoutIds with
  | [] => (s, [])
  | id :: rest =>
      let '(w, tr) := s in
      let '(w', r) := updateSortOrder env id index userId w in
      let promise :=
        match r with
        | Ok result =>
            Ok {| rr_id := id; rr_index := index; rr_error := upd_error result |}
        | Throw e => Throw e
        end in
      let '(s', promises) :=
        issueUpdates env userId rest (S index)
          (w', tr ++ [RvUpdate id index userId r]) in
      (s', promise :: promises)
  end.

(** [Promise.all]: the results in order when every promise fulfils, a
    rejection when one rejects (the handler does not look at which). *)
Fixpoint promiseAll {A} (promises : list (Exc A)) : Exc (list A) :=
  match promises with
  | [] => Ok []
  | Throw e :: _ => Throw e
  | Ok a :: rest =>
      match promiseAll rest with
      | Ok l => Ok (a :: l)
      | Throw e => Throw e
      end
  end.

Definition isArray (v : option Json) : option (list Json) :=
  match v with
  | Some (JArray items) => Some items
  | _ => None
  end.

(** [r.error] is truthy when an error object is there. *)
Definition hasError (r : ReorderResult) : bool :=
  match rr_error r with
  | Some _ => true
  | None => false
  end.

(** The body of the [try] block of the handler. *)
Definition reorderBody {W} (env : ReorderEnv W) : RM W Response :=
  let+ body := awaitR (requestJson env) RvJson in
  let+ date := liftR (destructure body "date") in
  let+ workoutIds := liftR (destructure body "workoutIds") in
  match truthyProperty date, isArray workoutIds with
  | true, Some ids =>
      let+ _ := awaitR (createUntypedClient env) RvCreateClient in
      let+ auth := awaitR (getUser env) RvGetUser in
      match auth_error auth, auth_user auth with
      | None, Some user =>
          fun s =>
            let '(s', promises) := issueUpdates env (user_id user) ids 0%nat s in
            match promiseAll promises with
            | Throw e => (s', Throw e)
            | Ok results =>
                let failures := List.filter hasError results in
                if (0 <? length failures)%nat then
                  (s', Ok {| status := 500;
                             body := BodyError
                               ("Failed to update "
                                  +:+ toString (Z.of_nat (length failures))
                                  +:+ " workout(s)") |})
                else (s', Ok {| status := 200; body := BodySuccess |})
            end
      | _, _ => retR {| status := 401; body := BodyError "Unauthorized" |}
      end
  | _, _ =>
      retR {| status := 400;
              body := BodyError "Missing required fields: date and workoutIds" |}
  end.

(** [POST] of the reorder route: the body under [try], and the [catch]
    that turns any exception into a 500. *)
Definition reorderPOST {W} (env : ReorderEnv W) (w : W)
    : W * list ReorderEvent * Response :=
  match reorderBody env (w, []) with
  | ((w', tr), Ok response) => (w', tr, response)
  | ((w', tr), Throw _) =>
      (w', tr, {| status := 500; body := BodyError "Internal server error" |})
  end.

(** The updates a trace of the handler holds. *)
Definition sortOrderWrites (tr : list ReorderEvent)
    : list (Json * nat * string) :=
  omap (fun e => match e with
                 | RvUpdate id index userId _ => Some (id, index, userId)
                 | _ => None
                 end) tr.

Definition sortOrderOutcomes (tr : list ReorderEvent)
    : list (Exc UpdateResponse) :=
  omap (fun e => match e with
                 | RvUpdate _ _ _ r => Some r
                 | _ => None
                 end) tr.

(** A write that resolved with an error, and one that rejected. *)
Definition resolvedWithError (r : Exc UpdateResponse) : bool :=
  match r with
  | Ok {| upd_error := Some _ |} => true
  | _ => false
  end.

Definition rejected {A} (r : Exc A) : bool :=
  match r with
  | Throw _ => true
  | Ok _ => false
  end.

(** The events and the promises of [n] updates issued from position
    [index] on, given how each resolved. *)
Fixpoint updateEvents (userId : string) (index : nat) (ids : list Json)
    (outs : list (Exc UpdateResponse)) : list ReorderEvent :=
  match ids, outs with
  | id :: ids', out :: outs' =>
      RvUpdate id index userId out :: updateEvents userId (S index) ids' outs'
  | _, _ => []
  end.

Fixpoint updatePromises (index : nat) (ids : list Json)
    (outs : list (Exc UpdateResponse)) : list (Exc ReorderResult) :=
  match ids, outs with
  | id :: ids', out :: outs' =>
      match out with
      | Ok result =>
          Ok {| rr_id := id; rr_index := index; rr_error := upd_error result |}
      | Throw e => Throw e
      end :: updatePromises (S index) ids' outs'
  | _, _ => []
  end.

(** The return paths of the reorder handler. *)
Inductive ReorderCase : list ReorderEvent -> Response -> Prop :=
  | ReorderJsonRejected e :
      ReorderCase [RvJson (Throw e)]
        {| status := 500; body := BodyError "Internal server error" |}
  | ReorderBodyNull :
      ReorderCase [RvJson (Ok JNull)]
        {| status := 500; body := BodyError "Internal server error" |}
  | ReorderInvalid bodyJson date workoutIds :
      destructure bodyJson "date" = Ok date ->
      destructure bodyJson "workoutIds" = Ok workoutIds ->
      truthyProperty date = false \/ isArray workoutIds = None ->
      ReorderCase [RvJson (Ok bodyJson)]
        {| status := 400;
           body := BodyError "Missing required fields: date and workoutIds" |}
  | ReorderClientRejected bodyJson date ids e :
      destructure bodyJson "date" = Ok date ->
      truthyProperty date = true ->
      destructure bodyJson "workoutIds" = Ok (Some (JArray ids)) ->
      ReorderCase [RvJson (Ok bodyJson); RvCreateClient (Throw e)]
        {| status := 500; body := BodyError "Internal server error" |}
  | ReorderAuthRejected bodyJson date ids e :
      destructure bodyJson "date" = Ok date ->
      truthyProperty date = true ->
      destructure bodyJson "workoutIds" = Ok (Some (JArray ids)) ->
      ReorderCase [RvJson (Ok bodyJson); RvCreateClient (Ok tt);
                   RvGetUser (Throw e)]
        {| status := 500; body := BodyError "Internal server error" |}
  | ReorderUnauthorized bodyJson date ids auth :
      destructure bodyJson "date" = Ok date ->
      truthyProperty date = true ->
      destructure bodyJson "workoutIds" = Ok (Some (JArray ids)) ->
      auth_error auth <> None \/ auth_user auth = None ->
      ReorderCase [RvJson (Ok bodyJson); RvCreateClient (Ok tt);
                   RvGetUser (Ok auth)]
        {| status := 401; body := BodyError "Unauthorized" |}
  | ReorderIssued bodyJson date ids auth user outs :
      destructure bodyJson "date" = Ok date ->
      truthyProperty date = true ->
      destructure bodyJson "workoutIds" = Ok (Some (JArray ids)) ->
      auth_error auth = None ->
      auth_user auth = Some user ->
      length outs = length ids ->
      ReorderCase
        ([RvJson (Ok bodyJson); RvCreateClient (Ok tt); RvGetUser (Ok auth)]
           ++ updateEvents (user_id user) 0 ids outs)
        (match promiseAll (updatePromises 0 ids outs) with
         | Throw _ =>
             {| status := 500; body := BodyError "Internal server error" |}
         | Ok results =>
             if (0 <? length (List.filter hasError results))%nat then
               {| status := 500;
                  body := BodyError
                    ("Failed to update "
                       +:+ toString (Z.of_nat (length (List.filter hasError results)))
                       +:+ " workout(s)") |}
             else {| status := 200; body := BodySuccess |}
         end).

(** ** The earlier version of the reorder handler

    The same file holds the handler as it was before failures were
    reported: the updates are awaited as they are, and their results are
    not looked at. *)
Fixpoint issueBareUpdates {W} (env : ReorderEnv W) (userId : string)
    (workoutIds : list Json) (index : nat) (s : W * list ReorderEvent)
    : (W * list ReorderEvent) * list (Exc UpdateResponse) :=
  match workoutIds with
  | [] => (s, [])
  | id :: rest =>
      let '(w, tr) := s in
      let '(w', r) := updateSortOrder env id index userId w in
      let '(s', promises) :=
        issueBareUpdates env userId rest (S index)
          (w', tr ++ [RvUpdate id index userId r]) in
      (s', r :: promises)
  end.

Definition reorderBodyEarlier {W} (env : ReorderEnv W) : RM W Response :=
  let+ body := awaitR (requestJson env) RvJson in
  let+ date := liftR (destructure body "date") in
  let+ workoutIds := liftR (destructure body "workoutIds") in
  match truthyProperty date, isArray workoutIds with
  | true, Some ids =>
      let+ _ := awaitR (createUntypedClient env) RvCreateClient in
      let+ auth := awaitR (getUser env) RvGetUser in
      match auth_error auth, auth_user auth with
      | None, Some user =>
          fun s =>
            let '(s', promises) :=
              issueBareUpdates env (user_id user) ids 0%nat s in
            match promiseAll promises with
            | Throw e => (s', Throw e)
            | Ok _ => (s', Ok {| status := 200; body := BodySuccess |})
            end
      | _, _ => retR {| status := 401; body := BodyError "Unauthorized" |}
      end
  | _, _ =>
      retR {| status := 400;
              body := BodyError "Missing required fields: date and workoutIds" |}
  end.

Definition reorderPOSTEarlier {W} (env : ReorderEnv W) (w : W)
    : W * list ReorderEvent * Response :=
  match reorderBodyEarlier env (w, []) with
  | ((w', tr), Ok response) => (w', tr, response)
  | ((w', tr), Throw _) =>
      (w', tr, {| status := 500; body := BodyError "Internal server error" |})
  end.

(** Strict order of two candidates by the position stored with them. *)
Definition orderLt (a b : PlannedWorkoutMatch) : Prop :=
  m_sort_order a < m_sort_order b.

(** Test doubles for the reorder handler, as in its test-suite: the world
    counts the updates issued so far. *)
Module MockReorder.

Definition env (bodyJson : Exc Json) (auth : Exc AuthResponse)
    (upd : nat -> Exc UpdateResponse) : ReorderEnv nat :=
  {| requestJson := fun w => (w, bodyJson);
     createUntypedClient := fun w => (w, Ok tt);
     getUser := fun w => (w, auth);
     updateSortOrder := fun _ _ _ w => (S w, upd w) |}.

Definition signedIn : Exc AuthResponse :=
  Ok {| auth_user := Some {| user_id := "user-123" |}; auth_error := None |}.

Definition signedOut : Exc AuthResponse :=
  Ok {| auth_user := None;
        auth_error := Some {| ae_message := "Not authenticated" |} |}.

Definition request (ids : list string) : Json :=
  JObject [("date", JString "2026-01-17");
           ("workoutIds", JArray (map JString ids))]%string.

End MockReorder.

(** * The sync-completions endpoint

    [POST /api/planner/sync-completions] authenticates the caller, loads
    the profile and the Peloton tokens, refreshes an expired token, runs
    [syncCompletedWorkouts] and turns its summary into a response. *)

(** What the handler's [catch] tells apart: a [DecryptionError], a
    [PelotonAuthError], anything else. *)
Inductive Raised : Type :=
  | RaisedDecryption (message : string)
  | RaisedPelotonAuth (message : string)
  | RaisedOther (e : Thrown).

Inductive Try (A : Type) : Type :=
  | Done (a : A)
  | Raise (e : Raised).
Arguments Done {A} a.
Arguments Raise {A} e.

(** A row of [profiles], as far as the handler reads it. *)
Record Profile : Type := {
  peloton_user_id : option string;
  profile_timezone : option string
}.

Record ProfileResponse : Type := {
  prof_data : option Profile;
  prof_error : option PostgrestError
}.

(** A row of [peloton_tokens]. *)
Record Tokens : Type := {
  access_token_encrypted : string;
  refresh_token_encrypted : option string;
  expires_at : string
}.

Record TokensResponse : Type := {
  tok_data : option Tokens;
  tok_error : option PostgrestError
}.

Record RefreshResult : Type := { refresh_success : bool }.

(** The re-read of the access token after a refresh: [data] is the row's
    [access_token_encrypted], or null. *)
Record AccessTokenResponse : Type := { at_data : option string }.

Record SyncRouteEnv (W : Type) : Type := {
  (** [request.json()] *)
  sc_requestJson : W -> W * Try Json;
  (** [createUntypedClient()] *)
  sc_createClient : W -> W * Try unit;
  (** [supabase.auth.getUser()] *)
  sc_getUser : W -> W * Try AuthResponse;
  (** [from("profiles").select("peloton_user_id, timezone").eq("id", id).single()] *)
  sc_selectProfile : string -> W -> W * Try ProfileResponse;
  (** [from("peloton_tokens").select("*").eq("user_id", id).single()] *)
  sc_selectTokens : string -> W -> W * Try TokensResponse;
  (** [new Date(s)] on a string, and the clock read by [new Date()] *)
  sc_parseDate : string -> Date;
  sc_now : W -> Z;
  decryptToken : string -> Try string;
  refreshPelotonToken : string -> string -> W -> W * Try RefreshResult;
  (** [from("peloton_tokens").select("access_token_encrypted")
       .eq("user_id", id).single()] *)
  sc_selectAccessToken : string -> W -> W * Try AccessTokenResponse;
  (** [new PelotonClient(token)] *)
  sc_pelotonClient : string -> Try (PelotonClient W);
  (** the planned-workouts side of the client, and the host, that
      [syncCompletedWorkouts] works with *)
  sc_supabase : SupabaseClient W;
  sc_host : Host;
  (** [syncCompletedWorkouts] when the [timezone] it is handed is a truthy
      value that is not a string (the body of the request is not
      validated): what the date libraries do with it is left open *)
  sc_syncOddTimezone :
    string -> string -> PelotonClient W -> Json -> W
    -> W * list Event * CompletionSyncResult
}.
Arguments sc_requestJson {W} _ _.
Arguments sc_createClient {W} _ _.
Arguments sc_getUser {W} _ _.
Arguments sc_selectProfile {W} _ _ _.
Arguments sc_selectTokens {W} _ _ _.
Arguments sc_parseDate {W} _ _.
Arguments sc_now {W} _ _.
Arguments decryptToken {W} _ _.
Arguments refreshPelotonToken {W} _ _ _ _.
Arguments sc_selectAccessToken {W} _ _ _.
Arguments sc_pelotonClient {W} _ _.
Arguments sc_supabase {W} _.
Arguments sc_host {W} _.
Arguments sc_syncOddTimezone {W} _ _ _ _ _ _.

Inductive RouteEvent : Type :=
  | ScJson (r : Try Json)
  | ScCreateClient (r : Try unit)
  | ScGetUser (r : Try AuthResponse)
  | ScProfile (userId : string) (r : Try ProfileResponse)
  | ScTokens (userId : string) (r : Try TokensResponse)
  | ScRefresh (userId refreshToken : string) (r : Try RefreshResult)
  | ScAccessToken (userId : string) (r : Try AccessTokenResponse)
  | ScSync (userId pelotonUserId : string) (timezone : Json)
      (calls : list Event) (result : CompletionSyncResult).

Definition SM (W A : Type) : Type :=
  W * list RouteEvent -> (W * list RouteEvent) * Try A.

Definition retS {W A} (a : A) : SM W A := fun s => (s, Done a).

Definition bindS {W A B} (c : SM W A) (k : A -> SM W B) : SM W B :=
  fun s =>
    match c s with
    | (s', Done a) => k a s'
    | (s', Raise e) => (s', Raise e)
    end.

Definition liftS {W A} (x : Try A) : SM W A := fun s => (s, x).

Notation "'let%' x ':=' c 'in' k" := (bindS c (fun x => k))
  (at level 10, x name, c at level 100, k at level 200).

Definition awaitS {W A} (call : W -> W * Try A) (ev : Try A -> RouteEvent)
    : SM W A :=
  fun '(w, tr) => let '(w', r) := call w in ((w', tr ++ [ev r]), r).

(** [request.json().catch(() => ({}))]: a body that does not parse counts
    as the empty object. *)
Definition awaitBody {W} (env : SyncRouteEnv W) : SM W Json :=
  fun '(w, tr) =>
    let '(w', r) := sc_requestJson env w in
    ((w', tr ++ [ScJson r]),
     Done (match r with
           | Done parsed => parsed
           | Raise _ => JObject []
           end)).

Definition destructureS (bodyJson : Json) (key : string) : Try (option Json) :=
  match destructure bodyJson key with
  | Ok v => Done v
  | Throw e => Raise (RaisedOther e)
  end.

Definition truthyOption (s : option string) : bool :=
  match s with
  | Some x => truthy x
  | None => false
  end.

(** [profile.timezone || browserTimezone || "UTC"] *)
Definition resolveTimezone (profile : Profile) (browserTimezone : option Json)
    : Json :=
  match profile_timezone profile with
  | Some tz =>
      if truthy tz then JString tz
      else match browserTimezone with
           | Some v => if truthyJson v then v else JString "UTC"
           | None => JString "UTC"
           end
  | None =>
      match browserTimezone with
      | Some v => if truthyJson v then v else JString "UTC"
      | None => JString "UTC"
      end
  end.

(** [new Date(tokens.expires_at) < new Date()]: false when the stored
    instant does not parse (the comparison is with NaN). *)
Definition isExpired {W} (env : SyncRouteEnv W) (tokens : Tokens) (w : W) : bool :=
  match sc_parseDate env (expires_at tokens) with
  | Some t => t <? sc_now env w
  | None => false
  end.

(** The local helper [tryRefresh]. *)
Definition tryRefresh {W} (env : SyncRouteEnv W) (user : User) (tokens : Tokens)
    : SM W (option RefreshResult) :=
  if truthyOption (refresh_token_encrypted tokens) then
    let% plain :=
      liftS (decryptToken env (default "" (refresh_token_encrypted tokens))) in
    let% refreshResult :=
      awaitS (refreshPelotonToken env (user_id user) plain)
        (ScRefresh (user_id user) plain) in
    if refresh_success refreshResult then retS (Some refreshResult)
    else retS None
  else retS None.

(** The call of [syncCompletedWorkouts] with [{ timezone }]. *)
Definition syncRun {W} (env : SyncRouteEnv W) (userId pelotonUserId : string)
    (peloton : PelotonClient W) (tz : Json) (w : W)
    : W * list Event * CompletionSyncResult :=
  match tz with
  | JString name =>
      syncCompletedWorkouts (sc_host env) userId pelotonUserId peloton
        (sc_supabase env) (Some {| timezone := Some name |}) w
  | _ => sc_syncOddTimezone env userId pelotonUserId peloton tz w
  end.

Definition awaitSync {W} (env : SyncRouteEnv W) (userId pelotonUserId : string)
    (peloton : PelotonClient W) (tz : Json) : SM W CompletionSyncResult :=
  fun '(w, tr) =>
    let '(w', calls, result) := syncRun env userId pelotonUserId peloton tz w in
    ((w', tr ++ [ScSync userId pelotonUserId tz calls result]), Done result).

(** The response built from the summary of the sync. *)
Definition syncResponse (result : CompletionSyncResult) : Response :=
  if success result then
    {| status := 200;
       body := BodySynced
         (if (0 <? matched result)%nat
          then "Detected " +:+ toString (Z.of_nat (matched result))
                 +:+ " completed workout(s)"
          else "No new completions detected")
         (matched result) |}
  else
    {| status := 500;
       body := BodySyncFailed
         (if truthyOption (error result) then default "" (error result)
          else "Sync failed")
         (matched result) |}.

(** The part of the handler that starts once the tokens are loaded. *)
Definition syncWithTokens {W} (env : SyncRouteEnv W) (user : User)
    (pelotonUserId : string) (tz : Json) (tokens : Tokens) : SM W Response :=
  fun s =>
    let expired := isExpired env tokens (fst s) in
    (let% accessToken :=
       if expired then
         let% refreshResult := tryRefresh env user tokens in
         match refreshResult with
         | Some res =>
             if refresh_success res then
               let% refreshed :=
                 awaitS (sc_selectAccessToken env (user_id user))
                   (ScAccessToken (user_id user)) in
               retS (Some (match at_data refreshed with
                           | Some token => token
                           | None => access_token_encrypted tokens
                           end))
             else retS None
         | None => retS None
         end
       else retS (Some (access_token_encrypted tokens)) in
     match accessToken with
     | None =>
         retS {| status := 401;
                 body := BodyError "Peloton token expired. Please reconnect." |}
     | Some encrypted =>
         let% plain := liftS (decryptToken env encrypted) in
         let% peloton := liftS (sc_pelotonClient env plain) in
         let% result := awaitSync env (user_id user) pelotonUserId peloton tz in
         retS (syncResponse result)
     end) s.

(** The body of the [try] block of the handler. *)
Definition syncRouteBody {W} (env : SyncRouteEnv W) : SM W Response :=
  let% bodyJson := awaitBody env in
  let% browserTimezone := liftS (destructureS bodyJson "timezone") in
  let% _ := awaitS (sc_createClient env) ScCreateClient in
  let% auth := awaitS (sc_getUser env) ScGetUser in
  match auth_error auth, auth_user auth with
  | None, Some user =>
      let% prof :=
        awaitS (sc_selectProfile env (user_id user)) (ScProfile (user_id user)) in
      match prof_error prof, prof_data prof with
      | None, Some profile =>
          if truthyOption (peloton_user_id profile) then
            let tz := resolveTimezone profile browserTimezone in
            let% tok :=
              awaitS (sc_selectTokens env (user_id user))
                (ScTokens (user_id user)) in
            match tok_error tok, tok_data tok with
            | None, Some tokens =>
                syncWithTokens env user
                  (default "" (peloton_user_id profile)) tz tokens
            | _, _ =>
                retS {| status := 400; body := BodyError "Peloton not connected" |}
            end
          else
            retS {| status := 400; body := BodyError "Peloton profile not found" |}
      | _, _ =>
          retS {| status := 400; body := BodyError "Peloton profile not found" |}
      end
  | _, _ => retS {| status := 401; body := BodyError "Unauthorized" |}
  end.

(** The [catch] clause of the handler. *)
Definition routeCaught (e : Raised) : Response :=
  match e with
  | RaisedDecryption message => {| status := 401; body := BodyError message |}
  | RaisedPelotonAuth _ =>
      {| status := 401;
         body := BodyError "Peloton authentication failed. Please reconnect." |}
  | RaisedOther _ =>
      {| status := 500; body := BodyError "Internal server error" |}
  end.

(** [POST] of the sync-completions route. *)
Definition syncPOST {W} (env : SyncRouteEnv W) (w : W)
    : W * list RouteEvent * Response :=
  match syncRouteBody env (w, []) with
  | ((w', tr), Done response) => (w', tr, response)
  | ((w', tr), Raise e) => (w', tr, routeCaught e)
  end.

(** Test doubles for the sync-completions handler: every collaborator
    answers with a fixed value; the world counts the updates issued. *)
Module MockRoute.

Definition profile (tz : option string) : Try ProfileResponse :=
  Done {| prof_data := Some {| peloton_user_id := Some "peloton-user-123"%string;
                               profile_timezone := tz |};
          prof_error := None |}.

Definition tokens (refresh : option string) (expires : string)
    : Try TokensResponse :=
  Done {| tok_data := Some {| access_token_encrypted := "enc:access";
                              refresh_token_encrypted := refresh;
                              expires_at := expires |};
          tok_error := None |}.

Definition signedIn : Try AuthResponse :=
  Done {| auth_user := Some {| user_id := "user-123" |}; auth_error := None |}.

(** Stored instants are epoch milliseconds in decimal here; anything else
    does not parse. The clock stands at 2024-01-21T00:00:00Z. *)
Definition parseDate (s : string) : Date :=
  if String.eqb s "2024-01-20T00:00:00Z" then Some 1705708800000
  else if String.eqb s "2024-02-01T00:00:00Z" then Some 1706745600000
  else None.

Definition env (bodyJson : Try Json) (auth : Try AuthResponse)
    (prof : Try ProfileResponse) (tok : Try TokensResponse)
    (decrypt : string -> Try string)
    (feed : Exc (list PelotonWorkout)) (planned : Exc SelectResponse)
    (upd : nat -> Exc UpdateResponse) : SyncRouteEnv nat :=
  {| sc_requestJson := fun w => (w, bodyJson);
     sc_createClient := fun w => (w, Done tt);
     sc_getUser := fun w => (w, auth);
     sc_selectProfile := fun _ w => (w, prof);
     sc_selectTokens := fun _ w => (w, tok);
     sc_parseDate := parseDate;
     sc_now := fun _ => 1705795200000;
     decryptToken := decrypt;
     refreshPelotonToken := fun _ _ w => (w, Done {| refresh_success := true |});
     sc_selectAccessToken := fun _ w => (w, Done {| at_data := Some "enc:fresh"%string |});
     sc_pelotonClient := fun _ => Done (Mock.peloton feed);
     sc_supabase := Mock.supabase planned upd;
     sc_host := Mock.host;
     sc_syncOddTimezone := fun _ _ _ _ w =>
       (w, [], {| success := true; matched := 0%nat; error := None |}) |}.

Definition decryptOk (s : string) : Try string := Done ("plain:" +:+ s).

End MockRoute.

(** * The FTP sync endpoint

    [POST] of [app/api/ftp/sync/route.ts].  Numbers are integers here
    (watts); [null] is [None]. *)

(** What [pelotonClient.getMe()] resolves to, as far as the handler reads
    it. *)
Record PelotonUser : Type := {
  cycling_ftp : option Z;
  estimated_cycling_ftp : option Z;
  cycling_ftp_workout_id : option string
}.

(** An element of what [pelotonClient.getFtpHistory] resolves to. *)
Record FtpHistoryRecord : Type := {
  workoutId : string;
  date : Date;
  rideTitle : string;
  avgOutput : option Z;
  calculatedFtp : option Z;
  baselineFtp : option Z
}.

(** A row handed to the upsert into [ftp_records]. *)
Record FtpRow : Type := {
  fr_user_id : string;
  fr_workout_id : string;
  fr_workout_date : string;
  fr_ride_title : string;
  fr_avg_output : option Z;
  fr_calculated_ftp : option Z;
  fr_baseline_ftp : option Z
}.

(** The payload of the update of [profiles]. *)
Record ProfileFtp : Type := {
  current_ftp : option Z;
  estimated_ftp : option Z
}.

Record TokenRow : Type := { tr_access_token_encrypted : option string }.

Record TokenRowResponse : Type := { trr_data : option TokenRow }.

Record FtpPelotonClient (W : Type) : Type := {
  getMe : W -> W * Exc PelotonUser;
  getFtpHistory : string -> W -> W * Exc (list FtpHistoryRecord)
}.
Arguments getMe {W} _ _.
Arguments getFtpHistory {W} _ _ _.

Record FtpEnv (W : Type) : Type := {
  (** [createAdminClient()] *)
  ftp_createClient : W -> W * Exc unit;
  (** [supabase.auth.getUser()] *)
  ftp_getUser : W -> W * Exc AuthResponse;
  (** the query of [peloton_tokens] for the user *)
  ftp_selectToken : string -> W -> W * Exc TokenRowResponse;
  (** the query of [profiles] for the user *)
  ftp_selectProfile : string -> W -> W * Exc ProfileResponse;
  (** [new PelotonClient(token)] *)
  ftp_pelotonClient : string -> Exc (FtpPelotonClient W);
  (** the update of the user's row of [profiles] *)
  ftp_updateProfile : string -> ProfileFtp -> W -> W * Exc UpdateResponse;
  (** the upsert into [ftp_records], on conflict (user_id, workout_id) *)
  ftp_upsert : list FtpRow -> W -> W * Exc UpdateResponse
}.
Arguments ftp_createClient {W} _ _.
Arguments ftp_getUser {W} _ _.
Arguments ftp_selectToken {W} _ _ _.
Arguments ftp_selectProfile {W} _ _ _.
Arguments ftp_pelotonClient {W} _ _.
Arguments ftp_updateProfile {W} _ _ _ _.
Arguments ftp_upsert {W} _ _ _.

(** The collaborator calls of the FTP handler, with what they returned. *)
Inductive FtpEvent : Type :=
  | FvCreateClient (r : Exc unit)
  | FvGetUser (r : Exc AuthResponse)
  | FvSelectToken (userId : string) (r : Exc TokenRowResponse)
  | FvSelectProfile (userId : string) (r : Exc ProfileResponse)
  | FvGetMe (r : Exc PelotonUser)
  | FvUpdateProfile (userId : string) (payload : ProfileFtp)
      (r : Exc UpdateResponse)
  | FvGetFtpHistory (workoutId : string) (r : Exc (list FtpHistoryRecord))
  | FvUpsert (rows : list FtpRow) (r : Exc UpdateResponse).

Inductive FtpBody : Type :=
  | FtpError (error : string)
  | FtpSynced (syncedRecords : nat) (currentFtp : option Z)
  | FtpNoHistory (syncedRecords : nat) (message : string).

Record FtpResponse : Type := { ftp_status : Z; ftp_body : FtpBody }.

Definition FM (W A : Type) : Type :=
  W * list FtpEvent -> (W * list FtpEvent) * Exc A.

Definition retF {W A} (a : A) : FM W A := fun s => (s, Ok a).

Definition bindF {W A B} (c : FM W A) (k : A -> FM W B) : FM W B :=
  fun s =>
    match c s with
    | (s', Ok a) => k a s'
    | (s', Throw e) => (s', Throw e)
    end.

Definition liftF {W A} (x : Exc A) : FM W A := fun s => (s, x).

Notation "'let^' x ':=' c 'in' k" := (bindF c (fun x => k))
  (at level 10, x name, c at level 100, k at level 200).

Definition awaitF {W A} (call : W -> W * Exc A) (ev : Exc A -> FtpEvent)
    : FM W A :=
  fun '(w, tr) => let '(w', r) := call w in ((w', tr ++ [ev r]), r).

(** [x || null] for a number: 0 and a missing value give [null]. *)
Definition orNull (x : option Z) : option Z :=
  match x with
  | Some n => if n =? 0 then None else Some n
  | None => None
  end.

(** [record.calculatedFtp !== null] *)
Definition hasCalculatedFtp (record : FtpHistoryRecord) : bool :=
  match calculatedFtp record with
  | Some _ => true
  | None => false
  end.

(** The object built by the [map] callback; [toISOString] throws on an
    invalid date. *)
Definition ftpRow (userId : string) (record : FtpHistoryRecord) : Exc FtpRow :=
  match toISOString (date record) with
  | Ok iso =>
      Ok {| fr_user_id := userId;
            fr_workout_id := workoutId record;
            fr_workout_date := iso;
            fr_ride_title := rideTitle record;
            fr_avg_output := avgOutput record;
            fr_calculated_ftp := calculatedFtp record;
            fr_baseline_ftp := baselineFtp record |}
  | Throw e => Throw e
  end.

(** [records.map(...)] with a callback that may throw: the first throw
    ends the map. *)
Fixpoint mapExc {A B} (f : A -> Exc B) (l : list A) : Exc (list B) :=
  match l with
  | [] => Ok []
  | x :: rest =>
      match f x with
      | Ok y =>
          match mapExc f rest with
          | Ok ys => Ok (y :: ys)
          | Throw e => Throw e
          end
      | Throw e => Throw e
      end
  end.

(** [ftpHistory.filter(...).map(...)] *)
Definition ftpRecords (userId : string) (ftpHistory : list FtpHistoryRecord)
    : Exc (list FtpRow) :=
  mapExc (ftpRow userId) (List.filter hasCalculatedFtp ftpHistory).

(** The body of the inner [try] block. *)
Definition ftpFetch {W} (env : FtpEnv W) (user : User)
    (pelotonClient : FtpPelotonClient W) : FM W FtpResponse :=
  let^ pelotonUser := awaitF (getMe pelotonClient) FvGetMe in
  let payload := {| current_ftp := orNull (cycling_ftp pelotonUser);
                    estimated_ftp := orNull (estimated_cycling_ftp pelotonUser) |} in
  let^ _ := awaitF (ftp_updateProfile env (user_id user) payload)
              (FvUpdateProfile (user_id user) payload) in
  if truthyOption (cycling_ftp_workout_id pelotonUser) then
    let workout := default "" (cycling_ftp_workout_id pelotonUser) in
    let^ ftpHistory := awaitF (getFtpHistory pelotonClient workout)
                         (FvGetFtpHistory workout) in
    let^ records := liftF (ftpRecords (user_id user) ftpHistory) in
    let^ _ :=
      if (0 <? length records)%nat
      then let^ _ := awaitF (ftp_upsert env records) (FvUpsert records) in retF tt
      else retF tt in
    retF {| ftp_status := 200;
            ftp_body := FtpSynced (length records) (cycling_ftp pelotonUser) |}
  else
    retF {| ftp_status := 200;
            ftp_body := FtpNoHistory 0 "No FTP test history found" |}.

(** The inner [try]/[catch]. *)
Definition ftpGuarded {W} (env : FtpEnv W) (user : User)
    (pelotonClient : FtpPelotonClient W) : FM W FtpResponse :=
  fun s =>
    match ftpFetch env user pelotonClient s with
    | (s', Ok response) => (s', Ok response)
    | (s', Throw _) =>
        (s', Ok {| ftp_status := 401;
                   ftp_body :=
                     FtpError "Failed to fetch from Peloton. Token may be expired." |})
    end.

(** The body of the outer [try] block. *)
Definition ftpBody {W} (env : FtpEnv W) : FM W FtpResponse :=
  let^ _ := awaitF (ftp_createClient env) FvCreateClient in
  let^ auth := awaitF (ftp_getUser env) FvGetUser in
  match auth_error auth, auth_user auth with
  | None, Some user =>
      let^ tokenData :=
        awaitF (ftp_selectToken env (user_id user)) (FvSelectToken (user_id user)) in
      match trr_data tokenData with
      | Some row =>
          if truthyOption (tr_access_token_encrypted row) then
            let^ prof :=
              awaitF (ftp_selectProfile env (user_id user))
                (FvSelectProfile (user_id user)) in
            match prof_data prof with
            | Some profile =>
                if truthyOption (peloton_user_id profile) then
                  let^ pelotonClient :=
                    liftF (ftp_pelotonClient env
                             (default "" (tr_access_token_encrypted row))) in
                  ftpGuarded env user pelotonClient
                else
                  retF {| ftp_status := 400;
                          ftp_body := FtpError "Peloton profile not found" |}
            | None =>
                retF {| ftp_status := 400;
                        ftp_body := FtpError "Peloton profile not found" |}
            end
          else
            retF {| ftp_status := 400; ftp_body := FtpError "Peloton not connected" |}
      | None =>
          retF {| ftp_status := 400; ftp_body := FtpError "Peloton not connected" |}
      end
  | _, _ => retF {| ftp_status := 401; ftp_body := FtpError "Unauthorized" |}
  end.

(** [POST] of the FTP sync route. *)
Definition ftpPOST {W} (env : FtpEnv W) (w : W)
    : W * list FtpEvent * FtpResponse :=
  match ftpBody env (w, []) with
  | ((w', tr), Ok response) => (w', tr, response)
  | ((w', tr), Throw _) =>
      (w', tr, {| ftp_status := 500; ftp_body := FtpError "Internal server error" |})
  end.

(** A call that rejected. *)
Definition ftpRejected (ev : FtpEvent) : bool :=
  match ev with
  | FvCreateClient (Throw _) | FvGetUser (Throw _) | FvSelectToken _ (Throw _)
  | FvSelectProfile _ (Throw _) | FvGetMe (Throw _)
  | FvUpdateProfile _ _ (Throw _) | FvGetFtpHistory _ (Throw _)
  | FvUpsert _ (Throw _) => true
  | _ => false
  end.

(** The calls made inside the inner [try] block. *)
Definition ftpInner (ev : FtpEvent) : bool :=
  match ev with
  | FvGetMe _ | FvUpdateProfile _ _ _ | FvGetFtpHistory _ _ | FvUpsert _ _ => true
  | _ => false
  end.

(** What a row of the upsert takes from a record of the history. *)
Definition rowOf (userId : string) (record : FtpHistoryRecord) (row : FtpRow)
    : Prop :=
  fr_user_id row = userId /\
  fr_workout_id row = workoutId record /\
  toISOString (date record) = Ok (fr_workout_date row) /\
  fr_ride_title row = rideTitle record /\
  fr_avg_output row = avgOutput record /\
  fr_calculated_ftp row = calculatedFtp record /\
  fr_baseline_ftp row = baselineFtp record.

(** Test doubles for the FTP handler. *)
Module MockFtp.

Definition client (me : Exc PelotonUser) (history : Exc (list FtpHistoryRecord))
    : FtpPelotonClient nat :=
  {| getMe := fun w => (w, me);
     getFtpHistory := fun _ w => (w, history) |}.

Definition env (auth : Exc AuthResponse) (me : Exc PelotonUser)
    (history : Exc (list FtpHistoryRecord))
    (upd ups : Exc UpdateResponse) : FtpEnv nat :=
  {| ftp_createClient := fun w => (w, Ok tt);
     ftp_getUser := fun w => (w, auth);
     ftp_selectToken := fun _ w =>
       (w, Ok {| trr_data :=
                   Some {| tr_access_token_encrypted := Some "token"%string |} |});
     ftp_selectProfile := fun _ w =>
       (w, Ok {| prof_data := Some {| peloton_user_id := Some "peloton-user-123"%string;
                                      profile_timezone := None |};
                 prof_error := None |});
     ftp_pelotonClient := fun _ => Ok (client me history);
     ftp_updateProfile := fun _ _ w => (S w, upd);
     ftp_upsert := fun _ w => (S w, ups) |}.

Definition signedIn : Exc AuthResponse :=
  Ok {| auth_user := Some {| user_id := "user-123" |}; auth_error := None |}.

Definition me : PelotonUser :=
  {| cycling_ftp := Some 215;
     estimated_cycling_ftp := Some 0;
     cycling_ftp_workout_id := Some "ftp-test-2"%string |}.

Definition record (id : string) (at_ms : Date) (ftp : option Z) : FtpHistoryRecord :=
  {| workoutId := id;
     date := at_ms;
     rideTitle := "20 min FTP Test Ride";
     avgOutput := option_map (fun x => x + 11) ftp;
     calculatedFtp := ftp;
     baselineFtp := Some 190 |}.

Definition history : list FtpHistoryRecord :=
  [record "ftp-test-1" (Some 1700000000000) (Some 204);
   record "ftp-attempt" (Some 1702000000000) None;
   record "ftp-test-2" (Some 1705708800000) (Some 215)].

End MockFtp.

(** * Properties *)

(** ** Sorting a bucket *)

Lemma insertSorted_perm x l : Permutation (x :: l) (insertSorted x l).
Proof.
  induction l as [|y l IH]; simpl; [reflexivity|].
  destruct (compareSortOrder x y <=? 0); [reflexivity|].
  rewrite perm_swap. now constructor.
Qed.

Lemma sortBySortOrder_perm l : Permutation l (sortBySortOrder l).
Proof.
  induction l as [|x l IH]; simpl; [constructor|].
  rewrite <- insertSorted_perm. now constructor.
Qed.

Lemma insertSorted_hd x y l :
  orderLe y x -> HdRel orderLe y l -> HdRel orderLe y (insertSorted x l).
Proof.
  intros Hyx Hl. destruct l as [|z l]; simpl; [now constructor|].
  destruct (compareSortOrder x z <=? 0); constructor; [assumption|].
  now inversion Hl.
Qed.

Lemma insertSorted_sorted x l :
  Sorted orderLe l -> Sorted orderLe (insertSorted x l).
Proof.
  induction 1 as [|y l Hs IH Hhd]; simpl; [repeat constructor|].
  unfold compareSortOrder.
  destruct (Z.leb_spec (m_sort_order x - m_sort_order y) 0) as [Hle|Hgt].
  - constructor; [now constructor|]. constructor. unfold orderLe. lia.
  - constructor; [assumption|]. apply insertSorted_hd; [|assumption].
    unfold orderLe. lia.
Qed.

Lemma sortBySortOrder_sorted l : Sorted orderLe (sortBySortOrder l).
Proof.
  induction l as [|x l IH]; simpl; [constructor|].
  now apply insertSorted_sorted.
Qed.

(** Entries that are passed over during insertion have a strictly smaller
    order, so entries of equal order keep their relative position. *)
Lemma insertSorted_stable k x l :
  List.filter (hasOrder k) (insertSorted x l) =
  List.filter (hasOrder k) (x :: l).
Proof.
  induction l as [|y l IH]; [reflexivity|].
  cbn [insertSorted]. unfold compareSortOrder.
  destruct (Z.leb_spec (m_sort_order x - m_sort_order y) 0) as [Hle|Hgt];
    [reflexivity|].
  cbn [List.filter] in *. rewrite IH. unfold hasOrder.
  destruct (Z.eqb_spec (m_sort_order x) k), (Z.eqb_spec (m_sort_order y) k);
    try reflexivity.
  lia.
Qed.

Lemma sortBySortOrder_stable k l :
  List.filter (hasOrder k) (sortBySortOrder l) = List.filter (hasOrder k) l.
Proof.
  induction l as [|x l IH]; [reflexivity|].
  cbn [sortBySortOrder]. rewrite insertSorted_stable.
  cbn [List.filter]. now rewrite IH.
Qed.

Lemma sortBySortOrder_nil l : sortBySortOrder l = [] -> l = [].
Proof.
  intros H. apply Permutation_nil. rewrite <- H. symmetry.
  apply sortBySortOrder_perm.
Qed.

(** ** Looking a bucket up *)

Lemma lookupBucket_addPlanned idx pw d r :
  lookupBucket (addPlanned idx pw) d r =
  if inBucket d r pw
  then Some (default [] (lookupBucket idx d r) ++ [toMatch pw])
  else lookupBucket idx d r.
Proof.
  unfold lookupBucket, addPlanned, inBucket.
  destruct (String.eqb_spec (pw_scheduled_date pw) d) as [->|Hd]; simpl.
  - rewrite lookup_insert_eq.
    destruct (String.eqb_spec (pw_peloton_ride_id pw) r) as [->|Hr].
    + rewrite lookup_insert_eq. now destruct (idx !! d).
    + rewrite lookup_insert_ne by assumption. now destruct (idx !! d).
  - now rewrite lookup_insert_ne by assumption.
Qed.

Lemma lookupBucket_foldl planned : forall idx d r,
  lookupBucket (foldl addPlanned idx planned) d r =
  match List.filter (inBucket d r) planned with
  | [] => lookupBucket idx d r
  | l => Some (default [] (lookupBucket idx d r) ++ map toMatch l)
  end.
Proof.
  induction planned as [|pw planned IH]; intros idx d r; [reflexivity|].
  cbn [foldl List.filter]. rewrite IH, lookupBucket_addPlanned.
  destruct (inBucket d r pw); [|reflexivity].
  cbn [default].
  destruct (List.filter (inBucket d r) planned) as [|x l]; [reflexivity|].
  cbn [map default id]. now rewrite <- app_assoc.
Qed.

(** The bucket of [(d, r)] holds the rows scheduled on [d] for ride [r], in
    the order the sort leaves them; there is no bucket when there is no
    such row. *)
Lemma lookupBucket_index planned d r :
  lookupBucket (plannedByDateAndRide planned) d r =
  match List.filter (inBucket d r) planned with
  | [] => None
  | l => Some (sortBySortOrder (map toMatch l))
  end.
Proof.
  unfold plannedByDateAndRide.
  pose proof (lookupBucket_foldl planned ∅ d r) as H.
  unfold lookupBucket in *. rewrite lookup_fmap.
  destruct (foldl addPlanned ∅ planned !! d) as [byDate|] eqn:E; simpl in *.
  - rewrite lookup_fmap, H.
    destruct (List.filter (inBucket d r) planned); [|reflexivity].
    now rewrite lookup_empty.
  - destruct (List.filter (inBucket d r) planned); [reflexivity|discriminate].
Qed.

(** ** Reading a trace *)

Lemma updates_app tr1 tr2 : updates (tr1 ++ tr2) = updates tr1 ++ updates tr2.
Proof. apply omap_app. Qed.

Lemma writeTargets_app tr1 tr2 :
  writeTargets (tr1 ++ tr2) = writeTargets tr1 ++ writeTargets tr2.
Proof. unfold writeTargets. now rewrite updates_app, map_app. Qed.

Lemma writeActivities_app tr1 tr2 :
  writeActivities (tr1 ++ tr2) = writeActivities tr1 ++ writeActivities tr2.
Proof. unfold writeActivities. now rewrite updates_app, map_app. Qed.

Lemma writePairs_app tr1 tr2 :
  writePairs (tr1 ++ tr2) = writePairs tr1 ++ writePairs tr2.
Proof. unfold writePairs. now rewrite updates_app, map_app. Qed.

Lemma succeededWrites_app tr1 tr2 :
  succeededWrites (tr1 ++ tr2) = (succeededWrites tr1 + succeededWrites tr2)%nat.
Proof.
  unfold succeededWrites. now rewrite updates_app, List.filter_app, length_app.
Qed.

Lemma failedWrites_app tr1 tr2 :
  failedWrites (tr1 ++ tr2) = (failedWrites tr1 + failedWrites tr2)%nat.
Proof.
  unfold failedWrites. now rewrite updates_app, List.filter_app, length_app.
Qed.

Lemma findUnattempted_Some attempted bucket m :
  findUnattempted attempted bucket = Some m <-> FirstFree attempted bucket m.
Proof.
  unfold findUnattempted, FirstFree, includes. split.
  - induction bucket as [|c bucket IH]; simpl; [discriminate|].
    case_bool_decide as Hc; simpl.
    + intros H. destruct (IH H) as (l1 & l2 & -> & Hl1 & Hm).
      exists (c :: l1), l2. split; [reflexivity|]. split; [|assumption].
      intros c' Hc'. apply elem_of_cons in Hc' as [->|Hc']; auto.
    + intros [= <-]. exists [], bucket. split; [reflexivity|].
      split; [|assumption]. intros c' Hc'. inversion Hc'.
  - intros (l1 & l2 & -> & Hl1 & Hm).
    induction l1 as [|c l1 IH]; simpl.
    + rewrite bool_decide_eq_false_2 by assumption. reflexivity.
    + rewrite bool_decide_eq_true_2 by (apply Hl1; left). simpl.
      apply IH. intros c' Hc'. apply Hl1. now right.
Qed.

Lemma findUnattempted_None attempted bucket :
  findUnattempted attempted bucket = None <->
  forall c, c ∈ bucket -> m_id c ∈ attempted.
Proof.
  unfold findUnattempted, includes.
  induction bucket as [|c bucket IH]; simpl.
  - split; [|reflexivity]. intros _ c Hc. inversion Hc.
  - case_bool_decide as Hc; simpl.
    + rewrite IH. split.
      * intros H c' Hc'. apply elem_of_cons in Hc' as [->|Hc']; auto.
      * intros H c' Hc'. apply H. now right.
    + split; [discriminate|]. intros H. exfalso. apply Hc, H. left.
Qed.

(** ** One turn of the loop *)

Section Step.

Context {W : Type}.
Variable host : Host.
Variable supabase : SupabaseClient W.
Variable options : option SyncOptions.
Variable index : gmap string (gmap string (list PlannedWorkoutMatch)).

(** [matchOne] is: decide, then (when a candidate was chosen) write to it
    and record how the write resolved. *)
Lemma matchOne_step st cw w tr :
  matchOne host supabase options index st cw (w, tr) =
  match choose host options index (matchedPelotonWorkoutIds st)
          (attemptedIds st) cw with
  | Throw e => ((w, tr), Throw e)
  | Ok None => ((w, tr), Ok st)
  | Ok (Some m) =>
      match toISOString (newDate (w_created_at cw * 1000)) with
      | Throw e => ((w, tr), Throw e)
      | Ok completedAt =>
          let out := updatePlanned supabase (payloadFor cw completedAt) (m_id m) w in
          ((fst out, tr ++ [EvUpdate (m_id m) (payloadFor cw completedAt) (snd out)]),
           match snd out with
           | Throw e => Throw e
           | Ok r => Ok (recorded (marked st cw m) m r)
           end)
      end
  end.
Proof.
  unfold matchOne, choose, lookupBucket, bind, lift, ret.
  destruct (rideIdOf cw) as [rideId|e]; [|reflexivity].
  destruct (timestampToDateInTimezone host (w_created_at cw)
              (optionsTimezone options)) as [date|e]; [|reflexivity].
  case_bool_decide; [reflexivity|].
  destruct (index !! date) as [byDate|]; [|reflexivity].
  destruct (byDate !! rideId) as [candidates|]; [|reflexivity].
  destruct candidates as [|c candidates]; [reflexivity|].
  cbn [length Nat.eqb].
  destruct (findUnattempted (attemptedIds st) (c :: candidates)) as [m|];
    [|reflexivity].
  destruct (toISOString (newDate (w_created_at cw * 1000))) as [completedAt|e];
    [|reflexivity].
  unfold awaitUpdate, payloadFor, recorded, marked.
  destruct (updatePlanned supabase _ (m_id m) w) as [w' [r|e]]; simpl;
    [|reflexivity].
  destruct (upd_error r); reflexivity.
Qed.

End Step.

Lemma choose_Some host options index consumed attempted cw m :
  choose host options index consumed attempted cw = Ok (Some m) ->
  (w_id cw ∉ consumed) /\
  exists d r bucket,
    rideIdOf cw = Ok r /\
    timestampToDateInTimezone host (w_created_at cw) (optionsTimezone options)
      = Ok d /\
    lookupBucket index d r = Some bucket /\
    FirstFree attempted bucket m.
Proof.
  unfold choose.
  destruct (rideIdOf cw) as [r|]; [|discriminate].
  destruct (timestampToDateInTimezone _ _ _) as [d|]; [|discriminate].
  case_bool_decide as Hc; [discriminate|].
  destruct (lookupBucket index d r) as [bucket|] eqn:Hb; [|discriminate].
  intros [= H]. split; [assumption|].
  exists d, r, bucket.
  split; [reflexivity|]. split; [reflexivity|]. split; [assumption|].
  now apply findUnattempted_Some.
Qed.

Lemma FirstFree_elem attempted bucket m :
  FirstFree attempted bucket m -> (m ∈ bucket) /\ (m_id m ∉ attempted).
Proof.
  intros (l1 & l2 & -> & _ & Hm). split; [|assumption].
  apply elem_of_app. right. left.
Qed.

Lemma afterWrite_attempted st cw m out :
  attemptedIds (afterWrite st cw m out) = attemptedIds st ++ [m_id m].
Proof.
  destruct out as [[[e|]]|]; reflexivity.
Qed.

Lemma afterWrite_consumed st cw m out :
  matchedPelotonWorkoutIds (afterWrite st cw m out) =
  matchedPelotonWorkoutIds st ∪ {[ w_id cw ]}.
Proof.
  destruct out as [[[e|]]|]; reflexivity.
Qed.

Lemma Inv_write host options index tr st cw m completedAt out :
  Inv index tr st ->
  choose host options index (matchedPelotonWorkoutIds st) (attemptedIds st) cw
    = Ok (Some m) ->
  Inv index (tr ++ [EvUpdate (m_id m) (payloadFor cw completedAt) out])
    (afterWrite st cw m out).
Proof.
  intros HI Hch.
  apply choose_Some in Hch as (Hfresh & d & r & bucket & _ & _ & Hb & Hff).
  apply FirstFree_elem in Hff as [Hin Hnew].
  destruct HI as [Ht Hnd Hc Hcnd Hs Hf Hidx].
  constructor.
  - rewrite writeTargets_app, afterWrite_attempted, Ht. reflexivity.
  - rewrite afterWrite_attempted. apply NoDup_app.
    split; [assumption|]. split; [|apply NoDup_singleton].
    intros x Hx Hx'. apply list_elem_of_singleton in Hx' as ->. contradiction.
  - intros x. rewrite writeActivities_app, afterWrite_consumed.
    intros Hx. apply elem_of_app in Hx as [Hx|Hx].
    + apply elem_of_union_l. now apply Hc.
    + apply elem_of_union_r. cbn in Hx.
      apply list_elem_of_singleton in Hx as ->. now apply elem_of_singleton.
  - rewrite writeActivities_app. apply NoDup_app.
    split; [assumption|]. split; [|apply NoDup_singleton].
    intros x Hx Hx'. cbn in Hx'. apply list_elem_of_singleton in Hx' as ->.
    apply Hfresh. now apply Hc.
  - rewrite succeededWrites_app.
    destruct out as [[[e|]]|]; cbn; rewrite ?length_app; cbn; lia.
  - rewrite failedWrites_app.
    destruct out as [[[e|]]|]; cbn; lia.
  - intros x. rewrite afterWrite_attempted. intros Hx.
    apply elem_of_app in Hx as [Hx|Hx]; [now apply Hidx|].
    apply list_elem_of_singleton in Hx as ->.
    exists d, r, bucket, m. auto.
Qed.

Section Loop.

Context {W : Type}.
Variable host : Host.
Variable supabase : SupabaseClient W.
Variable options : option SyncOptions.
Variable index : gmap string (gmap string (list PlannedWorkoutMatch)).

(** One turn keeps the invariant, whether it returns or throws, and
    attempts at most one entry. *)
Lemma matchOne_inv st cw w tr :
  Inv index tr st ->
  exists st',
    Inv index (snd (fst (matchOne host supabase options index st cw (w, tr)))) st' /\
    (forall st'', snd (matchOne host supabase options index st cw (w, tr)) = Ok st''
                  -> st'' = st') /\
    (length (attemptedIds st') <= S (length (attemptedIds st)))%nat.
Proof.
  intros HI. rewrite matchOne_step.
  destruct (choose host options index _ _ cw) as [[m|]|e] eqn:Hch.
  - destruct (toISOString _) as [completedAt|e].
    + exists (afterWrite st cw m
                (snd (updatePlanned supabase (payloadFor cw completedAt) (m_id m) w))).
      cbn [fst snd]. split; [now apply Inv_write with host options|].
      split.
      * destruct (snd (updatePlanned _ _ _ _)); cbn; congruence.
      * rewrite afterWrite_attempted, length_app. cbn. lia.
    + exists st. cbn. split; [assumption|]. split; [discriminate|lia].
  - exists st. cbn. split; [assumption|]. split; [congruence|lia].
  - exists st. cbn. split; [assumption|]. split; [discriminate|lia].
Qed.

Lemma matchAll_inv ws : forall st w tr,
  Inv index tr st ->
  exists st',
    Inv index (snd (fst (matchAll host supabase options index ws st (w, tr)))) st' /\
    (forall st'', snd (matchAll host supabase options index ws st (w, tr)) = Ok st''
                  -> st'' = st') /\
    (length (attemptedIds st') <= length (attemptedIds st) + length ws)%nat.
Proof.
  induction ws as [|cw ws IH]; intros st w tr HI.
  - exists st. cbn. split; [assumption|]. split; [congruence|lia].
  - cbn [matchAll]. unfold bind.
    destruct (matchOne_inv st cw w tr HI) as (st1 & HI1 & Heq1 & Hlen1).
    destruct (matchOne host supabase options index st cw (w, tr))
      as [[w1 tr1] [st1'|e]]; cbn [fst snd] in *.
    + rewrite (Heq1 st1' eq_refl).
      destruct (IH st1 w1 tr1 HI1) as (st2 & HI2 & Heq2 & Hlen2).
      exists st2. split; [assumption|]. split; [assumption|].
      cbn [length]. lia.
    + exists st1. split; [assumption|]. split; [discriminate|].
      cbn [length]. lia.
Qed.

End Loop.

(** The loop adds writes to the trace and nothing else. *)
Section LoopTrace.

Context {W : Type}.
Variable host : Host.
Variable supabase : SupabaseClient W.
Variable options : option SyncOptions.
Variable index : gmap string (gmap string (list PlannedWorkoutMatch)).

Lemma matchAll_trace ws : forall st w tr,
  exists added,
    snd (fst (matchAll host supabase options index ws st (w, tr))) = tr ++ added /\
    Forall isUpdate added.
Proof.
  induction ws as [|cw ws IH]; intros st w tr.
  - exists []. cbn. now rewrite app_nil_r.
  - cbn [matchAll]. unfold bind. rewrite matchOne_step.
    destruct (choose host options index _ _ cw) as [[m|]|e].
    + destruct (toISOString _) as [completedAt|e].
      * destruct (updatePlanned supabase _ (m_id m) w) as [w' [r|e]]; cbn [fst snd].
        -- destruct (IH (recorded (marked st cw m) m r) w'
                       (tr ++ [EvUpdate (m_id m) (payloadFor cw completedAt) (Ok r)]))
             as (added & -> & Hadded).
           eexists. rewrite <- app_assoc. split; [reflexivity|].
           constructor; [exact I|assumption].
        -- eexists. split; [reflexivity|]. repeat constructor.
      * exists []. cbn. now rewrite app_nil_r.
    + apply IH.
    + exists []. cbn. now rewrite app_nil_r.
Qed.

(** When the loop returns, its writes are the planned ones. *)
Lemma matchAll_writes ws : forall st w tr st',
  snd (matchAll host supabase options index ws st (w, tr)) = Ok st' ->
  writePairs (snd (fst (matchAll host supabase options index ws st (w, tr)))) =
  writePairs tr ++
    plannedWrites host options index ws
      (matchedPelotonWorkoutIds st) (attemptedIds st).
Proof.
  induction ws as [|cw ws IH]; intros st w tr st'.
  - cbn. now rewrite app_nil_r.
  - cbn [matchAll plannedWrites]. unfold bind. rewrite matchOne_step.
    destruct (choose host options index _ _ cw) as [[m|]|e].
    + destruct (toISOString _) as [completedAt|e]; [|discriminate].
      destruct (updatePlanned supabase _ (m_id m) w) as [w' [r|e]];
        cbn [fst snd]; [|discriminate].
      intros H. rewrite (IH _ _ _ _ H), writePairs_app, <- app_assoc.
      destruct r as [[fe|]]; reflexivity.
    + apply IH.
    + discriminate.
Qed.

End LoopTrace.

Lemma snoc_split {A} (l l1 l2 : list A) (e x : A) :
  l ++ [e] = l1 ++ x :: l2 ->
  (l2 = [] /\ l1 = l /\ x = e) \/
  (exists l2', l2 = l2' ++ [e] /\ l = l1 ++ x :: l2').
Proof.
  destruct l2 as [|y l2 _] using rev_ind; intros H.
  - left. apply (app_inj_tail l l1 e x) in H as [-> ->]. auto.
  - right. exists l2.
    change (l1 ++ x :: l2 ++ [y]) with (l1 ++ (x :: l2) ++ [y]) in H.
    rewrite app_assoc in H. apply app_inj_tail in H as [-> ->]. auto.
Qed.

Section LoopFifo.

Context {W : Type}.
Variable host : Host.
Variable supabase : SupabaseClient W.
Variable options : option SyncOptions.
Variable index : gmap string (gmap string (list PlannedWorkoutMatch)).
Variable feed : list PelotonWorkout.

Lemma matchAll_fifo ws : forall st w tr,
  (forall cw, cw ∈ ws -> cw ∈ feed) ->
  writeTargets tr = attemptedIds st ->
  FifoTrace host options index feed tr ->
  FifoTrace host options index feed
    (snd (fst (matchAll host supabase options index ws st (w, tr)))).
Proof.
  induction ws as [|cw ws IH]; intros st w tr Hfeed Ht Hfifo; [assumption|].
  assert (Hrest : forall c, c ∈ ws -> c ∈ feed)
    by (intros c Hc; apply Hfeed; now right).
  cbn [matchAll]. unfold bind. rewrite matchOne_step.
  destruct (choose host options index _ _ cw) as [[m|]|e] eqn:Hch;
    [| now apply IH | assumption].
  destruct (toISOString _) as [completedAt|e]; [|assumption].
  apply choose_Some in Hch as (_ & d & r & bucket & Hr & Hd & Hb & Hff).
  assert (Hnew : forall out,
    FifoTrace host options index feed
      (tr ++ [EvUpdate (m_id m) (payloadFor cw completedAt) out])).
  { intros out tr1 id payload o tr2 Hsplit.
    apply snoc_split in Hsplit as [(_ & -> & Hev)|(tr2' & _ & ->)].
    - injection Hev as -> -> ->. rewrite Ht.
      exists cw, r, d, bucket, m.
      split; [apply Hfeed; left|]. auto 10.
    - eapply Hfifo. reflexivity. }
  destruct (updatePlanned supabase _ (m_id m) w) as [w' [resp|e]]; cbn [fst snd].
  - apply IH; [assumption| |apply Hnew].
    rewrite writeTargets_app, Ht. now destruct resp as [[fe|]].
  - apply Hnew.
Qed.

End LoopFifo.

(** ** The shapes a run can take *)

Section Run.

Context {W : Type}.
Variable host : Host.
Variables userId pelotonUserId : string.
Variable peloton : PelotonClient W.
Variable supabase : SupabaseClient W.
Variable options : option SyncOptions.
Variable w : W.

Lemma length_eqb_0 {A} (l : list A) :
  (length l =? 0)%nat = true <-> l = [].
Proof. destruct l; cbn; split; congruence. Qed.

Lemma syncBody_cases :
  RunCase host userId pelotonUserId supabase options
    (snd (fst (syncBody host userId pelotonUserId peloton supabase options (w, []))))
    (snd (syncBody host userId pelotonUserId peloton supabase options (w, []))).
Proof.
  unfold syncBody, bind, awaitGetUserWorkouts. fold fetchOptions.
  destruct (getUserWorkouts peloton pelotonUserId fetchOptions w)
    as [w1 [data|e]]; cbn [app fst snd]; [|constructor].
  destruct (length (List.filter isCompletedWithRide data) =? 0)%nat eqn:Hn.
  { constructor. now apply length_eqb_0. }
  assert (Hne : List.filter isCompletedWithRide data <> []).
  { intros H. apply length_eqb_0 in H. congruence. }
  unfold awaitSelect.
  destruct (selectPlanned supabase userId w1) as [w2 [resp|e]];
    cbn [app fst snd]; [|now constructor].
  destruct (sel_error resp) as [fetchError|] eqn:Herr.
  { now apply RunSelectFailed. }
  destruct (sel_data resp) as [rows|] eqn:Hdata.
  2:{ apply RunNothingPlanned; auto. }
  destruct (length rows =? 0)%nat eqn:Hrows.
  { apply length_eqb_0 in Hrows as ->. apply RunNothingPlanned; auto. }
  assert (Hrne : rows <> []).
  { intros H. apply length_eqb_0 in H. congruence. }
  pose proof (RunLoop host userId pelotonUserId supabase options
                data resp rows w2 Hne Herr Hdata Hrne) as H.
  cbn zeta in H. unfold ret.
  destruct (matchAll host supabase options (plannedByDateAndRide rows) _ _ _)
    as [[w3 tr3] [st|e]]; exact H.
Qed.

Lemma runTrace_body :
  runTrace host userId pelotonUserId peloton supabase options w =
  snd (fst (syncBody host userId pelotonUserId peloton supabase options (w, []))).
Proof.
  unfold runTrace, syncCompletedWorkouts.
  now destruct (syncBody _ _ _ _ _ _ _) as [[w' tr] [r|e]].
Qed.

Lemma runResult_body :
  runResult host userId pelotonUserId peloton supabase options w =
  match snd (syncBody host userId pelotonUserId peloton supabase options (w, [])) with
  | Ok r => r
  | Throw e => caught e
  end.
Proof.
  unfold runResult, syncCompletedWorkouts.
  now destruct (syncBody _ _ _ _ _ _ _) as [[w' tr] [r|e]].
Qed.

End Run.

(** ** Facts about the loop of a run *)

Lemma Inv_start index tr :
  updates tr = [] -> Inv index tr initialLoopState.
Proof.
  intros H. constructor; unfold writeTargets, writeActivities,
    succeededWrites, failedWrites; rewrite ?H; cbn;
    try reflexivity; try constructor.
  - intros x Hx. inversion Hx.
  - intros x Hx. inversion Hx.
Qed.

Lemma bucket_rows rows d r bucket m :
  lookupBucket (plannedByDateAndRide rows) d r = Some bucket ->
  m ∈ bucket ->
  exists pw, In pw rows /\ inBucket d r pw = true /\ m = toMatch pw.
Proof.
  rewrite lookupBucket_index.
  destruct (List.filter (inBucket d r) rows) as [|x l] eqn:Hf; [discriminate|].
  intros [= <-] Hm.
  apply list_elem_of_In in Hm.
  apply (Permutation_in _ (Permutation_sym (sortBySortOrder_perm (map toMatch (x :: l)))))
    in Hm.
  apply in_map_iff in Hm as (pw & <- & Hpw).
  rewrite <- Hf in Hpw. apply filter_In in Hpw as [Hin Hb].
  exists pw. auto.
Qed.

Lemma updates_only l : Forall isUpdate l -> eligibleActivities l = [] /\ eligiblePlanned l = [].
Proof.
  induction 1 as [|e l He _ [IH1 IH2]]; [split; reflexivity|].
  destruct e; try contradiction. cbn. auto.
Qed.

Lemma succeededWrites_le tr : (succeededWrites tr <= length (writeTargets tr))%nat.
Proof.
  unfold succeededWrites, writeTargets. rewrite length_map.
  apply List.filter_length_le.
Qed.

Section RunFacts.

Context {W : Type}.
Variable host : Host.
Variables userId pelotonUserId : string.
Variable supabase : SupabaseClient W.
Variable options : option SyncOptions.

(** Everything the later statements need about the loop of a run that
    reached it. *)
Lemma loop_facts data resp rows (w2 : W) :
  sel_error resp = None ->
  sel_data resp = Some rows ->
  let start := [EvGetUserWorkouts pelotonUserId fetchOptions (Ok data);
                EvSelect userId (Ok resp)] in
  let res :=
    matchAll host supabase options (plannedByDateAndRide rows)
      (List.filter isCompletedWithRide data) initialLoopState (w2, start) in
  exists st,
    Inv (plannedByDateAndRide rows) (snd (fst res)) st /\
    (forall st', snd res = Ok st' -> st' = st) /\
    (length (attemptedIds st) <= length (List.filter isCompletedWithRide data))%nat /\
    (length (attemptedIds st) <= length rows)%nat /\
    eligibleActivities (snd (fst res)) = List.filter isCompletedWithRide data /\
    eligiblePlanned (snd (fst res)) = rows.
Proof.
  intros Herr Hdata start res.
  destruct (matchAll_inv host supabase options (plannedByDateAndRide rows)
              (List.filter isCompletedWithRide data) initialLoopState w2 start)
    as (st & HI & Heq & Hlen); [now apply Inv_start|].
  destruct (matchAll_trace host supabase options (plannedByDateAndRide rows)
              (List.filter isCompletedWithRide data) initialLoopState w2 start)
    as (added & Htr & Hadded).
  fold res in HI, Heq, Htr.
  exists st. split; [assumption|]. split; [assumption|].
  split; [cbn in Hlen; lia|].
  apply updates_only in Hadded as [Ha Hp].
  split; [|split].
  - rewrite <- (length_map pw_id rows).
    apply submseteq_length, NoDup_submseteq; [apply HI|].
    intros x Hx. apply (inv_indexed _ _ _ HI) in Hx as (d & r & bucket & m & Hb & Hm & <-).
    destruct (bucket_rows _ _ _ _ _ Hb Hm) as (pw & Hin & _ & ->).
    apply list_elem_of_In, in_map_iff. exists pw. auto.
  - rewrite Htr. unfold eligibleActivities in *. rewrite flat_map_app, Ha.
    cbn. now rewrite !app_nil_r.
  - rewrite Htr. unfold eligiblePlanned in *. rewrite flat_map_app, Hp.
    destruct resp as [sd se]. cbn in Herr, Hdata. subst sd se. cbn.
    now rewrite !app_nil_r.
Qed.

End RunFacts.

(** * The claims *)

Ltac by_run_cases host userId pelotonUserId peloton supabase options w :=
  rewrite ?runTrace_body, ?runResult_body;
  destruct (syncBody_cases host userId pelotonUserId peloton supabase options w)
    as [thrown | feed Hnone | feed thrown Hsome | feed reply failure Hsome Herr
        | feed reply Hsome Herr Hrows | feed reply rows w2 Hsome Herr Hdata Hrows res].

Lemma NoDup_middle (l1 l2 : list string) x :
  NoDup (l1 ++ x :: l2) -> (x ∉ l1) /\ (x ∉ l2).
Proof.
  intros H. apply NoDup_app in H as (_ & Hdisj & H2).
  apply NoDup_cons in H2 as [Hx _]. split; [|assumption].
  intros Hin. apply (Hdisj x Hin). left.
Qed.

(** C1.  In every run the writes go to pairwise distinct planned-workout
    ids; hence a write, whether it succeeded, failed or rejected, is never
    followed (nor preceded) by another write to the same entry. *)
Theorem one_write_attempt_per_planned_entry {W} (host : Host)
    (userId pelotonUserId : string) (peloton : PelotonClient W)
    (supabase : SupabaseClient W) (options : option SyncOptions) (w : W) :
  NoDup (writeTargets (runTrace host userId pelotonUserId peloton supabase options w)) /\
  forall tr1 id payload out tr2,
    runTrace host userId pelotonUserId peloton supabase options w
      = tr1 ++ EvUpdate id payload out :: tr2 ->
    (id ∉ writeTargets tr1) /\ (id ∉ writeTargets tr2).
Proof.
  assert (Hnd : NoDup (writeTargets
            (runTrace host userId pelotonUserId peloton supabase options w))).
  { by_run_cases host userId pelotonUserId peloton supabase options w;
      try (cbn; constructor).
    destruct (loop_facts host userId pelotonUserId supabase options
                feed reply rows w2 Herr Hdata) as (st & HI & _).
    fold res in HI. rewrite (inv_targets _ _ _ HI). apply HI. }
  split; [assumption|].
  intros tr1 id payload out tr2 Htr. rewrite Htr in Hnd.
  rewrite writeTargets_app in Hnd. now apply NoDup_middle in Hnd.
Qed.

(** C2.  In every run the writes carry pairwise distinct Peloton workout
    ids, however often an id occurs in the feed; hence two writes that
    carry the same workout id are one write, to one entry. *)
Theorem activity_consumed_at_most_once {W} (host : Host)
    (userId pelotonUserId : string) (peloton : PelotonClient W)
    (supabase : SupabaseClient W) (options : option SyncOptions) (w : W) :
  NoDup (writeActivities (runTrace host userId pelotonUserId peloton supabase options w)) /\
  forall tr1 id payload out tr2,
    runTrace host userId pelotonUserId peloton supabase options w
      = tr1 ++ EvUpdate id payload out :: tr2 ->
    (u_peloton_workout_id payload ∉ writeActivities tr1) /\
    (u_peloton_workout_id payload ∉ writeActivities tr2).
Proof.
  assert (Hnd : NoDup (writeActivities
            (runTrace host userId pelotonUserId peloton supabase options w))).
  { by_run_cases host userId pelotonUserId peloton supabase options w;
      try (cbn; constructor).
    destruct (loop_facts host userId pelotonUserId supabase options
                feed reply rows w2 Herr Hdata) as (st & HI & _).
    apply HI. }
  split; [assumption|].
  intros tr1 id payload out tr2 Htr. rewrite Htr in Hnd.
  rewrite writeActivities_app in Hnd. now apply NoDup_middle in Hnd.
Qed.

(** A match is a write that succeeded; there is at most one write per
    completed workout of the feed, and at most one per planned row. *)
Lemma run_matched_writes {W} (host : Host)
    (userId pelotonUserId : string) (peloton : PelotonClient W)
    (supabase : SupabaseClient W) (options : option SyncOptions) (w : W) :
  let tr := runTrace host userId pelotonUserId peloton supabase options w in
  (matched (runResult host userId pelotonUserId peloton supabase options w)
   <= length (writeTargets tr))%nat /\
  (length (writeTargets tr) <= length (eligibleActivities tr))%nat /\
  (length (writeTargets tr) <= length (eligiblePlanned tr))%nat.
Proof.
  cbn zeta.
  by_run_cases host userId pelotonUserId peloton supabase options w;
    try (cbn; lia).
  destruct (loop_facts host userId pelotonUserId supabase options
              feed reply rows w2 Herr Hdata)
    as (st & HI & Heq & Hws & Hpl & Ha & Hp).
  fold res in HI, Heq, Ha, Hp. rewrite Ha, Hp, (inv_targets _ _ _ HI).
  split; [|split; assumption].
  destruct (snd res) as [st'|thrown]; [|cbn; lia].
  rewrite (Heq st' eq_refl). cbn [summary matched].
  rewrite (inv_succeeded _ _ _ HI), <- (inv_targets _ _ _ HI).
  apply succeededWrites_le.
Qed.

(** The duplicated feed of the test-suite: one workout listed twice, two
    rows that could take it; one write, to the first row. *)
Example duplicate_in_feed_matches_once :
  let w1 := Mock.workout "peloton-workout-1" 1705708800 "ride-123" in
  let supabase :=
    Mock.supabase
      (Mock.rows [Mock.planned "planned-workout-1" "ride-123" "2024-01-20" 0;
                  Mock.planned "planned-workout-2" "ride-123" "2024-01-20" 1])
      (fun _ => Mock.updateOk) in
  writePairs (runTrace Mock.host "user-123" "peloton-user-123"
                (Mock.peloton (Ok [w1; w1])) supabase Mock.utc 0%nat)
    = [("planned-workout-1", "peloton-workout-1")]%string /\
  runResult Mock.host "user-123" "peloton-user-123"
    (Mock.peloton (Ok [w1; w1])) supabase Mock.utc 0%nat
    = {| success := true; matched := 1%nat; error := None |}.
Proof. split; vm_compute; reflexivity. Qed.

(** C6.  In every run the matched count is at most the number of completed
    workouts of the feed (status COMPLETE, ride id present) and at most the
    number of planned rows the store returned. *)
Theorem matched_at_most_min {W} (host : Host)
    (userId pelotonUserId : string) (peloton : PelotonClient W)
    (supabase : SupabaseClient W) (options : option SyncOptions) (w : W) :
  (matched (runResult host userId pelotonUserId peloton supabase options w)
   <= Nat.min
        (length (eligibleActivities
                   (runTrace host userId pelotonUserId peloton supabase options w)))
        (length (eligiblePlanned
                   (runTrace host userId pelotonUserId peloton supabase options w))))%nat.
Proof.
  destruct (run_matched_writes host userId pelotonUserId peloton supabase
              options w) as (Hwrites & Hfeed & Hrows).
  apply Nat.min_glb.
  - now transitivity
      (length (writeTargets
                 (runTrace host userId pelotonUserId peloton supabase options w))).
  - now transitivity
      (length (writeTargets
                 (runTrace host userId pelotonUserId peloton supabase options w))).
Qed.

(** C10.  On every return path the summary has [success = true] exactly
    when it carries no error message. *)
Theorem success_iff_no_error {W} (host : Host)
    (userId pelotonUserId : string) (peloton : PelotonClient W)
    (supabase : SupabaseClient W) (options : option SyncOptions) (w : W) :
  success (runResult host userId pelotonUserId peloton supabase options w) = true
  <-> error (runResult host userId pelotonUserId peloton supabase options w) = None.
Proof.
  by_run_cases host userId pelotonUserId peloton supabase options w;
    try (cbn; split; congruence).
  destruct (snd res) as [st|thrown]; [|cbn; split; congruence].
  cbn. destruct (failedUpdates st); cbn; split; congruence.
Qed.

Lemma not_update_in_start (ev : Event) start added :
  Forall isUpdate added -> ~ isUpdate ev -> In ev (start ++ added) -> In ev start.
Proof.
  intros Hall Hev Hin. apply in_app_or in Hin as [Hin|Hin]; [assumption|].
  rewrite Forall_forall in Hall. exfalso. apply Hev, Hall.
  now apply list_elem_of_In.
Qed.

(** C7.  When the eligibility query resolves with an error, the run returns
    [{success: false, matched: 0}] with the error's message behind the
    prefix that names the stage, and no write is issued. *)
Theorem select_error_aborts_run {W} (host : Host)
    (userId pelotonUserId : string) (peloton : PelotonClient W)
    (supabase : SupabaseClient W) (options : option SyncOptions) (w : W)
    (uid : string) (resp : SelectResponse) (fetchError : PostgrestError) :
  In (EvSelect uid (Ok resp))
     (runTrace host userId pelotonUserId peloton supabase options w) ->
  sel_error resp = Some fetchError ->
  runResult host userId pelotonUserId peloton supabase options w =
    {| success := false;
       matched := 0%nat;
       error := Some ("Failed to fetch planned workouts: "
                        +:+ pe_message fetchError) |} /\
  updates (runTrace host userId pelotonUserId peloton supabase options w) = [].
Proof.
  intros Hin Hfail. revert Hin.
  by_run_cases host userId pelotonUserId peloton supabase options w; cbn [In].
  - intros [?|[]]; discriminate.
  - intros [?|[]]; discriminate.
  - intros [?|[?|[]]]; discriminate.
  - intros [?|[Hev|[]]]; [discriminate|]. injection Hev as _ <-.
    rewrite Hfail in Herr. injection Herr as ->. split; reflexivity.
  - intros [?|[Hev|[]]]; [discriminate|]. injection Hev as _ <-. congruence.
  - destruct (matchAll_trace host supabase options (plannedByDateAndRide rows)
                (List.filter isCompletedWithRide feed) initialLoopState w2
                [EvGetUserWorkouts pelotonUserId fetchOptions (Ok feed);
                 EvSelect userId (Ok reply)]) as (added & Htr & Hadded).
    fold res in Htr. rewrite Htr. intros Hin.
    apply not_update_in_start in Hin; [|assumption|exact id].
    destruct Hin as [?|[Hev|[]]]; [discriminate|]. injection Hev as _ <-.
    congruence.
Qed.

Lemma select_error_aborts_run_witness :
  let peloton := Mock.peloton (Ok [Mock.workout "peloton-workout-1" 1705708800 "ride-123"]) in
  let resp := {| sel_data := None;
                 sel_error := Some {| pe_message := "Database error" |} |} in
  let supabase := Mock.supabase (Ok resp) (fun _ => Mock.updateOk) in
  runResult Mock.host "user-123" "peloton-user-123" peloton supabase None 0%nat =
    {| success := false;
       matched := 0%nat;
       error := Some "Failed to fetch planned workouts: Database error"%string |} /\
  updates (runTrace Mock.host "user-123" "peloton-user-123" peloton supabase None 0%nat) = [].
Proof.
  intros peloton resp supabase.
  apply (select_error_aborts_run Mock.host "user-123" "peloton-user-123"
           peloton supabase None 0%nat "user-123" resp
           {| pe_message := "Database error" |}).
  - vm_compute. right. left. reflexivity.
  - reflexivity.
Defined.

(** C8.  When no fetched workout is both COMPLETE and attached to a ride,
    the run returns [{success: true, matched: 0}] and its only call is the
    fetch itself: the store is neither read nor written. *)
Theorem nothing_completed_returns_early {W} (host : Host)
    (userId pelotonUserId : string) (peloton : PelotonClient W)
    (supabase : SupabaseClient W) (options : option SyncOptions) (w : W)
    (puid : string) (opts : GetUserWorkoutsOptions) (data : list PelotonWorkout) :
  In (EvGetUserWorkouts puid opts (Ok data))
     (runTrace host userId pelotonUserId peloton supabase options w) ->
  List.filter isCompletedWithRide data = [] ->
  runResult host userId pelotonUserId peloton supabase options w =
    {| success := true; matched := 0%nat; error := None |} /\
  runTrace host userId pelotonUserId peloton supabase options w =
    [EvGetUserWorkouts pelotonUserId fetchOptions (Ok data)].
Proof.
  intros Hin Hempty. revert Hin.
  by_run_cases host userId pelotonUserId peloton supabase options w; cbn [In].
  - intros [?|[]]; discriminate.
  - intros [Hev|[]]. injection Hev as _ _ <-. split; reflexivity.
  - intros [Hev|[?|[]]]; [|discriminate]. injection Hev as _ _ <-. contradiction.
  - intros [Hev|[?|[]]]; [|discriminate]. injection Hev as _ _ <-. contradiction.
  - intros [Hev|[?|[]]]; [|discriminate]. injection Hev as _ _ <-. contradiction.
  - destruct (matchAll_trace host supabase options (plannedByDateAndRide rows)
                (List.filter isCompletedWithRide feed) initialLoopState w2
                [EvGetUserWorkouts pelotonUserId fetchOptions (Ok feed);
                 EvSelect userId (Ok reply)]) as (added & Htr & Hadded).
    fold res in Htr. rewrite Htr. intros Hin.
    apply not_update_in_start in Hin; [|assumption|exact id].
    destruct Hin as [Hev|[?|[]]]; [|discriminate]. injection Hev as _ _ <-.
    contradiction.
Qed.

Lemma nothing_completed_returns_early_witness :
  let data := [ {| w_id := "peloton-workout-1"; w_status := "IN_PROGRESS";
                   w_created_at := 1705708800;
                   w_ride := Some {| ride_id := "ride-123" |} |};
                {| w_id := "peloton-workout-2"; w_status := "COMPLETE";
                   w_created_at := 1705708800; w_ride := None |} ] in
  let peloton := Mock.peloton (Ok data) in
  let supabase :=
    Mock.supabase
      (Mock.rows [Mock.planned "planned-workout-1" "ride-123" "2024-01-20" 0])
      (fun _ => Mock.updateOk) in
  runResult Mock.host "user-123" "peloton-user-123" peloton supabase None 0%nat =
    {| success := true; matched := 0%nat; error := None |} /\
  runTrace Mock.host "user-123" "peloton-user-123" peloton supabase None 0%nat =
    [EvGetUserWorkouts "peloton-user-123" fetchOptions (Ok data)].
Proof.
  intros data peloton supabase.
  apply (nothing_completed_returns_early Mock.host "user-123" "peloton-user-123"
           peloton supabase None 0%nat "peloton-user-123" fetchOptions data).
  - vm_compute. left. reflexivity.
  - reflexivity.
Defined.

(** C9, as stated, fails: the code asks for a page of 20 but takes whatever
    the client returns.  A client that returns 21 completions, against 21
    planned rows, yields 21 matches. *)
Lemma twenty_one_matches :
  ~ (matched
       (runResult Mock.host "user-123" "peloton-user-123"
          (Mock.peloton (Ok (Mock.manyWorkouts 21)))
          (Mock.supabase (Mock.rows (Mock.manyPlanned 21)) (fun _ => Mock.updateOk))
          Mock.utc 0%nat)
     <= 20)%nat.
Proof.
  assert (H : matched
       (runResult Mock.host "user-123" "peloton-user-123"
          (Mock.peloton (Ok (Mock.manyWorkouts 21)))
          (Mock.supabase (Mock.rows (Mock.manyPlanned 21)) (fun _ => Mock.updateOk))
          Mock.utc 0%nat) = 21%nat) by (vm_compute; reflexivity).
  rewrite H. lia.
Qed.

(** C9, amended.  The fetch always asks for a page of 20, and the matched
    count is at most 20 in every run whose fetch returned no more workouts
    than the limit it was asked for. *)
Theorem matched_at_most_page_limit {W} (host : Host)
    (userId pelotonUserId : string) (peloton : PelotonClient W)
    (supabase : SupabaseClient W) (options : option SyncOptions) (w : W) :
  (forall puid opts data,
     In (EvGetUserWorkouts puid opts (Ok data))
        (runTrace host userId pelotonUserId peloton supabase options w) ->
     Z.of_nat (length data) <= limit opts) ->
  (forall puid opts out,
     In (EvGetUserWorkouts puid opts out)
        (runTrace host userId pelotonUserId peloton supabase options w) ->
     limit opts = 20) /\
  (matched (runResult host userId pelotonUserId peloton supabase options w) <= 20)%nat.
Proof.
  intros Hpage. split.
  - clear Hpage. intros puid opts out.
    by_run_cases host userId pelotonUserId peloton supabase options w; cbn [In];
      try (intros [Hev|[]]; now injection Hev as _ <- _);
      try (intros [Hev|[?|[]]]; [|discriminate]; now injection Hev as _ <- _).
    destruct (matchAll_trace host supabase options (plannedByDateAndRide rows)
                (List.filter isCompletedWithRide feed) initialLoopState w2
                [EvGetUserWorkouts pelotonUserId fetchOptions (Ok feed);
                 EvSelect userId (Ok reply)]) as (added & Htr & Hadded).
    fold res in Htr. rewrite Htr. intros Hin.
    apply not_update_in_start in Hin; [|assumption|exact id].
    destruct Hin as [Hev|[?|[]]]; [|discriminate]. now injection Hev as _ <- _.
  - destruct (run_matched_writes host userId pelotonUserId peloton supabase
                options w) as (Hwrites & Hone & _).
    assert (Hfeed : (length (eligibleActivities
              (runTrace host userId pelotonUserId peloton supabase options w))
              <= 20)%nat); [|lia].
    clear Hwrites Hone. revert Hpage.
    by_run_cases host userId pelotonUserId peloton supabase options w;
      intros Hpage; try (cbn; lia).
    + specialize (Hpage pelotonUserId fetchOptions feed (or_introl eq_refl)).
      cbn in *. rewrite app_nil_r.
      pose proof (List.filter_length_le isCompletedWithRide feed). lia.
    + specialize (Hpage pelotonUserId fetchOptions feed (or_introl eq_refl)).
      cbn in *. rewrite app_nil_r.
      pose proof (List.filter_length_le isCompletedWithRide feed). lia.
    + specialize (Hpage pelotonUserId fetchOptions feed (or_introl eq_refl)).
      cbn in *. rewrite app_nil_r.
      pose proof (List.filter_length_le isCompletedWithRide feed). lia.
    + specialize (Hpage pelotonUserId fetchOptions feed (or_introl eq_refl)).
      cbn in *. rewrite app_nil_r.
      pose proof (List.filter_length_le isCompletedWithRide feed). lia.
    + destruct (loop_facts host userId pelotonUserId supabase options
                  feed reply rows w2 Herr Hdata) as (st & _ & _ & _ & _ & Ha & _).
      destruct (matchAll_trace host supabase options (plannedByDateAndRide rows)
                  (List.filter isCompletedWithRide feed) initialLoopState w2
                  [EvGetUserWorkouts pelotonUserId fetchOptions (Ok feed);
                   EvSelect userId (Ok reply)]) as (added & Htr & _).
      fold res in Ha, Htr. rewrite Ha.
      assert (Hin : In (EvGetUserWorkouts pelotonUserId fetchOptions (Ok feed))
                       (snd (fst res))) by (rewrite Htr; left; reflexivity).
      specialize (Hpage _ _ _ Hin). cbn in Hpage.
      pose proof (List.filter_length_le isCompletedWithRide feed). lia.
Qed.

Lemma matched_at_most_page_limit_witness :
  let peloton := Mock.peloton (Ok (Mock.manyWorkouts 20)) in
  let supabase :=
    Mock.supabase (Mock.rows (Mock.manyPlanned 21)) (fun _ => Mock.updateOk) in
  matched (runResult Mock.host "user-123" "peloton-user-123" peloton supabase
             Mock.utc 0%nat) = 20%nat /\
  (matched (runResult Mock.host "user-123" "peloton-user-123" peloton supabase
              Mock.utc 0%nat) <= 20)%nat.
Proof.
  intros peloton supabase. split; [vm_compute; reflexivity|].
  apply (matched_at_most_page_limit Mock.host "user-123" "peloton-user-123"
           peloton supabase Mock.utc 0%nat).
  intros puid opts data Hin.
  assert (Hdata : data = Mock.manyWorkouts 20 /\ opts = fetchOptions).
  { vm_compute in Hin.
    repeat (destruct Hin as [Hin|Hin]; [try discriminate Hin|]);
      [|contradiction].
    injection Hin as _ <- <-. split; reflexivity. }
  destruct Hdata as [-> ->]. vm_compute. discriminate.
Defined.

Lemma plannedWrites_no_bucket host options index ws :
  (forall d r, lookupBucket index d r = None) ->
  forall consumed attempted,
    plannedWrites host options index ws consumed attempted = [].
Proof.
  intros Hnone. induction ws as [|cw ws IH]; intros consumed attempted;
    [reflexivity|].
  cbn [plannedWrites]. unfold choose.
  destruct (rideIdOf cw) as [r|]; [|apply IH].
  destruct (timestampToDateInTimezone _ _ _) as [d|]; [|apply IH].
  case_bool_decide; [apply IH|].
  rewrite Hnone. apply IH.
Qed.

Lemma lookupBucket_no_rows d r : lookupBucket (plannedByDateAndRide []) d r = None.
Proof. now rewrite lookupBucket_index. Qed.

(** C3, as stated, fails: an exception raised while the activities are
    processed reaches the top-level [catch], which reports
    [{success: false, matched: 0}] whatever was written before.  Here the
    fetch and the eligibility query succeed, the only write succeeds, and
    the second completion carries an instant outside the range of [Date]. *)
Lemma exception_discards_counts :
  let peloton :=
    Mock.peloton (Ok [Mock.workout "peloton-workout-1" 1705708800 "ride-123";
                      Mock.workout "peloton-workout-2" 10000000000000 "ride-456"]) in
  let supabase :=
    Mock.supabase
      (Mock.rows [Mock.planned "planned-workout-1" "ride-123" "2024-01-20" 0;
                  Mock.planned "planned-workout-2" "ride-456" "2024-01-20" 1])
      (fun _ => Mock.updateOk) in
  let tr := runTrace Mock.host "user-123" "peloton-user-123" peloton supabase
              Mock.utc 0%nat in
  let r := runResult Mock.host "user-123" "peloton-user-123" peloton supabase
             Mock.utc 0%nat in
  (succeededWrites tr = 1%nat /\ failedWrites tr = 0%nat) /\
  r = {| success := false; matched := 0%nat;
         error := Some "Invalid time value"%string |} /\
  ~ ((success r = true <-> failedWrites tr = 0%nat) /\
     matched r = succeededWrites tr).
Proof.
  intros peloton supabase tr r.
  assert (Htr : succeededWrites tr = 1%nat /\ failedWrites tr = 0%nat)
    by (vm_compute; auto).
  assert (Hr : r = {| success := false; matched := 0%nat;
                      error := Some "Invalid time value"%string |})
    by (vm_compute; reflexivity).
  split; [assumption|]. split; [assumption|].
  destruct Htr as [Hs Hf]. rewrite Hr, Hs, Hf. cbn.
  intros [_ H]. discriminate H.
Qed.

(** C3, amended.  In every run whose [try] block returns (nothing throws)
    and whose eligibility query, if made, resolved without an error: the
    summary is what the block returned; [success] is true exactly when no
    write failed; [matched] is the number of writes that succeeded; when a
    write failed the message gives the number of failed writes; and the
    writes issued are the ones determined by the feed and the rows alone,
    so a failed write changes nothing about the writes that follow it.
    In every run in which something throws inside the [try] block, the
    summary is [{success: false, matched: 0}] with the message of what was
    thrown ("Unknown error" when it is not an [Error]), whatever was
    written before. *)
Theorem summary_counts_writes {W} (host : Host)
    (userId pelotonUserId : string) (peloton : PelotonClient W)
    (supabase : SupabaseClient W) (options : option SyncOptions) (w : W) :
  (forall r : CompletionSyncResult,
     snd (syncBody host userId pelotonUserId peloton supabase options (w, []))
       = Ok r ->
     (forall uid resp,
        In (EvSelect uid (Ok resp))
           (runTrace host userId pelotonUserId peloton supabase options w) ->
        sel_error resp = None) ->
     let tr := runTrace host userId pelotonUserId peloton supabase options w in
     runResult host userId pelotonUserId peloton supabase options w = r /\
     (success r = true <-> failedWrites tr = 0%nat) /\
     matched r = succeededWrites tr /\
     ((0 < failedWrites tr)%nat ->
      error r = Some (toString (Z.of_nat (failedWrites tr))
                        +:+ " workout(s) failed to update in database")) /\
     writePairs tr =
       plannedWrites host options (plannedByDateAndRide (eligiblePlanned tr))
         (eligibleActivities tr) ∅ []) /\
  (forall e : Thrown,
     snd (syncBody host userId pelotonUserId peloton supabase options (w, []))
       = Throw e ->
     runResult host userId pelotonUserId peloton supabase options w =
       {| success := false;
          matched := 0%nat;
          error := Some (match e with
                         | ErrorObject message => message
                         | NonError => "Unknown error"%string
                         end) |}).
Proof.
  split.
  2:{ intros e He. rewrite runResult_body, He. reflexivity. }
  intros r Hok Hsel tr. subst tr. revert Hok Hsel.
  by_run_cases host userId pelotonUserId peloton supabase options w;
    intros Hok Hsel; try discriminate Hok.
  - injection Hok as <-. cbn. rewrite Hnone. cbn.
    repeat split; try reflexivity; try lia; try discriminate.
  - specialize (Hsel userId reply (or_intror (or_introl eq_refl))). congruence.
  - injection Hok as <-.
    assert (Hp : eligiblePlanned
                   [EvGetUserWorkouts pelotonUserId fetchOptions (Ok feed);
                    EvSelect userId (Ok reply)] = []).
    { destruct reply as [sd se]. cbn in Hrows, Herr. subst se.
      now destruct Hrows as [->| ->]. }
    rewrite Hp, plannedWrites_no_bucket by apply lookupBucket_no_rows.
    cbn. repeat split; try reflexivity; try lia; try discriminate.
  - destruct (loop_facts host userId pelotonUserId supabase options
                feed reply rows w2 Herr Hdata)
      as (st & HI & Heq & _ & _ & Ha & Hp).
    fold res in HI, Heq, Ha, Hp. rewrite Ha, Hp.
    pose proof (matchAll_writes host supabase options (plannedByDateAndRide rows)
                  (List.filter isCompletedWithRide feed) initialLoopState w2
                  [EvGetUserWorkouts pelotonUserId fetchOptions (Ok feed);
                   EvSelect userId (Ok reply)]) as Hw.
    fold res in Hw.
    destruct (snd res) as [st'|thrown]; [|discriminate Hok].
    injection Hok as <-. rewrite (Heq st' eq_refl) in *.
    split; [reflexivity|]. cbn [summary success matched error].
    rewrite (inv_failed _ _ _ HI), (inv_succeeded _ _ _ HI).
    split; [apply Nat.eqb_eq|]. split; [reflexivity|].
    split; [|exact (Hw st eq_refl)].
    intros Hpos. apply Nat.ltb_lt in Hpos. now rewrite Hpos.
Qed.

(** The partial failure of the test-suite (the second of two writes fails
    at the store), and a run in which the second completion carries an
    instant outside the range of [Date] after the first was written. *)
Lemma summary_counts_writes_witness :
  let peloton :=
    Mock.peloton (Ok [Mock.workout "peloton-workout-1" 1705708800 "ride-123";
                      Mock.workout "peloton-workout-2" 1705752000 "ride-456"]) in
  let supabase :=
    Mock.supabase
      (Mock.rows [Mock.planned "planned-workout-1" "ride-123" "2024-01-20" 0;
                  Mock.planned "planned-workout-2" "ride-456" "2024-01-20" 1])
      (fun n => if (n =? 0)%nat then Mock.updateOk
                else Mock.updateFails "Constraint violation") in
  let r := {| success := false; matched := 1%nat;
              error := Some "1 workout(s) failed to update in database"%string |} in
  let tr := runTrace Mock.host "user-123" "peloton-user-123" peloton supabase
              Mock.utc 0%nat in
  let thrower :=
    Mock.peloton (Ok [Mock.workout "peloton-workout-1" 1705708800 "ride-123";
                      Mock.workout "peloton-workout-2" 10000000000000 "ride-456"]) in
  (runResult Mock.host "user-123" "peloton-user-123" peloton supabase Mock.utc 0%nat = r /\
   (success r = true <-> failedWrites tr = 0%nat) /\
   matched r = succeededWrites tr /\
   ((0 < failedWrites tr)%nat ->
    error r = Some (toString (Z.of_nat (failedWrites tr))
                      +:+ " workout(s) failed to update in database")) /\
   writePairs tr =
     plannedWrites Mock.host Mock.utc (plannedByDateAndRide (eligiblePlanned tr))
       (eligibleActivities tr) ∅ []) /\
  runResult Mock.host "user-123" "peloton-user-123" thrower supabase Mock.utc 0%nat
    = {| success := false; matched := 0%nat;
         error := Some "Invalid time value"%string |}.
Proof.
  intros peloton supabase r tr thrower. split.
  - apply (proj1 (summary_counts_writes Mock.host "user-123" "peloton-user-123"
                    peloton supabase Mock.utc 0%nat) r).
    + vm_compute. reflexivity.
    + intros uid resp Hin. vm_compute in Hin.
      repeat (destruct Hin as [Hin|Hin]; [try discriminate Hin|]);
        [|contradiction].
      injection Hin as _ <-. reflexivity.
  - apply (proj2 (summary_counts_writes Mock.host "user-123" "peloton-user-123"
                    thrower supabase Mock.utc 0%nat)
             (ErrorObject "Invalid time value")).
    vm_compute. reflexivity.
Defined.

(** ** Order inside a bucket, and who is served first *)

Lemma bucket_order rows d r bucket :
  lookupBucket (plannedByDateAndRide rows) d r = Some bucket ->
  Sorted orderLe bucket /\
  Permutation (map toMatch (List.filter (inBucket d r) rows)) bucket /\
  forall k,
    List.filter (hasOrder k) bucket =
    List.filter (hasOrder k) (map toMatch (List.filter (inBucket d r) rows)).
Proof.
  rewrite lookupBucket_index.
  destruct (List.filter (inBucket d r) rows) as [|x l]; [discriminate|].
  intros [= <-].
  split; [apply (sortBySortOrder_sorted (map toMatch (x :: l)))|].
  split; [apply (sortBySortOrder_perm (map toMatch (x :: l)))|].
  intros k. apply (sortBySortOrder_stable k (map toMatch (x :: l))).
Qed.

Lemma no_updates_fifo host options index feed tr :
  updates tr = [] -> FifoTrace host options index feed tr.
Proof.
  intros Hnone tr1 id payload out tr2 ->.
  rewrite updates_app in Hnone. apply app_eq_nil in Hnone as [_ Hnone].
  discriminate Hnone.
Qed.

Lemma run_fifo {W} (host : Host)
    (userId pelotonUserId : string) (peloton : PelotonClient W)
    (supabase : SupabaseClient W) (options : option SyncOptions) (w : W) :
  let tr := runTrace host userId pelotonUserId peloton supabase options w in
  FifoTrace host options (plannedByDateAndRide (eligiblePlanned tr))
    (eligibleActivities tr) tr.
Proof.
  cbn zeta.
  by_run_cases host userId pelotonUserId peloton supabase options w;
    try (now apply no_updates_fifo).
  destruct (loop_facts host userId pelotonUserId supabase options
              feed reply rows w2 Herr Hdata) as (_ & _ & _ & _ & _ & Ha & Hp).
  fold res in Ha, Hp. rewrite Ha, Hp.
  apply matchAll_fifo; [auto|reflexivity|now apply no_updates_fifo].
Qed.

Lemma resolved_date_valid h ts tz d :
  timestampToDateInTimezone h ts tz = Ok d ->
  exists t, newDate (ts * 1000) = Some t.
Proof.
  unfold timestampToDateInTimezone.
  destruct (newDate (ts * 1000)) as [t|]; [eauto|].
  unfold DateFnsTz.toZonedTime, DateFns.format.
  destruct tz as [tz|]; [|discriminate].
  destruct (truthy tz && isValidTimezone h tz); discriminate.
Qed.

Lemma toISOString_valid t : exists s, toISOString (Some t) = Ok s.
Proof.
  unfold toISOString. destruct (civilOfMs t) as [[y m] dd]. eauto.
Qed.

Lemma findUnattempted_first c l : findUnattempted [] (c :: l) = Some c.
Proof.
  unfold findUnattempted, includes. cbn.
  rewrite bool_decide_eq_false_2; [reflexivity|]. apply not_elem_of_nil.
Qed.

Lemma sort_two (e0 e1 : PlannedRow) rows :
  pw_sort_order e0 < pw_sort_order e1 ->
  rows = [e1; e0] \/ rows = [e0; e1] ->
  sortBySortOrder (map toMatch rows) = [toMatch e0; toMatch e1].
Proof.
  intros Hlt [-> | ->]; cbn; unfold compareSortOrder; cbn.
  - destruct (Z.leb_spec (pw_sort_order e1 - pw_sort_order e0) 0);
      [lia|reflexivity].
  - destruct (Z.leb_spec (pw_sort_order e0 - pw_sort_order e1) 0);
      [reflexivity|lia].
Qed.

(** One completion against two rows of its bucket: the write goes to the
    row of lower order. *)
Lemma single_completion_two_rows {W} (host : Host)
    (userId pelotonUserId : string) (peloton : PelotonClient W)
    (supabase : SupabaseClient W) (options : option SyncOptions) (w : W)
    (cw : PelotonWorkout) (e0 e1 : PlannedRow) (d r : string) :
  let tr := runTrace host userId pelotonUserId peloton supabase options w in
  eligibleActivities tr = [cw] ->
  eligiblePlanned tr = [e1; e0] \/ eligiblePlanned tr = [e0; e1] ->
  rideIdOf cw = Ok r ->
  timestampToDateInTimezone host (w_created_at cw) (optionsTimezone options) = Ok d ->
  inBucket d r e0 = true ->
  inBucket d r e1 = true ->
  pw_sort_order e0 < pw_sort_order e1 ->
  writeTargets tr = [pw_id e0].
Proof.
  cbn zeta.
  by_run_cases host userId pelotonUserId peloton supabase options w;
    intros Hfeed Hplanned Hr Hd Hb0 Hb1 Hlt;
    try (cbn in Hfeed; discriminate Hfeed);
    try (cbn in Hfeed; rewrite app_nil_r in Hfeed; congruence).
  - exfalso. cbn in Hplanned. destruct Hplanned; discriminate.
  - exfalso. destruct reply as [sd se]. cbn in Herr. subst se.
    cbn in Hplanned. destruct sd; destruct Hplanned; discriminate.
  - exfalso. destruct reply as [sd se]. cbn in Herr, Hrows, Hplanned. subst se.
    destruct Hrows as [-> | ->]; destruct Hplanned; discriminate.
  - destruct (loop_facts host userId pelotonUserId supabase options
                feed reply rows w2 Herr Hdata) as (_ & _ & _ & _ & _ & Ha & Hp).
    fold res in Ha, Hp. rewrite Ha in Hfeed. rewrite Hp in Hplanned.
    subst res. rewrite Hfeed. cbn [matchAll]. unfold bind.
    rewrite matchOne_step. unfold choose. rewrite Hr, Hd.
    rewrite bool_decide_eq_false_2 by apply not_elem_of_empty.
    rewrite lookupBucket_index.
    assert (Hall : List.filter (inBucket d r) rows = rows).
    { destruct Hplanned as [-> | ->]; cbn; now rewrite Hb0, Hb1. }
    rewrite Hall.
    assert (Hne : exists x l, rows = x :: l)
      by (destruct Hplanned as [-> | ->]; eauto).
    destruct Hne as (x & l & Hxl). rewrite Hxl at 1. rewrite <- Hxl.
    rewrite (sort_two e0 e1 rows Hlt Hplanned).
    cbn [initialLoopState attemptedIds]. rewrite findUnattempted_first.
    destruct (resolved_date_valid _ _ _ _ Hd) as (t & ->).
    destruct (toISOString_valid t) as (completedAt & ->).
    destruct (updatePlanned supabase _ _ w2) as [w3 [resp|e]]; reflexivity.
Qed.

(** C4.  Every bucket of the index is sorted by [sort_order], holds exactly
    the rows of its date and ride, and keeps rows of equal order in the
    order the store returned them.  In every run each write goes to the
    first candidate of its bucket that no earlier write was addressed to.
    In particular, with one completion and two rows of its bucket, the
    write goes to the row of lower order, and no write goes to the other. *)
Theorem candidates_ordered_first_free_wins :
  (forall rows d r bucket,
     lookupBucket (plannedByDateAndRide rows) d r = Some bucket ->
     Sorted orderLe bucket /\
     Permutation (map toMatch (List.filter (inBucket d r) rows)) bucket /\
     forall k,
       List.filter (hasOrder k) bucket =
       List.filter (hasOrder k) (map toMatch (List.filter (inBucket d r) rows))) /\
  (forall W (host : Host) (userId pelotonUserId : string)
          (peloton : PelotonClient W) (supabase : SupabaseClient W)
          (options : option SyncOptions) (w : W),
     let tr := runTrace host userId pelotonUserId peloton supabase options w in
     FifoTrace host options (plannedByDateAndRide (eligiblePlanned tr))
       (eligibleActivities tr) tr /\
     forall cw e0 e1 d r,
       eligibleActivities tr = [cw] ->
       eligiblePlanned tr = [e1; e0] \/ eligiblePlanned tr = [e0; e1] ->
       rideIdOf cw = Ok r ->
       timestampToDateInTimezone host (w_created_at cw) (optionsTimezone options)
         = Ok d ->
       inBucket d r e0 = true ->
       inBucket d r e1 = true ->
       pw_sort_order e0 < pw_sort_order e1 ->
       writeTargets tr = [pw_id e0] /\
       (pw_id e1 <> pw_id e0 -> pw_id e1 ∉ writeTargets tr)).
Proof.
  split; [apply bucket_order|].
  intros W host userId pelotonUserId peloton supabase options w tr.
  split; [apply run_fifo|].
  intros cw e0 e1 d r Hfeed Hplanned Hr Hd Hb0 Hb1 Hlt.
  pose proof (single_completion_two_rows host userId pelotonUserId peloton
                supabase options w cw e0 e1 d r Hfeed Hplanned Hr Hd Hb0 Hb1 Hlt)
    as Hw.
  fold tr in Hw. split; [assumption|].
  rewrite Hw. intros Hne Hin. apply list_elem_of_singleton in Hin. contradiction.
Qed.

(** Scenario C of the test-suite: rows of order 1 and 0 for one ride and
    day, one completion; the row of order 0 is written. *)
Lemma candidates_ordered_first_free_wins_witness :
  let cw := Mock.workout "peloton-workout-1" 1705708800 "ride-123" in
  let e1 := Mock.planned "planned-workout-2" "ride-123" "2024-01-20" 1 in
  let e0 := Mock.planned "planned-workout-1" "ride-123" "2024-01-20" 0 in
  let tr := runTrace Mock.host "user-123" "peloton-user-123"
              (Mock.peloton (Ok [cw]))
              (Mock.supabase (Mock.rows [e1; e0]) (fun _ => Mock.updateOk))
              Mock.utc 0%nat in
  writeTargets tr = ["planned-workout-1"%string] /\
  ("planned-workout-2"%string ∉ writeTargets tr).
Proof.
  intros cw e1 e0 tr.
  destruct candidates_ordered_first_free_wins as [_ H].
  destruct (H nat Mock.host "user-123"%string "peloton-user-123"%string
              (Mock.peloton (Ok [cw]))
              (Mock.supabase (Mock.rows [e1; e0]) (fun _ => Mock.updateOk))
              Mock.utc 0%nat) as [_ Hscenario].
  destruct (Hscenario cw e0 e1 "2024-01-20"%string "ride-123"%string)
    as [Hw Hother]; try (vm_compute; reflexivity).
  - left. vm_compute. reflexivity.
  - split; [exact Hw|]. apply Hother. discriminate.
Defined.

(** ** The shape of a printed date *)

Lemma length_append (a b : string) :
  String.length (a +:+ b) = (String.length a + String.length b)%nat.
Proof. induction a as [|c a IH]; simpl; [reflexivity|now rewrite IH]. Qed.

Lemma allDigits_append (a b : string) :
  allDigits (a +:+ b) = allDigits a && allDigits b.
Proof.
  induction a as [|c a IH]; simpl; [reflexivity|].
  now rewrite IH, andb_assoc.
Qed.

Lemma zeros_digits n : allDigits (zeros n) = true /\ String.length (zeros n) = n.
Proof.
  induction n as [|n [IH1 IH2]]; simpl; [split; reflexivity|].
  rewrite IH1, IH2. split; reflexivity.
Qed.

Lemma string_of_uint_digits d : allDigits (NilEmpty.string_of_uint d) = true.
Proof. induction d; simpl; try assumption; reflexivity. Qed.

Lemma toString_digits n : allDigits (toString n) = true.
Proof.
  unfold toString, NilZero.string_of_uint.
  destruct (N.to_uint (Z.to_N n)) eqn:E; try reflexivity;
    rewrite <- E; apply string_of_uint_digits.
Qed.

Lemma padStart0_digits width s :
  allDigits s = true -> allDigits (padStart0 width s) = true.
Proof.
  intros H. unfold padStart0. rewrite allDigits_append, H.
  now destruct (zeros_digits (width - String.length s)) as [-> _].
Qed.

Lemma padStart0_length width s :
  String.length (padStart0 width s) = Nat.max width (String.length s).
Proof.
  unfold padStart0. rewrite length_append.
  destruct (zeros_digits (width - String.length s)) as [_ ->]. lia.
Qed.

Lemma toString_two_digits n :
  0 <= n < 100 -> (String.length (toString n) <= 2)%nat.
Proof.
  intros Hn.
  assert (Hall : forallb (fun k => (String.length (toString (Z.of_nat k)) <=? 2)%nat)
                   (seq 0 100) = true) by (vm_compute; reflexivity).
  rewrite forallb_forall in Hall.
  specialize (Hall (Z.to_nat n)). rewrite Z2Nat.id in Hall by lia.
  apply Nat.leb_le, Hall, in_seq. lia.
Qed.

Lemma civilFromDays_range days :
  1 <= snd (fst (civilFromDays days)) <= 12 /\
  1 <= snd (civilFromDays days) <= 31.
Proof.
  unfold civilFromDays. cbn [fst snd].
  set (z := days + 719468).
  set (era := z / 146097).
  set (doe := z - era * 146097).
  assert (Hdoe : 0 <= doe < 146097).
  { subst doe era. pose proof (Z.mod_pos_bound z 146097 ltac:(lia)) as H.
    rewrite Z.mod_eq in H by lia. lia. }
  clearbody doe.
  set (yoe := (doe - doe / 1460 + doe / 36524 - doe / 146096) / 365).
  set (doy := doe - (365 * yoe + yoe / 4 - yoe / 100)).
  assert (Hdoy : 0 <= doy <= 365)
    by (subst doy yoe; Z.to_euclidean_division_equations; lia).
  clearbody doy.
  set (mp := (5 * doy + 2) / 153).
  assert (Hmp : 0 <= mp <= 11)
    by (subst mp; Z.to_euclidean_division_equations; lia).
  split.
  - destruct (Z.ltb_spec mp 10); lia.
  - subst mp. Z.to_euclidean_division_equations. lia.
Qed.

Lemma yyyyMMdd_shape wall : isYmdString (DateFns.yyyyMMdd (civilOfMs wall)).
Proof.
  unfold civilOfMs.
  pose proof (civilFromDays_range (wall / msPerDay)) as [Hm Hd].
  destruct (civilFromDays (wall / msPerDay)) as [[y m] d]. cbn [fst snd] in *.
  unfold DateFns.yyyyMMdd.
  eexists _, _, _. split; [reflexivity|].
  repeat split.
  - apply padStart0_digits, toString_digits.
  - rewrite padStart0_length. lia.
  - apply padStart0_digits, toString_digits.
  - rewrite padStart0_length.
    pose proof (toString_two_digits m ltac:(lia)). lia.
  - apply padStart0_digits, toString_digits.
  - rewrite padStart0_length.
    pose proof (toString_two_digits d ltac:(lia)). lia.
Qed.

(** ** Resolving the calendar date *)

Lemma format_valid h t :
  DateFns.format h (Some t) =
  Ok (DateFns.yyyyMMdd (civilOfMs (LocalTime h t))).
Proof. reflexivity. Qed.

(** [MakeDay] undoes the calendar fields of a day number. *)
Lemma MakeDay_civilFromDays n :
  MakeDay (fst (fst (civilFromDays n))) (snd (fst (civilFromDays n)) - 1)
    (snd (civilFromDays n)) = n.
Proof.
  unfold civilFromDays. cbn [fst snd].
  set (z := n + 719468).
  set (era := z / 146097).
  set (doe := z - era * 146097).
  assert (Hdoe : 0 <= doe < 146097).
  { subst doe era. pose proof (Z.mod_pos_bound z 146097 ltac:(lia)) as H.
    rewrite Z.mod_eq in H by lia. lia. }
  assert (Hz : n = era * 146097 + doe - 719468) by (subst doe z; lia).
  clearbody doe. clearbody era. clear z.
  set (yoe := (doe - doe / 1460 + doe / 36524 - doe / 146096) / 365).
  assert (Hyoe : 0 <= yoe <= 399)
    by (subst yoe; Z.to_euclidean_division_equations; lia).
  set (doy := doe - (365 * yoe + yoe / 4 - yoe / 100)).
  assert (Hdoy : 0 <= doy <= 365)
    by (subst doy yoe; Z.to_euclidean_division_equations; lia).
  assert (Hdoe' : doe = 365 * yoe + yoe / 4 - yoe / 100 + doy)
    by (subst doy; lia).
  clearbody doy. clearbody yoe.
  set (mp := (5 * doy + 2) / 153).
  assert (Hmp : 0 <= mp <= 11)
    by (subst mp; Z.to_euclidean_division_equations; lia).
  clearbody mp.
  unfold MakeDay, daysFromCivil.
  destruct (Z.ltb_spec mp 10) as [Hlt|Hge].
  - replace ((mp + 3 - 1) / 12) with 0
      by (Z.to_euclidean_division_equations; lia).
    replace ((mp + 3 - 1) mod 12 + 1) with (mp + 3)
      by (Z.to_euclidean_division_equations; lia).
    destruct (Z.leb_spec (mp + 3) 2); [lia|].
    destruct (Z.ltb_spec 2 (mp + 3)); [|lia].
    replace (yoe + era * 400 + 0 + 0) with (yoe + era * 400) by lia.
    replace ((yoe + era * 400) / 400) with era
      by (Z.to_euclidean_division_equations; lia).
    replace (mp + 3 - 3) with mp by lia.
    replace (yoe + era * 400 - era * 400) with yoe by lia.
    lia.
  - replace ((mp - 9 - 1) / 12) with 0
      by (Z.to_euclidean_division_equations; lia).
    replace ((mp - 9 - 1) mod 12 + 1) with (mp - 9)
      by (Z.to_euclidean_division_equations; lia).
    destruct (Z.leb_spec (mp - 9) 2); [|lia].
    destruct (Z.ltb_spec 2 (mp - 9)); [lia|].
    replace (yoe + era * 400 + 1 + 0 - 1) with (yoe + era * 400) by lia.
    replace ((yoe + era * 400) / 400) with era
      by (Z.to_euclidean_division_equations; lia).
    replace (mp - 9 + 9) with mp by lia.
    replace (yoe + era * 400 - era * 400) with yoe by lia.
    lia.
Qed.

Lemma MakeDay_civilOfMs t :
  MakeDay (getUTCFullYear t) (getUTCMonth t) (getUTCDate t) = Day t.
Proof. apply MakeDay_civilFromDays. Qed.

Lemma MakeTime_fields t :
  MakeTime (getUTCHours t) (getUTCMinutes t) (getUTCSeconds t)
    (getUTCMilliseconds t) = TimeWithinDay t.
Proof.
  unfold MakeTime, getUTCHours, getUTCMinutes, getUTCSeconds,
    getUTCMilliseconds, TimeWithinDay, msPerDay.
  Z.to_euclidean_division_equations. lia.
Qed.

Lemma MakeTime_tokens t :
  MakeTime (getUTCHours t mod 24) (getUTCMinutes t) (getUTCSeconds t) 0
  = TimeWithinDay t - t mod 1000.
Proof.
  unfold MakeTime, getUTCHours, getUTCMinutes, getUTCSeconds,
    TimeWithinDay, msPerDay.
  Z.to_euclidean_division_equations. lia.
Qed.

Lemma MakeDate_Day t : MakeDate (Day t) (TimeWithinDay t) = t.
Proof.
  unfold MakeDate, Day, TimeWithinDay, msPerDay.
  Z.to_euclidean_division_equations. lia.
Qed.

Lemma Day_MakeDate day time :
  0 <= time < msPerDay -> Day (MakeDate day time) = day.
Proof.
  unfold MakeDate, Day, msPerDay. intros H.
  Z.to_euclidean_division_equations. lia.
Qed.

Lemma TimeWithinDay_range t : 0 <= TimeWithinDay t < msPerDay.
Proof. unfold TimeWithinDay, msPerDay. apply Z.mod_pos_bound. lia. Qed.

Lemma timeClip_in_range t : Z.abs t <= maxTime -> timeClip t = Some t.
Proof. unfold timeClip. intros H. apply Z.leb_le in H. now rewrite H. Qed.

Lemma timeClip_out_of_range t : maxTime < Z.abs t -> timeClip t = None.
Proof. unfold timeClip. intros H. apply Z.leb_gt in H. now rewrite H. Qed.

(** The milliseconds that [calcOffset] drops from the instant. *)
Lemma over_mod t :
  (if 0 <=? Z.rem t 1000 then Z.rem t 1000 else 1000 + Z.rem t 1000)
  = t mod 1000.
Proof.
  destruct (Z.leb_spec 0 (Z.rem t 1000));
    Z.to_euclidean_division_equations; lia.
Qed.

(** For a wall clock in year 1 or later and within range, the date built
    from the tokens is the wall clock itself, to the second. *)
Lemma calcOffset_common_era (off : Z -> Z) t :
  0 < getUTCFullYear (t + off t) ->
  Z.abs (t + off t) <= maxTime ->
  DateFnsTz.calcOffset off t =
    Some ((t + off t - (t + off t) mod 1000) - (t - t mod 1000)).
Proof.
  intros Hyear Hrange.
  unfold DateFnsTz.calcOffset, DateFnsTz.tzTokenizeDate.
  set (wall := t + off t) in *.
  pose proof (MakeDay_civilOfMs wall) as Hday.
  unfold getUTCFullYear, getUTCMonth, getUTCDate in Hday, Hyear.
  destruct (civilOfMs wall) as [[y m] d]. cbn [fst snd] in Hday, Hyear.
  apply Z.ltb_lt in Hyear. rewrite Hyear.
  unfold DateFnsTz.newDateUTC, setUTCFullYear.
  rewrite Hday.
  change (TimeWithinDay 0) with 0.
  assert (Hfloor : Z.abs (MakeDate (Day wall) 0) <= maxTime).
  { unfold MakeDate, Day, maxTime, msPerDay in *.
    Z.to_euclidean_division_equations. lia. }
  rewrite (timeClip_in_range _ Hfloor). unfold setUTCHours.
  rewrite Day_MakeDate by (unfold msPerDay; lia).
  rewrite MakeTime_tokens.
  assert (Hsec : MakeDate (Day wall) (TimeWithinDay wall - wall mod 1000)
                 = wall - wall mod 1000).
  { pose proof (MakeDate_Day wall). unfold MakeDate in *. lia. }
  rewrite Hsec.
  assert (Hsec' : Z.abs (wall - wall mod 1000) <= maxTime).
  { unfold maxTime in *. Z.to_euclidean_division_equations. lia. }
  rewrite (timeClip_in_range _ Hsec'), over_mod. reflexivity.
Qed.

(** A named zone, a wall clock in year 1 or later that the process's zone
    can hold: the zoned [Date] reads, in local time, the wall clock of the
    zone. *)
Lemma toZonedTime_named h name off t :
  DateFnsTz.lexicalOffset name = DateFnsTz.NoMatch ->
  zoneOffset h name = Some off ->
  Z.abs t <= maxTime ->
  t mod 1000 = 0 ->
  off t mod 1000 = 0 ->
  0 < getUTCFullYear (t + off t) ->
  Z.abs (t + off t) <= maxTime ->
  LocalRoundTrip h (epochTimeOn h (t + off t)) ->
  LocalRoundTrip h (t + off t) ->
  exists u,
    DateFnsTz.toZonedTime h (Some t) name = Some u /\
    LocalTime h u = t + off t.
Proof.
  intros Hlex Hzone Ht Hms Hoff Hyear Hrange [Hin1 Hback1] [Hin2 Hback2].
  unfold DateFnsTz.toZonedTime, DateFnsTz.tzParseTimezone.
  rewrite Hlex, Hzone, (calcOffset_common_era off t Hyear Hrange).
  cbn [option_map].
  set (wall := t + off t) in *.
  assert (Hwall : wall mod 1000 = 0).
  { subst wall. Z.to_euclidean_division_equations. lia. }
  replace (t - - (wall - wall mod 1000 - (t - t mod 1000))) with wall by lia.
  rewrite (timeClip_in_range _ Hrange).
  unfold setFullYear. rewrite MakeDay_civilOfMs.
  fold (epochTimeOn h wall).
  rewrite (timeClip_in_range _ Hin1). unfold setHours.
  rewrite Hback1. unfold epochTimeOn.
  rewrite Day_MakeDate by apply TimeWithinDay_range.
  rewrite MakeTime_fields, MakeDate_Day, (timeClip_in_range _ Hin2).
  eauto.
Qed.

(** Whatever the zone argument, an instant within range resolves, and to
    a string that [format] printed. *)
Lemma resolves_in_range h t tz :
  exists wall,
    match
      match tz with
      | Some name =>
          if truthy name && isValidTimezone h name
          then Some (DateFns.format h (DateFnsTz.toZonedTime h (Some t) name))
          else None
      | None => None
      end
    with
    | Some (Ok s) => Ok s
    | _ => DateFns.format h (Some t)
    end = Ok (DateFns.yyyyMMdd (civilOfMs wall)).
Proof.
  destruct tz as [name|]; [|cbn; eauto].
  destruct (truthy name && isValidTimezone h name); [|cbn; eauto].
  destruct (DateFnsTz.toZonedTime h (Some t) name) as [u|]; cbn; eauto.
Qed.

(** A process zone with a fixed offset holds every wall-clock reading
    whose instant is within range. *)
Lemma fixed_offset_round_trip h c wall :
  (forall t, localOffset h t = c) ->
  (forall w, localOffsetAtWall h w = c) ->
  Z.abs (wall - c) <= maxTime ->
  LocalRoundTrip h wall.
Proof.
  intros Hat Hwall Hrange. unfold LocalRoundTrip, LocalTime, UTC.
  rewrite Hwall, Hat. split; [exact Hrange|lia].
Qed.




(** * Beyond the claims: the rest of the behaviour of a run *)

(** ** Where each write comes from *)

Section LoopOrigin.

Context {W : Type}.
Variable host : Host.
Variable supabase : SupabaseClient W.
Variable options : option SyncOptions.
Variable index : gmap string (gmap string (list PlannedWorkoutMatch)).
Variable feed : list PelotonWorkout.

Lemma matchAll_origin ws : forall st w tr,
  (forall cw, cw ∈ ws -> cw ∈ feed) ->
  writeTargets tr = attemptedIds st ->
  OriginTrace host options index feed tr ->
  OriginTrace host options index feed
    (snd (fst (matchAll host supabase options index ws st (w, tr)))).
Proof.
  induction ws as [|cw ws IH]; intros st w tr Hfeed Ht Horigin; [assumption|].
  assert (Hrest : forall c, c ∈ ws -> c ∈ feed)
    by (intros c Hc; apply Hfeed; now right).
  cbn [matchAll]. unfold bind. rewrite matchOne_step.
  destruct (choose host options index _ _ cw) as [[m|]|e] eqn:Hch;
    [| now apply IH | assumption].
  destruct (toISOString _) as [completedAt|e] eqn:Hiso; [|assumption].
  apply choose_Some in Hch as (_ & d & r & bucket & Hr & Hd & Hb & Hff).
  assert (Hnew : forall out,
    OriginTrace host options index feed
      (tr ++ [EvUpdate (m_id m) (payloadFor cw completedAt) out])).
  { intros out tr1 id payload o tr2 Hsplit.
    apply snoc_split in Hsplit as [(_ & -> & Hev)|(tr2' & _ & ->)].
    - injection Hev as -> -> ->. rewrite Ht.
      exists cw, r, d, bucket, m, completedAt.
      split; [apply Hfeed; left|]. auto 10.
    - eapply Horigin. reflexivity. }
  destruct (updatePlanned supabase _ (m_id m) w) as [w' [resp|e]]; cbn [fst snd].
  - apply IH; [assumption| |apply Hnew].
    rewrite writeTargets_app, Ht. now destruct resp as [[fe|]].
  - apply Hnew.
Qed.

End LoopOrigin.

Lemma no_updates_origin host options index feed tr :
  updates tr = [] -> OriginTrace host options index feed tr.
Proof.
  intros Hnone tr1 id payload out tr2 ->.
  rewrite updates_app in Hnone. apply app_eq_nil in Hnone as [_ Hnone].
  discriminate Hnone.
Qed.

Lemma run_origin {W} (host : Host)
    (userId pelotonUserId : string) (peloton : PelotonClient W)
    (supabase : SupabaseClient W) (options : option SyncOptions) (w : W) :
  let tr := runTrace host userId pelotonUserId peloton supabase options w in
  OriginTrace host options (plannedByDateAndRide (eligiblePlanned tr))
    (eligibleActivities tr) tr.
Proof.
  cbn zeta.
  by_run_cases host userId pelotonUserId peloton supabase options w;
    try (now apply no_updates_origin).
  destruct (loop_facts host userId pelotonUserId supabase options
              feed reply rows w2 Herr Hdata) as (_ & _ & _ & _ & _ & Ha & Hp).
  fold res in Ha, Hp. rewrite Ha, Hp.
  apply matchAll_origin; [auto|reflexivity|now apply no_updates_origin].
Qed.

Lemma eligibleActivities_completed tr cw :
  In cw (eligibleActivities tr) -> isCompletedWithRide cw = true.
Proof.
  unfold eligibleActivities. intros Hin.
  apply in_flat_map in Hin as (e & _ & Hin).
  destruct e as [? ? [data|]| |]; try contradiction.
  now apply filter_In in Hin.
Qed.

Lemma rideIdOf_Ok cw r :
  rideIdOf cw = Ok r -> w_ride cw = Some {| ride_id := r |}.
Proof.
  unfold rideIdOf. destruct (w_ride cw) as [[rid]|]; [|discriminate].
  now intros [= ->].
Qed.

Lemma inBucket_true d r pw :
  inBucket d r pw = true ->
  pw_scheduled_date pw = d /\ pw_peloton_ride_id pw = r.
Proof.
  unfold inBucket. intros H. apply andb_prop in H as [Hd Hr].
  now apply String.eqb_eq in Hd, Hr.
Qed.

(** X1.  Every write of a run is addressed to a planned row that the
    eligibility query returned, and carries the id of a completed workout
    of the feed whose ride is the row's ride and whose resolved calendar
    date is the row's scheduled date. *)
Theorem write_pairs_row_with_its_completion {W} (host : Host)
    (userId pelotonUserId : string) (peloton : PelotonClient W)
    (supabase : SupabaseClient W) (options : option SyncOptions) (w : W)
    (id : string) (payload : WorkoutUpdate) (out : Exc UpdateResponse) :
  In (EvUpdate id payload out)
     (runTrace host userId pelotonUserId peloton supabase options w) ->
  exists cw pw,
    In cw (eligibleActivities
             (runTrace host userId pelotonUserId peloton supabase options w)) /\
    In pw (eligiblePlanned
             (runTrace host userId pelotonUserId peloton supabase options w)) /\
    pw_id pw = id /\
    w_id cw = u_peloton_workout_id payload /\
    w_status cw = "COMPLETE"%string /\
    w_ride cw = Some {| ride_id := pw_peloton_ride_id pw |} /\
    timestampToDateInTimezone host (w_created_at cw) (optionsTimezone options)
      = Ok (pw_scheduled_date pw).
Proof.
  intros Hin. apply in_split in Hin as (tr1 & tr2 & Htr).
  destruct (run_origin host userId pelotonUserId peloton supabase options w
              tr1 id payload out tr2 Htr)
    as (cw & r & d & bucket & m & completedAt
        & Hcw & Hr & Hd & Hb & Hff & Hid & _ & Hpayload).
  apply FirstFree_elem in Hff as [Hm _].
  destruct (bucket_rows _ _ _ _ _ Hb Hm) as (pw & Hpw & Hin & ->).
  apply inBucket_true in Hin as [Hdate Hride].
  apply list_elem_of_In in Hcw.
  exists cw, pw. split; [assumption|]. split; [assumption|].
  split; [exact Hid|]. split; [now rewrite Hpayload|].
  split.
  - apply eligibleActivities_completed in Hcw. unfold isCompletedWithRide in Hcw.
    apply andb_prop in Hcw as [Hs _]. now apply String.eqb_eq in Hs.
  - split; [rewrite Hride; now apply rideIdOf_Ok|now rewrite Hdate].
Qed.

Lemma write_pairs_row_with_its_completion_witness :
  let cw := Mock.workout "peloton-workout-1" 1705730400 "ride-123" in
  let pw := Mock.planned "planned-workout-1" "ride-123" "2024-01-19" 0 in
  let options := Some {| timezone := Some "America/Los_Angeles"%string |} in
  let tr := runTrace Mock.host "user-123" "peloton-user-123"
              (Mock.peloton (Ok [cw]))
              (Mock.supabase (Mock.rows [pw]) (fun _ => Mock.updateOk))
              options 0%nat in
  exists cw' pw',
    In cw' (eligibleActivities tr) /\
    In pw' (eligiblePlanned tr) /\
    pw_id pw' = "planned-workout-1"%string /\
    w_id cw' = "peloton-workout-1"%string /\
    w_status cw' = "COMPLETE"%string /\
    w_ride cw' = Some {| ride_id := pw_peloton_ride_id pw' |} /\
    timestampToDateInTimezone Mock.host (w_created_at cw') (optionsTimezone options)
      = Ok (pw_scheduled_date pw').
Proof.
  intros cw pw options tr.
  apply (write_pairs_row_with_its_completion Mock.host "user-123"
           "peloton-user-123" (Mock.peloton (Ok [cw]))
           (Mock.supabase (Mock.rows [pw]) (fun _ => Mock.updateOk))
           options 0%nat "planned-workout-1"
           (payloadFor cw "2024-01-20T06:00:00.000Z") Mock.updateOk).
  vm_compute. right. right. left. reflexivity.
Defined.

(** X2.  Every write of a run sets the status to "completed", and carries
    the id of a completed workout of the feed together with that workout's
    completion instant in ISO form. *)
Theorem write_payload_from_completion {W} (host : Host)
    (userId pelotonUserId : string) (peloton : PelotonClient W)
    (supabase : SupabaseClient W) (options : option SyncOptions) (w : W)
    (id : string) (payload : WorkoutUpdate) (out : Exc UpdateResponse) :
  In (EvUpdate id payload out)
     (runTrace host userId pelotonUserId peloton supabase options w) ->
  u_status payload = "completed"%string /\
  exists cw,
    In cw (eligibleActivities
             (runTrace host userId pelotonUserId peloton supabase options w)) /\
    u_peloton_workout_id payload = w_id cw /\
    toISOString (newDate (w_created_at cw * 1000)) = Ok (u_completed_at payload).
Proof.
  intros Hin. apply in_split in Hin as (tr1 & tr2 & Htr).
  destruct (run_origin host userId pelotonUserId peloton supabase options w
              tr1 id payload out tr2 Htr)
    as (cw & r & d & bucket & m & completedAt
        & Hcw & _ & _ & _ & _ & _ & Hiso & ->).
  split; [reflexivity|]. exists cw.
  split; [now apply list_elem_of_In|]. split; [reflexivity|exact Hiso].
Qed.

Lemma write_payload_from_completion_witness :
  let cw := Mock.workout "peloton-workout-1" 1705730400 "ride-123" in
  let pw := Mock.planned "planned-workout-1" "ride-123" "2024-01-20" 0 in
  let tr := runTrace Mock.host "user-123" "peloton-user-123"
              (Mock.peloton (Ok [cw]))
              (Mock.supabase (Mock.rows [pw]) (fun _ => Mock.updateFails "Database error"))
              Mock.utc 0%nat in
  exists cw',
    In cw' (eligibleActivities tr) /\
    "peloton-workout-1"%string = w_id cw' /\
    toISOString (newDate (w_created_at cw' * 1000))
      = Ok "2024-01-20T06:00:00.000Z"%string.
Proof.
  intros cw pw tr.
  apply (write_payload_from_completion Mock.host "user-123"
           "peloton-user-123" (Mock.peloton (Ok [cw]))
           (Mock.supabase (Mock.rows [pw]) (fun _ => Mock.updateFails "Database error"))
           Mock.utc 0%nat "planned-workout-1"
           (payloadFor cw "2024-01-20T06:00:00.000Z")
           (Mock.updateFails "Database error")).
  vm_compute. right. right. left. reflexivity.
Defined.

(** ** No completed workout is passed over while a candidate is free *)

Lemma choose_None host options index consumed attempted cw :
  choose host options index consumed attempted cw = Ok None ->
  (w_id cw ∈ consumed) \/
  forall r d bucket,
    rideIdOf cw = Ok r ->
    timestampToDateInTimezone host (w_created_at cw) (optionsTimezone options)
      = Ok d ->
    lookupBucket index d r = Some bucket ->
    forall c, c ∈ bucket -> m_id c ∈ attempted.
Proof.
  unfold choose.
  destruct (rideIdOf cw) as [r0|]; [|discriminate].
  destruct (timestampToDateInTimezone _ _ _) as [d0|]; [|discriminate].
  case_bool_decide as Hc; [now left|].
  intros H. right. intros r d bucket [= <-] [= <-] Hb.
  rewrite Hb in H. injection H as H. now apply findUnattempted_None.
Qed.

Lemma Exhausted_app host options index tr added cw :
  Exhausted host options index tr cw ->
  Exhausted host options index (tr ++ added) cw.
Proof.
  intros [Hw|Hall].
  - left. rewrite writeActivities_app. apply elem_of_app. now left.
  - right. intros r d bucket Hr Hd Hb c Hc.
    rewrite writeTargets_app. apply elem_of_app. left. eauto.
Qed.

Section LoopServed.

Context {W : Type}.
Variable host : Host.
Variable supabase : SupabaseClient W.
Variable options : option SyncOptions.
Variable index : gmap string (gmap string (list PlannedWorkoutMatch)).

Lemma matchAll_served ws : forall st w tr st',
  snd (matchAll host supabase options index ws st (w, tr)) = Ok st' ->
  writeTargets tr = attemptedIds st ->
  (forall x, x ∈ matchedPelotonWorkoutIds st -> x ∈ writeActivities tr) ->
  forall cw, cw ∈ ws ->
    Exhausted host options index
      (snd (fst (matchAll host supabase options index ws st (w, tr)))) cw.
Proof.
  induction ws as [|cw0 ws IH]; intros st w tr st' Hok Ht Hcons cw Hcw;
    [inversion Hcw|].
  revert Hok. cbn [matchAll]. unfold bind. rewrite matchOne_step.
  destruct (choose host options index _ _ cw0) as [[m|]|e] eqn:Hch;
    [| |discriminate].
  - destruct (toISOString _) as [completedAt|e]; [|discriminate].
    destruct (updatePlanned supabase _ (m_id m) w) as [w' [resp|e]];
      cbn [fst snd]; [|discriminate].
    intros Hok.
    set (tr' := tr ++ [EvUpdate (m_id m) (payloadFor cw0 completedAt) (Ok resp)]).
    assert (Ht' : writeTargets tr' = attemptedIds (recorded (marked st cw0 m) m resp)).
    { unfold tr'. rewrite writeTargets_app, Ht. now destruct resp as [[fe|]]. }
    assert (Hcons' : forall x,
              x ∈ matchedPelotonWorkoutIds (recorded (marked st cw0 m) m resp) ->
              x ∈ writeActivities tr').
    { intros x Hx. unfold tr'. rewrite writeActivities_app. apply elem_of_app.
      assert (Hx' : x ∈ matchedPelotonWorkoutIds st ∪ {[ w_id cw0 ]})
        by (now destruct resp as [[fe|]]).
      apply elem_of_union in Hx' as [Hx'|Hx']; [left; now apply Hcons|].
      right. apply elem_of_singleton in Hx' as ->. cbn. left. }
    apply elem_of_cons in Hcw as [->|Hcw]; [|now apply (IH _ _ _ st')].
    destruct (matchAll_trace host supabase options index ws
                (recorded (marked st cw0 m) m resp) w' tr') as (added & -> & _).
    apply Exhausted_app. left. unfold tr'.
    rewrite writeActivities_app. apply elem_of_app. right. cbn. left.
  - intros Hok.
    apply elem_of_cons in Hcw as [->|Hcw]; [|now apply (IH _ _ _ st')].
    destruct (matchAll_trace host supabase options index ws st w tr)
      as (added & -> & _).
    apply Exhausted_app.
    apply choose_None in Hch as [Hc|Hall]; [left; now apply Hcons|].
    right. rewrite Ht. exact Hall.
Qed.

End LoopServed.

(** X3.  In a run whose [try] block returns, a completed workout of the
    feed is left without a write only when every candidate of its bucket
    was the target of a write of the run: no workout is passed over while
    a planned row for its ride and date is still free. *)
Theorem no_completion_passed_over {W} (host : Host)
    (userId pelotonUserId : string) (peloton : PelotonClient W)
    (supabase : SupabaseClient W) (options : option SyncOptions) (w : W)
    (r : CompletionSyncResult) (cw : PelotonWorkout) :
  snd (syncBody host userId pelotonUserId peloton supabase options (w, [])) = Ok r ->
  In cw (eligibleActivities
           (runTrace host userId pelotonUserId peloton supabase options w)) ->
  Exhausted host options
    (plannedByDateAndRide
       (eligiblePlanned
          (runTrace host userId pelotonUserId peloton supabase options w)))
    (runTrace host userId pelotonUserId peloton supabase options w) cw.
Proof.
  assert (Hempty : forall tr,
    Exhausted host options (plannedByDateAndRide []) tr cw).
  { intros tr. right. intros r0 d bucket _ _ Hb.
    rewrite lookupBucket_no_rows in Hb. discriminate Hb. }
  by_run_cases host userId pelotonUserId peloton supabase options w;
    intros Hok Hin; try discriminate Hok.
  - cbn in Hin. rewrite Hnone in Hin. contradiction.
  - destruct reply as [sd se]. cbn in Herr. subst se.
    destruct sd; apply Hempty.
  - destruct reply as [sd se]. cbn in Herr, Hrows. subst se.
    destruct Hrows as [-> | ->]; apply Hempty.
  - destruct (loop_facts host userId pelotonUserId supabase options
                feed reply rows w2 Herr Hdata) as (_ & _ & _ & _ & _ & Ha & Hp).
    fold res in Ha, Hp. rewrite Ha in Hin. rewrite Hp.
    destruct (snd res) as [st'|thrown] eqn:Hres; [|discriminate Hok].
    apply (matchAll_served host supabase options (plannedByDateAndRide rows)
             (List.filter isCompletedWithRide feed) initialLoopState w2 _ st' Hres);
      [reflexivity| |now apply list_elem_of_In].
    intros x Hx. cbn in Hx. now apply not_elem_of_empty in Hx.
Qed.

(** Three completions of one ride and day against two planned rows: the
    third is left without a write, and both rows were written to. *)
Lemma no_completion_passed_over_witness :
  let w3 := Mock.workout "peloton-workout-2" 1705708800 "ride-123" in
  let peloton := Mock.peloton (Ok (Mock.manyWorkouts 3)) in
  let supabase :=
    Mock.supabase (Mock.rows (Mock.manyPlanned 2)) (fun _ => Mock.updateOk) in
  let tr := runTrace Mock.host "user-123" "peloton-user-123" peloton supabase
              Mock.utc 0%nat in
  Exhausted Mock.host Mock.utc (plannedByDateAndRide (eligiblePlanned tr)) tr w3 /\
  ("peloton-workout-2"%string ∉ writeActivities tr).
Proof.
  intros w3 peloton supabase tr. split.
  - apply (no_completion_passed_over Mock.host "user-123" "peloton-user-123"
             peloton supabase Mock.utc 0%nat
             {| success := true; matched := 2%nat; error := None |} w3).
    + vm_compute. reflexivity.
    + vm_compute. right. right. left. reflexivity.
  - vm_compute. intros H. apply list_elem_of_In in H.
    repeat (destruct H as [H|H]; [discriminate H|]). contradiction.
Defined.

(** ** Rejections, and an empty plan *)

(** X4.  When the fetch of the workouts, or the eligibility query, rejects,
    the run returns [{success: false, matched: 0}] with the message of the
    thrown error ("Unknown error" when it is not an [Error]) and issues no
    write; after a rejected fetch the store is not even read. *)
Theorem rejection_aborts_with_its_message {W} (host : Host)
    (userId pelotonUserId : string) (peloton : PelotonClient W)
    (supabase : SupabaseClient W) (options : option SyncOptions) (w : W)
    (e : Thrown) :
  (exists puid opts,
     In (EvGetUserWorkouts puid opts (Throw e))
        (runTrace host userId pelotonUserId peloton supabase options w)) \/
  (exists uid,
     In (EvSelect uid (Throw e))
        (runTrace host userId pelotonUserId peloton supabase options w)) ->
  runResult host userId pelotonUserId peloton supabase options w =
    {| success := false;
       matched := 0%nat;
       error := Some (match e with
                      | ErrorObject message => message
                      | NonError => "Unknown error"%string
                      end) |} /\
  updates (runTrace host userId pelotonUserId peloton supabase options w) = [] /\
  ((exists puid opts,
      In (EvGetUserWorkouts puid opts (Throw e))
         (runTrace host userId pelotonUserId peloton supabase options w)) ->
   runTrace host userId pelotonUserId peloton supabase options w =
     [EvGetUserWorkouts pelotonUserId fetchOptions (Throw e)]).
Proof.
  by_run_cases host userId pelotonUserId peloton supabase options w; cbn [In].
  - intros [(puid & opts & [Hev|[]])|(uid & [Hev|[]])]; [|discriminate].
    injection Hev as _ _ <-. repeat split.
  - intros [(puid & opts & [Hev|[]])|(uid & [Hev|[]])]; discriminate.
  - intros [(puid & opts & [Hev|[Hev|[]]])|(uid & [Hev|[Hev|[]]])];
      try discriminate.
    injection Hev as _ <-. split; [reflexivity|]. split; [reflexivity|].
    intros (puid & opts & [Hev|[Hev|[]]]); discriminate.
  - intros [(puid & opts & [Hev|[Hev|[]]])|(uid & [Hev|[Hev|[]]])];
      discriminate.
  - intros [(puid & opts & [Hev|[Hev|[]]])|(uid & [Hev|[Hev|[]]])];
      discriminate.
  - destruct (matchAll_trace host supabase options (plannedByDateAndRide rows)
                (List.filter isCompletedWithRide feed) initialLoopState w2
                [EvGetUserWorkouts pelotonUserId fetchOptions (Ok feed);
                 EvSelect userId (Ok reply)]) as (added & Htr & Hadded).
    fold res in Htr. rewrite Htr.
    intros [(puid & opts & Hin)|(uid & Hin)];
      (apply not_update_in_start in Hin; [|assumption|exact id]);
      destruct Hin as [Hev|[Hev|[]]]; discriminate.
Qed.

Lemma rejection_aborts_with_its_message_witness :
  let peloton : PelotonClient nat := Mock.peloton (Throw (ErrorObject "API error")) in
  let supabase := Mock.supabase (Mock.rows []) (fun _ => Mock.updateOk) in
  runResult Mock.host "user-123" "peloton-user-123" peloton supabase None 0%nat =
    {| success := false; matched := 0%nat; error := Some "API error"%string |} /\
  runTrace Mock.host "user-123" "peloton-user-123" peloton supabase None 0%nat =
    [EvGetUserWorkouts "peloton-user-123" fetchOptions
       (Throw (ErrorObject "API error"))].
Proof.
  intros peloton supabase.
  assert (Hin : exists puid opts,
            In (EvGetUserWorkouts puid opts (Throw (ErrorObject "API error")))
               (runTrace Mock.host "user-123" "peloton-user-123" peloton
                  supabase None 0%nat)).
  { exists "peloton-user-123"%string, fetchOptions. vm_compute. left. reflexivity. }
  destruct (rejection_aborts_with_its_message Mock.host "user-123"
              "peloton-user-123" peloton supabase None 0%nat
              (ErrorObject "API error") (or_introl Hin)) as (Hr & _ & Htr).
  split; [exact Hr|exact (Htr Hin)].
Defined.

(** X5.  When the eligibility query resolves without error but with no
    rows (an empty array, or null), the run returns
    [{success: true, matched: 0}] and issues no write. *)
Theorem nothing_planned_returns_early {W} (host : Host)
    (userId pelotonUserId : string) (peloton : PelotonClient W)
    (supabase : SupabaseClient W) (options : option SyncOptions) (w : W)
    (uid : string) (resp : SelectResponse) :
  In (EvSelect uid (Ok resp))
     (runTrace host userId pelotonUserId peloton supabase options w) ->
  sel_error resp = None ->
  sel_data resp = None \/ sel_data resp = Some [] ->
  runResult host userId pelotonUserId peloton supabase options w =
    {| success := true; matched := 0%nat; error := None |} /\
  updates (runTrace host userId pelotonUserId peloton supabase options w) = [].
Proof.
  intros Hin Herr0 Hdata0. revert Hin.
  by_run_cases host userId pelotonUserId peloton supabase options w; cbn [In].
  - intros [?|[]]; discriminate.
  - intros [?|[]]; discriminate.
  - intros [?|[?|[]]]; discriminate.
  - intros [?|[Hev|[]]]; [discriminate|]. injection Hev as _ <-. congruence.
  - intros _. split; reflexivity.
  - destruct (matchAll_trace host supabase options (plannedByDateAndRide rows)
                (List.filter isCompletedWithRide feed) initialLoopState w2
                [EvGetUserWorkouts pelotonUserId fetchOptions (Ok feed);
                 EvSelect userId (Ok reply)]) as (added & Htr & Hadded).
    fold res in Htr. rewrite Htr. intros Hin.
    apply not_update_in_start in Hin; [|assumption|exact id].
    destruct Hin as [?|[Hev|[]]]; [discriminate|]. injection Hev as _ <-.
    destruct Hdata0 as [H|H]; rewrite H in Hdata; [discriminate|].
    injection Hdata as <-. contradiction.
Qed.

Lemma nothing_planned_returns_early_witness :
  let peloton :=
    Mock.peloton (Ok [Mock.workout "peloton-workout-1" 1705708800 "ride-123"]) in
  let resp := {| sel_data := None; sel_error := None |} in
  let supabase := Mock.supabase (Ok resp) (fun _ => Mock.updateOk) in
  runResult Mock.host "user-123" "peloton-user-123" peloton supabase None 0%nat =
    {| success := true; matched := 0%nat; error := None |} /\
  updates (runTrace Mock.host "user-123" "peloton-user-123" peloton supabase None 0%nat) = [].
Proof.
  intros peloton resp supabase.
  apply (nothing_planned_returns_early Mock.host "user-123" "peloton-user-123"
           peloton supabase None 0%nat "user-123" resp).
  - vm_compute. right. left. reflexivity.
  - reflexivity.
  - left. reflexivity.
Defined.

(** ** The calls of a run, in order *)

(** X6.  Every run starts with exactly one fetch, for the given Peloton
    user, with limit 20 and the ride joined; it reads the store at most
    once, for the given user, right after the fetch; everything after
    that is a write. *)
Theorem calls_in_order {W} (host : Host)
    (userId pelotonUserId : string) (peloton : PelotonClient W)
    (supabase : SupabaseClient W) (options : option SyncOptions) (w : W) :
  exists fetched rest,
    runTrace host userId pelotonUserId peloton supabase options w =
      EvGetUserWorkouts pelotonUserId {| limit := 20; joins := "ride" |} fetched
        :: rest /\
    (rest = [] \/
     exists selected writes,
       rest = EvSelect userId selected :: writes /\ Forall isUpdate writes).
Proof.
  by_run_cases host userId pelotonUserId peloton supabase options w;
    try (eexists _, _; split; [reflexivity|]; (now left) || (right; eauto)).
  destruct (matchAll_trace host supabase options (plannedByDateAndRide rows)
              (List.filter isCompletedWithRide feed) initialLoopState w2
              [EvGetUserWorkouts pelotonUserId fetchOptions (Ok feed);
               EvSelect userId (Ok reply)]) as (added & Htr & Hadded).
  fold res in Htr. rewrite Htr.
  eexists _, _. split; [reflexivity|]. right. eauto.
Qed.

(** ** The i-th completion takes the i-th candidate *)

Lemma plannedWrites_bucket host options index d r bucket :
  lookupBucket index d r = Some bucket ->
  NoDup (map m_id bucket) ->
  forall feed done rest consumed,
    bucket = done ++ rest ->
    (forall cw, In cw feed ->
       rideIdOf cw = Ok r /\
       timestampToDateInTimezone host (w_created_at cw) (optionsTimezone options)
         = Ok d) ->
    NoDup (map w_id feed) ->
    (forall cw, In cw feed -> w_id cw ∉ consumed) ->
    plannedWrites host options index feed consumed (map m_id done) =
    combine (map m_id rest) (map w_id feed).
Proof.
  intros Hb Hnd feed.
  induction feed as [|cw feed IH]; intros done rest consumed Hsplit Hres Hids Hfresh.
  - now destruct rest.
  - cbn [plannedWrites]. unfold choose.
    destruct (Hres cw (or_introl eq_refl)) as [-> ->].
    rewrite bool_decide_eq_false_2 by (apply Hfresh; now left).
    rewrite Hb.
    assert (Hres' : forall c, In c feed ->
              rideIdOf c = Ok r /\
              timestampToDateInTimezone host (w_created_at c)
                (optionsTimezone options) = Ok d)
      by (intros c Hc; apply Hres; now right).
    cbn [map] in Hids. apply NoDup_cons in Hids as [Hcw Hids].
    destruct rest as [|m rest].
    + assert (Hnone : findUnattempted (map m_id done) bucket = None).
      { apply findUnattempted_None. intros c Hc. rewrite Hsplit, app_nil_r in Hc.
        apply list_elem_of_In, in_map, list_elem_of_In. exact Hc. }
      rewrite Hnone.
      rewrite (IH done [] consumed Hsplit Hres' Hids); [reflexivity|].
      intros c Hc. apply Hfresh. now right.
    + assert (Hsome : findUnattempted (map m_id done) bucket = Some m).
      { apply findUnattempted_Some. exists done, rest. split; [assumption|].
        split.
        - intros c Hc. apply list_elem_of_In, in_map, list_elem_of_In. exact Hc.
        - rewrite Hsplit, map_app in Hnd. cbn [map] in Hnd.
          apply NoDup_app in Hnd as (_ & Hdisj & _).
          intros Hin. apply (Hdisj _ Hin). left. }
      rewrite Hsome. cbn [map combine]. f_equal.
      replace (map m_id done ++ [m_id m]) with (map m_id (done ++ [m]))
        by (now rewrite map_app).
      apply IH; [now rewrite <- app_assoc|assumption|assumption|].
      intros c Hc Hin. apply elem_of_union in Hin as [Hin|Hin].
      * apply (Hfresh c); [now right|assumption].
      * apply elem_of_singleton in Hin. apply Hcw. rewrite <- Hin.
        apply list_elem_of_In, in_map. exact Hc.
Qed.

(** When the [try] block returns, the writes are the planned ones. *)
Lemma run_writes_planned {W} (host : Host)
    (userId pelotonUserId : string) (peloton : PelotonClient W)
    (supabase : SupabaseClient W) (options : option SyncOptions) (w : W)
    (r : CompletionSyncResult) :
  snd (syncBody host userId pelotonUserId peloton supabase options (w, [])) = Ok r ->
  let tr := runTrace host userId pelotonUserId peloton supabase options w in
  writePairs tr =
    plannedWrites host options (plannedByDateAndRide (eligiblePlanned tr))
      (eligibleActivities tr) ∅ [].
Proof.
  cbn zeta.
  by_run_cases host userId pelotonUserId peloton supabase options w;
    intros Hok; try discriminate Hok.
  - cbn. now rewrite Hnone.
  - destruct reply as [sd se]. cbn in Herr. subst se.
    destruct sd; cbn; now rewrite plannedWrites_no_bucket
      by apply lookupBucket_no_rows.
  - destruct reply as [sd se]. cbn in Herr, Hrows. subst se.
    destruct Hrows as [-> | ->]; cbn; now rewrite plannedWrites_no_bucket
      by apply lookupBucket_no_rows.
  - destruct (loop_facts host userId pelotonUserId supabase options
                feed reply rows w2 Herr Hdata) as (_ & _ & _ & _ & _ & Ha & Hp).
    fold res in Ha, Hp. rewrite Ha, Hp.
    destruct (snd res) as [st'|thrown] eqn:Hres; [|discriminate Hok].
    exact (matchAll_writes host supabase options (plannedByDateAndRide rows)
             (List.filter isCompletedWithRide feed) initialLoopState w2 _ st' Hres).
Qed.

(** X7.  In a run whose [try] block returns, if the completed workouts of
    the feed have distinct ids and all fall in one bucket whose candidates
    have distinct ids, then the i-th completed workout (in feed order) is
    written to the i-th candidate (in bucket order), for as long as both
    last: the writes are the feed zipped with the bucket. *)
Theorem completions_zip_with_candidates {W} (host : Host)
    (userId pelotonUserId : string) (peloton : PelotonClient W)
    (supabase : SupabaseClient W) (options : option SyncOptions) (w : W)
    (r : CompletionSyncResult) (date ride : string)
    (bucket : list PlannedWorkoutMatch) :
  let tr := runTrace host userId pelotonUserId peloton supabase options w in
  snd (syncBody host userId pelotonUserId peloton supabase options (w, [])) = Ok r ->
  (forall cw, In cw (eligibleActivities tr) ->
     rideIdOf cw = Ok ride /\
     timestampToDateInTimezone host (w_created_at cw) (optionsTimezone options)
       = Ok date) ->
  NoDup (map w_id (eligibleActivities tr)) ->
  lookupBucket (plannedByDateAndRide (eligiblePlanned tr)) date ride = Some bucket ->
  NoDup (map m_id bucket) ->
  writePairs tr = combine (map m_id bucket) (map w_id (eligibleActivities tr)).
Proof.
  intros tr Hok Hres Hids Hb Hnd.
  unfold tr. rewrite (run_writes_planned _ _ _ _ _ _ _ r Hok). fold tr.
  apply (plannedWrites_bucket host options _ date ride bucket Hb Hnd
           (eligibleActivities tr) [] bucket ∅ eq_refl Hres Hids).
  intros cw _. apply not_elem_of_empty.
Qed.

(** Three completions, two rows given in reverse order, the second write
    failing: the first two completions take the rows in bucket order. *)
Lemma completions_zip_with_candidates_witness :
  let peloton := Mock.peloton (Ok (Mock.manyWorkouts 3)) in
  let supabase :=
    Mock.supabase
      (Mock.rows [Mock.planned "planned-workout-b" "ride-123" "2024-01-20" 1;
                  Mock.planned "planned-workout-a" "ride-123" "2024-01-20" 0])
      (fun n => if (n =? 1)%nat then Mock.updateFails "Database error"
                else Mock.updateOk) in
  writePairs (runTrace Mock.host "user-123" "peloton-user-123" peloton supabase
                Mock.utc 0%nat)
  = [("planned-workout-a", "peloton-workout-0");
     ("planned-workout-b", "peloton-workout-1")]%string.
Proof.
  intros peloton supabase.
  apply (completions_zip_with_candidates Mock.host "user-123" "peloton-user-123"
           peloton supabase Mock.utc 0%nat
           {| success := false; matched := 1%nat;
              error := Some "1 workout(s) failed to update in database"%string |}
           "2024-01-20" "ride-123"
           [toMatch (Mock.planned "planned-workout-a" "ride-123" "2024-01-20" 0);
            toMatch (Mock.planned "planned-workout-b" "ride-123" "2024-01-20" 1)]).
  - vm_compute. reflexivity.
  - intros cw Hin. vm_compute in Hin.
    repeat (destruct Hin as [Hin|Hin]; [subst cw; split; vm_compute; reflexivity|]).
    contradiction.
  - vm_compute. repeat constructor; rewrite list_elem_of_In; cbn;
      intros H; repeat (destruct H as [H|H]; [discriminate H|]); contradiction.
  - vm_compute. reflexivity.
  - vm_compute. repeat constructor; rewrite list_elem_of_In; cbn;
      intros H; repeat (destruct H as [H|H]; [discriminate H|]); contradiction.
Defined.

(** ** The order of a bucket does not depend on the order of the rows *)

Lemma insertSorted_comm x y l :
  m_sort_order x <> m_sort_order y ->
  insertSorted x (insertSorted y l) = insertSorted y (insertSorted x l).
Proof.
  intros Hne. induction l as [|z l IH]; cbn [insertSorted]; unfold compareSortOrder.
  - destruct (Z.leb_spec (m_sort_order x - m_sort_order y) 0),
             (Z.leb_spec (m_sort_order y - m_sort_order x) 0);
      try reflexivity; lia.
  - destruct (Z.leb_spec (m_sort_order y - m_sort_order z) 0) as [Hyz|Hyz],
             (Z.leb_spec (m_sort_order x - m_sort_order z) 0) as [Hxz|Hxz];
      cbn [insertSorted]; unfold compareSortOrder.
    + destruct (Z.leb_spec (m_sort_order x - m_sort_order y) 0),
               (Z.leb_spec (m_sort_order y - m_sort_order x) 0); try lia;
        destruct (Z.leb_spec (m_sort_order x - m_sort_order z) 0);
        destruct (Z.leb_spec (m_sort_order y - m_sort_order z) 0);
        try reflexivity; lia.
    + destruct (Z.leb_spec (m_sort_order x - m_sort_order y) 0); [lia|].
      destruct (Z.leb_spec (m_sort_order x - m_sort_order z) 0); [lia|].
      destruct (Z.leb_spec (m_sort_order y - m_sort_order z) 0); [reflexivity|lia].
    + destruct (Z.leb_spec (m_sort_order y - m_sort_order x) 0); [lia|].
      destruct (Z.leb_spec (m_sort_order y - m_sort_order z) 0); [lia|].
      destruct (Z.leb_spec (m_sort_order x - m_sort_order z) 0); [reflexivity|lia].
    + destruct (Z.leb_spec (m_sort_order x - m_sort_order z) 0); [lia|].
      destruct (Z.leb_spec (m_sort_order y - m_sort_order z) 0); [lia|].
      now rewrite IH.
Qed.

Lemma sortBySortOrder_canonical l l' :
  Permutation l l' ->
  NoDup (map m_sort_order l) ->
  sortBySortOrder l = sortBySortOrder l'.
Proof.
  induction 1 as [|x l l' Hperm IH|x y l|l l' l'' H1 IH1 H2 IH2]; intros Hnd.
  - reflexivity.
  - cbn in *. apply NoDup_cons in Hnd as [_ Hnd]. now rewrite IH.
  - cbn in *. apply NoDup_cons in Hnd as [Hy _].
    apply insertSorted_comm. intros Heq. apply Hy. rewrite <- Heq. left.
  - rewrite IH1 by assumption. apply IH2.
    now rewrite <- (Permutation_map m_sort_order H1).
Qed.

Lemma filter_Permutation_bool {A} (f : A -> bool) l l' :
  Permutation l l' -> Permutation (List.filter f l) (List.filter f l').
Proof.
  induction 1 as [|x l l' Hperm IH|x y l|l l' l'' H1 IH1 H2 IH2]; cbn.
  - constructor.
  - destruct (f x); [now constructor|assumption].
  - destruct (f x), (f y); try reflexivity. apply perm_swap.
  - now transitivity (List.filter f l').
Qed.

(** X8.  When the rows of a date and ride carry pairwise distinct
    [sort_order] values, their bucket is the same whatever the order in
    which the store returned the rows. *)
Theorem bucket_independent_of_row_order (rows rows' : list PlannedRow)
    (d r : string) :
  Permutation rows rows' ->
  NoDup (map pw_sort_order (List.filter (inBucket d r) rows)) ->
  lookupBucket (plannedByDateAndRide rows) d r =
  lookupBucket (plannedByDateAndRide rows') d r.
Proof.
  intros Hperm Hnd. rewrite !lookupBucket_index.
  pose proof (filter_Permutation_bool (inBucket d r) _ _ Hperm) as Hf.
  destruct (List.filter (inBucket d r) rows) as [|x l] eqn:E1;
    destruct (List.filter (inBucket d r) rows') as [|x' l'] eqn:E2.
  - reflexivity.
  - apply Permutation_nil in Hf. discriminate Hf.
  - symmetry in Hf. apply Permutation_nil in Hf. discriminate Hf.
  - f_equal. apply sortBySortOrder_canonical; [now apply Permutation_map|].
    now rewrite map_map.
Qed.

Lemma bucket_independent_of_row_order_witness :
  let a := Mock.planned "planned-workout-a" "ride-123" "2024-01-20" 0 in
  let b := Mock.planned "planned-workout-b" "ride-123" "2024-01-20" 1 in
  let c := Mock.planned "planned-workout-c" "ride-456" "2024-01-20" 0 in
  lookupBucket (plannedByDateAndRide [b; c; a]) "2024-01-20" "ride-123" =
  lookupBucket (plannedByDateAndRide [a; b; c]) "2024-01-20" "ride-123".
Proof.
  intros a b c.
  apply (bucket_independent_of_row_order [b; c; a] [a; b; c]).
  - change [b; c; a] with ([b; c] ++ [a]). change [a; b; c] with ([a] ++ [b; c]).
    apply Permutation_app_comm.
  - vm_compute. repeat constructor; rewrite list_elem_of_In; cbn;
      intros H; repeat (destruct H as [H|H]; [discriminate H|]); contradiction.
Defined.

(** * The reorder endpoint *)

Lemma issueUpdates_spec {W} (env : ReorderEnv W) (userId : string) ids :
  forall index w tr,
  exists outs,
    length outs = length ids /\
    snd (fst (issueUpdates env userId ids index (w, tr))) =
      tr ++ updateEvents userId index ids outs /\
    snd (issueUpdates env userId ids index (w, tr)) =
      updatePromises index ids outs.
Proof.
  induction ids as [|id ids IH]; intros index w tr.
  - exists []. cbn. now rewrite app_nil_r.
  - cbn [issueUpdates].
    destruct (updateSortOrder env id index userId w) as [w' r].
    destruct (IH (S index) w' (tr ++ [RvUpdate id index userId r]))
      as (outs & Hlen & Htr & Hpr).
    destruct (issueUpdates env userId ids (S index) _) as [[w'' tr''] promises].
    cbn [fst snd] in *. exists (r :: outs). cbn [length updateEvents updatePromises].
    split; [now rewrite Hlen|]. split.
    + rewrite Htr, <- app_assoc. reflexivity.
    + now rewrite Hpr.
Qed.

(** Trace and response of the handler, return path by return path. *)
Lemma reorderPOST_cases {W} (env : ReorderEnv W) (w : W) :
  ReorderCase (snd (fst (reorderPOST env w))) (snd (reorderPOST env w)).
Proof.
  unfold reorderPOST, reorderBody, bindR, awaitR, liftR, retR.
  destruct (requestJson env w) as [w1 [bodyJson|e]]; cbn [app fst snd];
    [|constructor].
  destruct (destructure bodyJson "date") as [date|e] eqn:Hdate.
  2:{ destruct bodyJson; try discriminate Hdate. constructor. }
  destruct (destructure bodyJson "workoutIds") as [workoutIds|e] eqn:Hids.
  2:{ destruct bodyJson; discriminate. }
  destruct (truthyProperty date) eqn:Htruthy.
  2:{ cbn. eapply ReorderInvalid; eauto. }
  destruct (isArray workoutIds) as [ids|] eqn:Harr.
  2:{ cbn. eapply ReorderInvalid; eauto. }
  assert (Hw : workoutIds = Some (JArray ids)).
  { destruct workoutIds as [[]|]; try discriminate Harr. now injection Harr as ->. }
  subst workoutIds.
  destruct (createUntypedClient env w1) as [w2 [[]|e]]; cbn [app fst snd].
  2:{ eapply ReorderClientRejected; eauto. }
  destruct (getUser env w2) as [w3 [auth|e]]; cbn [app fst snd].
  2:{ eapply ReorderAuthRejected; eauto. }
  destruct (auth_error auth) as [ae|] eqn:Hae.
  { cbn. eapply ReorderUnauthorized; eauto. left. congruence. }
  destruct (auth_user auth) as [user|] eqn:Hau.
  2:{ cbn. eapply ReorderUnauthorized; eauto. }
  destruct (issueUpdates_spec env (user_id user) ids 0%nat w3
              [RvJson (Ok bodyJson); RvCreateClient (Ok tt); RvGetUser (Ok auth)])
    as (outs & Hlen & Htr & Hpr).
  destruct (issueUpdates env (user_id user) ids 0%nat _) as [[w4 tr4] promises].
  cbn [fst snd] in Htr, Hpr. subst tr4 promises.
  pose proof (ReorderIssued bodyJson date ids auth user outs
                Hdate Htruthy Hids Hae Hau Hlen) as Hcase.
  destruct (promiseAll (updatePromises 0 ids outs)) as [results|e];
    [|exact Hcase].
  destruct (0 <? length (List.filter hasError results))%nat; exact Hcase.
Qed.

Lemma sortOrderWrites_updateEvents userId ids : forall index outs,
  length outs = length ids ->
  sortOrderWrites (updateEvents userId index ids outs) =
  imap (fun i id => (id, (index + i)%nat, userId)) ids.
Proof.
  induction ids as [|id ids IH]; intros index [|out outs] Hlen;
    try discriminate Hlen; [reflexivity|].
  cbn [updateEvents].
  change (sortOrderWrites (RvUpdate id index userId out
                             :: updateEvents userId (S index) ids outs))
    with ((id, index, userId)
            :: sortOrderWrites (updateEvents userId (S index) ids outs)).
  rewrite IH by (now injection Hlen). rewrite imap_cons, Nat.add_0_r. f_equal.
  apply imap_ext. intros i x _. cbn. do 2 f_equal. lia.
Qed.

Lemma sortOrderOutcomes_updateEvents userId ids : forall index outs,
  length outs = length ids ->
  sortOrderOutcomes (updateEvents userId index ids outs) = outs.
Proof.
  induction ids as [|id ids IH]; intros index [|out outs] Hlen;
    try discriminate Hlen; [reflexivity|].
  cbn [updateEvents].
  change (sortOrderOutcomes (RvUpdate id index userId out
                               :: updateEvents userId (S index) ids outs))
    with (out :: sortOrderOutcomes (updateEvents userId (S index) ids outs)).
  now rewrite IH by (now injection Hlen).
Qed.

Lemma promiseAll_rejects ids : forall index outs,
  length outs = length ids ->
  (exists e, promiseAll (updatePromises index ids outs) = Throw e) <->
  (exists out, In out outs /\ rejected out = true).
Proof.
  induction ids as [|id ids IH]; intros index [|out outs] Hlen;
    try discriminate Hlen.
  - cbn. split; [intros [e H]; discriminate H|intros (out & [] & _)].
  - cbn [updatePromises]. injection Hlen as Hlen.
    specialize (IH (S index) outs Hlen). destruct out as [result|e]; cbn.
    + destruct (promiseAll (updatePromises (S index) ids outs)) as [l|e'].
      * split; [intros [e H]; discriminate H|].
        intros (out & [<-|Hin] & Hrej); [discriminate Hrej|].
        destruct IH as [_ IH]. destruct IH as [e H]; [eauto|discriminate H].
      * split; [|eauto]. intros _.
        destruct IH as [IH _]. destruct IH as (out & Hin & Hrej); eauto.
    + split; eauto.
Qed.

Lemma promiseAll_fulfils ids : forall index outs results,
  length outs = length ids ->
  promiseAll (updatePromises index ids outs) = Ok results ->
  length (List.filter hasError results) =
    length (List.filter resolvedWithError outs) /\
  (length (List.filter hasError results) = 0%nat ->
   forall out, In out outs -> out = Ok {| upd_error := None |}).
Proof.
  induction ids as [|id ids IH]; intros index [|out outs] results Hlen;
    try discriminate Hlen.
  - cbn. intros [= <-]. split; [reflexivity|]. intros _ out [].
  - cbn [updatePromises]. injection Hlen as Hlen.
    destruct out as [[[fe|]]|e]; cbn; try discriminate;
      destruct (promiseAll (updatePromises (S index) ids outs)) as [l|e'] eqn:Hall;
      try discriminate; intros [= <-];
      destruct (IH (S index) outs l Hlen Hall) as [Hcount Hnone]; cbn.
    + split; [now rewrite Hcount|]. discriminate.
    + split; [assumption|]. intros Hz out [<-|Hin]; auto.
Qed.

(** X9.  For an authenticated request whose body passed the check, the
    handler issues one update per element of [workoutIds], in the order of
    the array, setting [sort_order] to the element's position (from 0) and
    scoped to the authenticated user's id -- all of them, however the
    earlier ones resolve. *)
Theorem reorder_writes_positions {W} (env : ReorderEnv W) (w : W)
    (bodyJson : Json) (ids : list Json) (auth : AuthResponse) (user : User) :
  In (RvJson (Ok bodyJson)) (snd (fst (reorderPOST env w))) ->
  destructure bodyJson "workoutIds" = Ok (Some (JArray ids)) ->
  In (RvGetUser (Ok auth)) (snd (fst (reorderPOST env w))) ->
  auth_error auth = None ->
  auth_user auth = Some user ->
  sortOrderWrites (snd (fst (reorderPOST env w))) =
  imap (fun i id => (id, i, user_id user)) ids.
Proof.
  intros Hbody Hids Hauth Herr Huser. revert Hbody Hauth.
  destruct (reorderPOST_cases env w)
    as [e| |b date wids Hd Hw Hbad|b date ids0 e Hd Ht Hw|b date ids0 e Hd Ht Hw
        |b date ids0 auth0 Hd Ht Hw Hno|b date ids0 auth0 user0 outs Hd Ht Hw Hae Hau Hlen];
    cbn [In].
  - intros [?|[]]; discriminate.
  - intros _ [?|[]]; discriminate.
  - intros _ [?|[]]; discriminate.
  - intros _ [?|[?|[]]]; discriminate.
  - intros _ [?|[?|[?|[]]]]; discriminate.
  - intros _ [?|[?|[Hev|[]]]]; try discriminate. injection Hev as <-.
    destruct Hno as [Hno|Hno]; congruence.
  - intros Hbody Hauth.
    assert (Hb : b = bodyJson).
    { apply in_app_or in Hbody as [[Hev|[?|[?|[]]]]|Hin]; try discriminate.
      - now injection Hev.
      - exfalso. clear -Hin. revert Hin. generalize 0%nat.
        revert outs. induction ids0 as [|i ids0 IH]; intros [|o outs] n; cbn;
          try contradiction.
        intros [?|Hin]; [discriminate|eauto]. }
    assert (Ha : auth0 = auth).
    { apply in_app_or in Hauth as [[?|[?|[Hev|[]]]]|Hin]; try discriminate.
      - now injection Hev.
      - exfalso. clear -Hin. revert Hin. generalize 0%nat.
        revert outs. induction ids0 as [|i ids0 IH]; intros [|o outs] n; cbn;
          try contradiction.
        intros [?|Hin]; [discriminate|eauto]. }
    subst b auth0. rewrite Hids in Hw. injection Hw as <-.
    rewrite Huser in Hau. injection Hau as <-.
    unfold sortOrderWrites. rewrite omap_app. cbn [omap app].
    apply (sortOrderWrites_updateEvents (user_id user) ids 0 outs Hlen).
Qed.

Lemma reorder_writes_positions_witness :
  let bodyJson := MockReorder.request ["workout-1"; "workout-2"; "workout-3"]%string in
  let env :=
    MockReorder.env (Ok bodyJson) MockReorder.signedIn
      (fun n => if (n =? 1)%nat then Mock.updateFails "Database error"
                else Mock.updateOk) in
  sortOrderWrites (snd (fst (reorderPOST env 0%nat))) =
  [(JString "workout-1", 0%nat, "user-123");
   (JString "workout-2", 1%nat, "user-123");
   (JString "workout-3", 2%nat, "user-123")]%string.
Proof.
  intros bodyJson env.
  apply (reorder_writes_positions env 0%nat bodyJson
           (map JString ["workout-1"; "workout-2"; "workout-3"]%string)
           {| auth_user := Some {| user_id := "user-123" |}; auth_error := None |}
           {| user_id := "user-123" |}).
  - vm_compute. left. reflexivity.
  - reflexivity.
  - vm_compute. right. right. left. reflexivity.
  - reflexivity.
  - reflexivity.
Defined.

Lemma In_updateEvents userId ids : forall index outs ev,
  In ev (updateEvents userId index ids outs) ->
  exists i id out,
    ev = RvUpdate id (index + i) userId out /\
    ids !! i = Some id /\ outs !! i = Some out.
Proof.
  induction ids as [|id ids IH]; intros index [|out outs] ev; cbn;
    try contradiction.
  intros [<-|Hin].
  - exists 0%nat, id, out. rewrite Nat.add_0_r. auto.
  - destruct (IH _ _ _ Hin) as (i & id' & out' & -> & Hid & Hout).
    exists (S i), id', out'. rewrite Nat.add_succ_r. auto.
Qed.

(** X10.  The handler writes only for a request that parsed, carries a
    truthy [date] and an array [workoutIds], and comes from an
    authenticated user: every update it issues is scoped to that user's
    id and sets the [sort_order] of an element of [workoutIds] to that
    element's position. *)
Theorem reorder_writes_only_when_authenticated {W} (env : ReorderEnv W) (w : W)
    (id : Json) (index : nat) (userId : string) (out : Exc UpdateResponse) :
  In (RvUpdate id index userId out) (snd (fst (reorderPOST env w))) ->
  exists bodyJson date ids auth user,
    In (RvJson (Ok bodyJson)) (snd (fst (reorderPOST env w))) /\
    destructure bodyJson "date" = Ok date /\
    truthyProperty date = true /\
    destructure bodyJson "workoutIds" = Ok (Some (JArray ids)) /\
    In (RvGetUser (Ok auth)) (snd (fst (reorderPOST env w))) /\
    auth_error auth = None /\
    auth_user auth = Some user /\
    userId = user_id user /\
    ids !! index = Some id.
Proof.
  destruct (reorderPOST_cases env w)
    as [e| |b date wids Hd Hw Hbad|b date ids0 e Hd Ht Hw|b date ids0 e Hd Ht Hw
        |b date ids0 auth0 Hd Ht Hw Hno|b date ids0 auth0 user0 outs Hd Ht Hw Hae Hau Hlen];
    cbn [In].
  - intros [?|[]]; discriminate.
  - intros [?|[]]; discriminate.
  - intros [?|[]]; discriminate.
  - intros [?|[?|[]]]; discriminate.
  - intros [?|[?|[?|[]]]]; discriminate.
  - intros [?|[?|[?|[]]]]; discriminate.
  - intros Hin.
    apply in_app_or in Hin as [[?|[?|[?|[]]]]|Hin]; try discriminate.
    apply In_updateEvents in Hin as (i & id' & out' & Hev & Hid & _).
    injection Hev as -> -> -> ->.
    exists b, date, ids0, auth0, user0.
    split; [apply in_or_app; left; left; reflexivity|].
    do 3 (split; [assumption|]).
    split; [apply in_or_app; left; right; right; left; reflexivity|].
    auto.
Qed.

Lemma reorder_writes_only_when_authenticated_witness :
  let bodyJson := MockReorder.request ["workout-1"; "workout-2"]%string in
  let env := MockReorder.env (Ok bodyJson) MockReorder.signedIn
               (fun _ => Mock.updateOk) in
  exists bodyJson' date ids auth user,
    In (RvJson (Ok bodyJson')) (snd (fst (reorderPOST env 0%nat))) /\
    destructure bodyJson' "date" = Ok date /\
    truthyProperty date = true /\
    destructure bodyJson' "workoutIds" = Ok (Some (JArray ids)) /\
    In (RvGetUser (Ok auth)) (snd (fst (reorderPOST env 0%nat))) /\
    auth_error auth = None /\
    auth_user auth = Some user /\
    "user-123"%string = user_id user /\
    ids !! 1%nat = Some (JString "workout-2").
Proof.
  intros bodyJson env.
  apply (reorder_writes_only_when_authenticated env 0%nat
           (JString "workout-2") 1%nat "user-123" Mock.updateOk).
  vm_compute. do 4 right. left. reflexivity.
Defined.

(** X11.  What the response of the reorder handler says about the writes:
    a 200 means that every update issued resolved without an error; when
    an update rejects the response is 500 "Internal server error"; when
    none rejects but some resolve with an error, the response is 500 and
    its message gives the number of updates that resolved with an error. *)
Theorem reorder_response_reports_failures {W} (env : ReorderEnv W) (w : W) :
  let tr := snd (fst (reorderPOST env w)) in
  let response := snd (reorderPOST env w) in
  (status response = 200 ->
   body response = BodySuccess /\
   forall out, In out (sortOrderOutcomes tr) -> out = Ok {| upd_error := None |}) /\
  ((exists out, In out (sortOrderOutcomes tr) /\ rejected out = true) ->
   response = {| status := 500; body := BodyError "Internal server error" |}) /\
  ((forall out, In out (sortOrderOutcomes tr) -> rejected out = false) ->
   (0 < length (List.filter resolvedWithError (sortOrderOutcomes tr)))%nat ->
   response =
     {| status := 500;
        body := BodyError
          ("Failed to update "
             +:+ toString (Z.of_nat (length (List.filter resolvedWithError
                                              (sortOrderOutcomes tr))))
             +:+ " workout(s)") |}).
Proof.
  cbn zeta.
  destruct (reorderPOST_cases env w)
    as [e| |b date wids Hd Hw Hbad|b date ids0 e Hd Ht Hw|b date ids0 e Hd Ht Hw
        |b date ids0 auth0 Hd Ht Hw Hno|b date ids0 auth0 user0 outs Hd Ht Hw Hae Hau Hlen];
    try (cbn; split; [discriminate|]; split;
         [intros (out & [] & _)|intros _ Hpos; inversion Hpos]).
  assert (Houts : sortOrderOutcomes
            ([RvJson (Ok b); RvCreateClient (Ok tt); RvGetUser (Ok auth0)]
               ++ updateEvents (user_id user0) 0 ids0 outs) = outs).
  { unfold sortOrderOutcomes. rewrite omap_app.
    change (omap _ (updateEvents (user_id user0) 0 ids0 outs))
      with (sortOrderOutcomes (updateEvents (user_id user0) 0 ids0 outs)).
    now rewrite (sortOrderOutcomes_updateEvents _ _ _ _ Hlen). }
  rewrite Houts.
  pose proof (promiseAll_rejects ids0 0%nat outs Hlen) as Hrej.
  destruct (promiseAll (updatePromises 0 ids0 outs)) as [results|e] eqn:Hall.
  - destruct (promiseAll_fulfils ids0 0%nat outs results Hlen Hall) as [Hcount Hnone].
    rewrite Hcount in *.
    destruct (0 <? length (List.filter resolvedWithError outs))%nat eqn:Hpos.
    + split; [discriminate|]. split; [|reflexivity].
      intros Hex. apply Hrej in Hex as [e He]. discriminate He.
    + apply Nat.ltb_ge in Hpos. split; [|split].
      * intros _. split; [reflexivity|]. apply Hnone. lia.
      * intros Hex. apply Hrej in Hex as [e He]. discriminate He.
      * intros _ Hlt. lia.
  - split; [discriminate|]. split; [reflexivity|].
    intros Hnone _. destruct Hrej as [Hrej _].
    destruct (Hrej (ex_intro _ e eq_refl)) as (out & Hin & Hout).
    rewrite (Hnone out Hin) in Hout. discriminate Hout.
Qed.

(** The partial failure of the test-suite: the second of three updates
    resolves with an error. *)
Lemma reorder_response_reports_failures_witness :
  let bodyJson := MockReorder.request ["workout-1"; "workout-2"; "workout-3"]%string in
  let env :=
    MockReorder.env (Ok bodyJson) MockReorder.signedIn
      (fun n => if (n =? 1)%nat then Mock.updateFails "Database error"
                else Mock.updateOk) in
  snd (reorderPOST env 0%nat) =
    {| status := 500; body := BodyError "Failed to update 1 workout(s)" |}.
Proof.
  intros bodyJson env.
  destruct (reorder_response_reports_failures env 0%nat) as (_ & _ & Hfail).
  rewrite Hfail; [vm_compute; reflexivity| |vm_compute; repeat constructor].
  intros out Hin. vm_compute in Hin.
  repeat (destruct Hin as [<-|Hin]; [reflexivity|]). contradiction.
Defined.

(** ** The earlier version of the handler *)

Lemma issueBareUpdates_spec {W} (env : ReorderEnv W) (userId : string) ids :
  forall index w tr,
  exists outs,
    length outs = length ids /\
    fst (issueBareUpdates env userId ids index (w, tr)) =
      fst (issueUpdates env userId ids index (w, tr)) /\
    snd (fst (issueUpdates env userId ids index (w, tr))) =
      tr ++ updateEvents userId index ids outs /\
    snd (issueBareUpdates env userId ids index (w, tr)) = outs /\
    snd (issueUpdates env userId ids index (w, tr)) =
      updatePromises index ids outs.
Proof.
  induction ids as [|id ids IH]; intros index w tr.
  - exists []. cbn. now rewrite app_nil_r.
  - cbn [issueUpdates issueBareUpdates].
    destruct (updateSortOrder env id index userId w) as [w' r].
    destruct (IH (S index) w' (tr ++ [RvUpdate id index userId r]))
      as (outs & Hlen & Hfst & Htr & Hbare & Hpr).
    destruct (issueUpdates env userId ids (S index) _) as [[w'' tr''] promises].
    destruct (issueBareUpdates env userId ids (S index) _) as [s'' bare].
    cbn [fst snd] in *. exists (r :: outs).
    cbn [length updateEvents updatePromises].
    split; [now rewrite Hlen|]. split; [assumption|]. split.
    + rewrite Htr, <- app_assoc. reflexivity.
    + now rewrite Hbare, Hpr.
Qed.

Lemma promiseAll_rejected {A} (promises : list (Exc A)) :
  rejected (promiseAll promises) = existsb rejected promises.
Proof.
  induction promises as [|[a|e] rest IH]; cbn; [reflexivity| |reflexivity].
  rewrite <- IH. now destruct (promiseAll rest).
Qed.

Lemma forallb_not_rejected {A} (promises : list (Exc A)) :
  forallb (fun out => negb (rejected out)) promises =
  negb (existsb rejected promises).
Proof.
  induction promises as [|out rest IH]; cbn; [reflexivity|].
  rewrite IH. now destruct (rejected out).
Qed.

Lemma existsb_filter_length {A} (f : A -> bool) (l : list A) :
  existsb f l = (0 <? length (List.filter f l))%nat.
Proof.
  induction l as [|x rest IH]; cbn; [reflexivity|].
  destruct (f x); cbn; [reflexivity|exact IH].
Qed.

(** X24.  The earlier version of the reorder handler makes the same
    calls as the current one and leaves the same state, and it gives the
    same response except in one case: when no update rejects and some
    update resolves with an error, it still answers 200 with
    [{success: true}], where the current version answers 500. *)
Theorem earlier_reorder_ignores_update_errors {W} (env : ReorderEnv W) (w : W) :
  fst (reorderPOSTEarlier env w) = fst (reorderPOST env w) /\
  snd (reorderPOSTEarlier env w) =
    (if forallb (fun out => negb (rejected out))
          (sortOrderOutcomes (snd (fst (reorderPOST env w))))
        && existsb resolvedWithError
             (sortOrderOutcomes (snd (fst (reorderPOST env w))))
     then {| status := 200; body := BodySuccess |}
     else snd (reorderPOST env w)) /\
  (forallb (fun out => negb (rejected out))
     (sortOrderOutcomes (snd (fst (reorderPOST env w))))
   && existsb resolvedWithError
        (sortOrderOutcomes (snd (fst (reorderPOST env w)))) = true ->
   status (snd (reorderPOST env w)) = 500).
Proof.
  unfold reorderPOSTEarlier, reorderPOST, reorderBodyEarlier, reorderBody,
    bindR, awaitR, liftR, retR.
  destruct (requestJson env w) as [w1 [bodyJson|e]]; cbn [app fst snd];
    [|split; [|split]; [reflexivity|reflexivity|discriminate]].
  destruct (destructure bodyJson "date") as [date|e];
    [|split; [|split]; [reflexivity|reflexivity|discriminate]].
  destruct (destructure bodyJson "workoutIds") as [workoutIds|e];
    [|split; [|split]; [reflexivity|reflexivity|discriminate]].
  destruct (truthyProperty date);
    [|split; [|split]; [reflexivity|reflexivity|discriminate]].
  destruct (isArray workoutIds) as [ids|];
    [|split; [|split]; [reflexivity|reflexivity|discriminate]].
  destruct (createUntypedClient env w1) as [w2 [[]|e]]; cbn [app fst snd];
    [|split; [|split]; [reflexivity|reflexivity|discriminate]].
  destruct (getUser env w2) as [w3 [auth|e]]; cbn [app fst snd];
    [|split; [|split]; [reflexivity|reflexivity|discriminate]].
  destruct (auth_error auth);
    [split; [|split]; [reflexivity|reflexivity|discriminate]|].
  destruct (auth_user auth) as [user|];
    [|split; [|split]; [reflexivity|reflexivity|discriminate]].
  destruct (issueBareUpdates_spec env (user_id user) ids 0%nat w3
              [RvJson (Ok bodyJson); RvCreateClient (Ok tt); RvGetUser (Ok auth)])
    as (outs & Hlen & Hfst & Htr & Hbare & Hpr).
  destruct (issueUpdates env (user_id user) ids 0%nat _) as [[w4 tr4] promises].
  destruct (issueBareUpdates env (user_id user) ids 0%nat _) as [s4 bare].
  cbn [fst snd] in Hfst, Htr, Hbare, Hpr. subst s4 tr4 bare promises.
  assert (Houts : sortOrderOutcomes
            ([RvJson (Ok bodyJson); RvCreateClient (Ok tt); RvGetUser (Ok auth)]
               ++ updateEvents (user_id user) 0 ids outs) = outs).
  { unfold sortOrderOutcomes. rewrite omap_app.
    change (omap _ (updateEvents (user_id user) 0 ids outs))
      with (sortOrderOutcomes (updateEvents (user_id user) 0 ids outs)).
    now rewrite (sortOrderOutcomes_updateEvents _ _ _ _ Hlen). }
  pose proof (promiseAll_rejects ids 0%nat outs Hlen) as Hrej.
  pose proof (promiseAll_rejected outs) as Hbare.
  assert (Hsame : rejected (promiseAll (updatePromises 0 ids outs))
                  = rejected (promiseAll outs)).
  { rewrite Hbare.
    destruct (promiseAll (updatePromises 0 ids outs)) as [results|e] eqn:Hall; cbn.
    - destruct (existsb rejected outs) eqn:Hex; [|reflexivity].
      apply existsb_exists in Hex as (out & Hin & Hout).
      destruct Hrej as [_ Hrej]. destruct Hrej as [e He]; [eauto|discriminate He].
    - destruct Hrej as [Hrej _].
      destruct (Hrej (ex_intro _ e eq_refl)) as (out & Hin & Hout).
      symmetry. apply existsb_exists. eauto. }
  destruct (promiseAll outs) as [l|e] eqn:Hall;
    destruct (promiseAll (updatePromises 0 ids outs)) as [results|e'] eqn:Hall';
    try discriminate Hsame; cbn [fst snd].
  - destruct (promiseAll_fulfils ids 0%nat outs results Hlen Hall') as [Hcount _].
    rewrite Hcount.
    destruct (0 <? length (List.filter resolvedWithError outs))%nat eqn:Hpos;
      cbn [fst snd]; (split; [reflexivity|]);
      rewrite Houts, forallb_not_rejected, <- Hbare, existsb_filter_length, Hpos;
      (split; [reflexivity|]); [reflexivity|discriminate].
  - split; [reflexivity|]. rewrite Houts, forallb_not_rejected, <- Hbare.
    split; reflexivity.
Qed.

Lemma earlier_reorder_ignores_update_errors_witness :
  let bodyJson := MockReorder.request ["workout-1"; "workout-2"; "workout-3"]%string in
  let env :=
    MockReorder.env (Ok bodyJson) MockReorder.signedIn
      (fun n => if (n =? 1)%nat then Mock.updateFails "Database error"
                else Mock.updateOk) in
  snd (reorderPOSTEarlier env 0%nat) = {| status := 200; body := BodySuccess |} /\
  status (snd (reorderPOST env 0%nat)) = 500.
Proof.
  intros bodyJson env.
  destruct (earlier_reorder_ignores_update_errors env 0%nat) as (_ & -> & Hcurrent).
  split; [reflexivity|]. apply Hcurrent. reflexivity.
Defined.

(** ** From the positions written by the reorder endpoint to the order of
       the candidates *)

Lemma sublist_from_positions (workoutIds : list Json) bucket : forall k,
  StronglySorted orderLt bucket ->
  (forall c, In c bucket ->
     Z.of_nat k <= m_sort_order c /\
     workoutIds !! Z.to_nat (m_sort_order c) = Some (JString (m_id c))) ->
  sublist (map (fun c => JString (m_id c)) bucket) (drop k workoutIds).
Proof.
  induction bucket as [|c bucket IH]; intros k Hsorted Hpos.
  - apply sublist_nil_l.
  - apply StronglySorted_inv in Hsorted as [Hsorted Hall].
    destruct (Hpos c (or_introl eq_refl)) as [Hk Hc].
    set (p := Z.to_nat (m_sort_order c)) in *.
    assert (Hdrop : drop k workoutIds !! (p - k)%nat = Some (JString (m_id c))).
    { rewrite lookup_drop. replace (k + (p - k))%nat with p by lia. exact Hc. }
    rewrite <- (take_drop_middle _ _ _ Hdrop). cbn [map].
    apply sublist_inserts_l, sublist_skip.
    rewrite drop_drop. replace (k + S (p - k))%nat with (S p) by lia.
    apply IH; [assumption|].
    intros c' Hc'. split; [|apply Hpos; now right].
    rewrite Forall_forall in Hall. specialize (Hall c' ltac:(now apply list_elem_of_In)).
    unfold orderLt in Hall. lia.
Qed.

Lemma sorted_distinct_increasing (workoutIds : list Json) bucket :
  Sorted orderLe bucket ->
  NoDup (map m_id bucket) ->
  (forall c, In c bucket ->
     0 <= m_sort_order c /\
     workoutIds !! Z.to_nat (m_sort_order c) = Some (JString (m_id c))) ->
  StronglySorted orderLt bucket.
Proof.
  intros Hsorted. apply Sorted_StronglySorted in Hsorted.
  2:{ intros a b c. unfold orderLe. lia. }
  induction Hsorted as [|c bucket Hsorted IH Hall]; intros Hnd Hpos;
    [constructor|].
  cbn [map] in Hnd. apply NoDup_cons in Hnd as [Hc Hnd].
  constructor; [apply IH; [assumption|intros; apply Hpos; now right]|].
  rewrite Forall_forall in *. intros c' Hc'.
  specialize (Hall c' Hc'). unfold orderLe in Hall. unfold orderLt.
  destruct (Z.eq_dec (m_sort_order c) (m_sort_order c')) as [Heq|]; [|lia].
  exfalso. apply Hc.
  assert (Hin : In c' bucket) by (now apply list_elem_of_In).
  destruct (Hpos c (or_introl eq_refl)) as [_ H1].
  destruct (Hpos c' (or_intror Hin)) as [_ H2].
  rewrite Heq, H2 in H1. injection H1 as <-.
  apply list_elem_of_In, in_map. exact Hin.
Qed.

(** X12.  If every planned row of a date and ride carries as [sort_order]
    its position in a [workoutIds] array (what the reorder handler
    writes), and the rows have distinct ids, then the candidates of that
    bucket come in the order of the array: their ids are a subsequence of
    [workoutIds]. *)
Theorem reordered_rows_are_candidates_in_order (workoutIds : list Json)
    (rows : list PlannedRow) (d r : string) (bucket : list PlannedWorkoutMatch) :
  NoDup (map pw_id (List.filter (inBucket d r) rows)) ->
  (forall pw, In pw rows -> inBucket d r pw = true ->
     0 <= pw_sort_order pw /\
     workoutIds !! Z.to_nat (pw_sort_order pw) = Some (JString (pw_id pw))) ->
  lookupBucket (plannedByDateAndRide rows) d r = Some bucket ->
  sublist (map (fun c => JString (m_id c)) bucket) workoutIds.
Proof.
  intros Hnd Hpos Hb.
  destruct (bucket_order rows d r bucket Hb) as (Hsorted & Hperm & _).
  assert (Hpos' : forall c, In c bucket ->
            0 <= m_sort_order c /\
            workoutIds !! Z.to_nat (m_sort_order c) = Some (JString (m_id c))).
  { intros c Hc. apply (Permutation_in _ (Permutation_sym Hperm)) in Hc.
    apply in_map_iff in Hc as (pw & <- & Hpw). apply filter_In in Hpw as [Hin Hbk].
    now apply Hpos. }
  assert (Hnd' : NoDup (map m_id bucket)).
  { rewrite <- (Permutation_map m_id Hperm), map_map. exact Hnd. }
  change workoutIds with (drop 0 workoutIds) at 1.
  apply sublist_from_positions.
  - now apply (sorted_distinct_increasing workoutIds).
  - intros c Hc. destruct (Hpos' c Hc). split; [lia|assumption].
Qed.

Lemma reordered_rows_are_candidates_in_order_witness :
  let workoutIds := map JString ["workout-c"; "workout-a"; "workout-b"]%string in
  let rows := [Mock.planned "workout-b" "ride-123" "2024-01-20" 2;
               Mock.planned "workout-x" "ride-456" "2024-01-20" 7;
               Mock.planned "workout-c" "ride-123" "2024-01-20" 0] in
  sublist (map JString ["workout-c"; "workout-b"]%string) workoutIds.
Proof.
  intros workoutIds rows.
  apply (reordered_rows_are_candidates_in_order workoutIds rows
           "2024-01-20" "ride-123"
           [toMatch (Mock.planned "workout-c" "ride-123" "2024-01-20" 0);
            toMatch (Mock.planned "workout-b" "ride-123" "2024-01-20" 2)]).
  - vm_compute. repeat constructor; rewrite list_elem_of_In; cbn;
      intros H; repeat (destruct H as [H|H]; [discriminate H|]); contradiction.
  - intros pw Hin Hbk.
    destruct Hin as [<-|[<-|[<-|[]]]].
    + split; [vm_compute; discriminate|reflexivity].
    + vm_compute in Hbk. discriminate Hbk.
    + split; [vm_compute; discriminate|reflexivity].
  - vm_compute. reflexivity.
Defined.

(** * The sync-completions endpoint *)

(** Unfold the handler and split on every value it inspects. *)
Ltac route_unfold :=
  unfold syncPOST, syncRouteBody, syncWithTokens, tryRefresh, awaitSync,
    awaitBody, awaitS, liftS, bindS, retS, destructureS, isExpired in *;
  cbn [fst snd] in *.

Ltac route_split :=
  repeat match goal with
         | |- context [match ?x with _ => _ end] =>
             lazymatch x with
             | context [match _ with _ => _ end] => fail
             | _ => destruct x eqn:?
             end; cbn [fst snd app] in *
         end.

Ltac in_trace H :=
  cbn [In app] in H;
  repeat (destruct H as [H|H]; [try discriminate H|]);
  try contradiction.

Lemma truthyOption_Some o :
  truthyOption o = true ->
  exists x, o = Some x /\ truthy x = true /\ default ""%string o = x.
Proof. destruct o as [x|]; [eauto|discriminate]. Qed.

Lemma resolveTimezone_truthy profile browserTimezone :
  truthyJson (resolveTimezone profile browserTimezone) = true.
Proof.
  unfold resolveTimezone.
  destruct (profile_timezone profile) as [tz|];
    [destruct (truthy tz) eqn:Htz; [exact Htz|]|];
    (destruct browserTimezone as [v|];
     [destruct (truthyJson v) eqn:Hv; [exact Hv|reflexivity]|reflexivity]).
Qed.

Lemma resolveTimezone_profile profile browserTimezone :
  truthyOption (profile_timezone profile) = true ->
  Some (resolveTimezone profile browserTimezone)
    = option_map JString (profile_timezone profile).
Proof.
  unfold resolveTimezone.
  destruct (profile_timezone profile) as [tz|]; [|discriminate].
  cbn. now intros ->.
Qed.

Ltac in_list := cbn [In]; repeat (first [left; reflexivity | right]).

(** X13.  The handler runs the sync only for an authenticated user whose
    profile carries a Peloton user id and whose tokens are there; it runs
    it under that user's id and that Peloton id, and always with a truthy
    time zone, which is the profile's whenever the profile has one. *)
Theorem route_sync_guarded {W} (env : SyncRouteEnv W) (w : W)
    (userId pelotonUserId : string) (tz : Json) (calls : list Event)
    (result : CompletionSyncResult) :
  In (ScSync userId pelotonUserId tz calls result) (snd (fst (syncPOST env w))) ->
  exists auth user prof profile tok tokens,
    In (ScGetUser (Done auth)) (snd (fst (syncPOST env w))) /\
    auth_error auth = None /\ auth_user auth = Some user /\
    userId = user_id user /\
    In (ScProfile userId (Done prof)) (snd (fst (syncPOST env w))) /\
    prof_error prof = None /\ prof_data prof = Some profile /\
    peloton_user_id profile = Some pelotonUserId /\
    truthy pelotonUserId = true /\
    In (ScTokens userId (Done tok)) (snd (fst (syncPOST env w))) /\
    tok_error tok = None /\ tok_data tok = Some tokens /\
    truthyJson tz = true /\
    (truthyOption (profile_timezone profile) = true ->
     Some tz = option_map JString (profile_timezone profile)).
Proof.
  route_unfold. route_split; intros Hin; in_trace Hin.
  all: injection Hin as <- <- <- <- <-.
  all: match goal with
       | H : truthyOption (peloton_user_id _) = true |- _ =>
           destruct (truthyOption_Some _ H) as (puid & Hpuid & Htruthy & ->)
       end.
  all: do 6 eexists.
  all: split; [in_list|].
  all: do 3 (split; [eassumption || reflexivity|]).
  all: split; [in_list|].
  all: do 4 (split; [eassumption|]).
  all: split; [in_list|].
  all: do 2 (split; [eassumption|]).
  all: split; [apply resolveTimezone_truthy|apply resolveTimezone_profile].
Qed.

Lemma route_sync_guarded_witness :
  let env :=
    MockRoute.env (Done (JObject [("timezone", JString "America/Los_Angeles")]%string))
      MockRoute.signedIn (MockRoute.profile None)
      (MockRoute.tokens None "2024-02-01T00:00:00Z") MockRoute.decryptOk
      (Ok [Mock.workout "peloton-workout-1" 1705730400 "ride-123"])
      (Mock.rows [Mock.planned "planned-workout-1" "ride-123" "2024-01-19" 0])
      (fun _ => Mock.updateOk) in
  exists auth user prof profile tok tokens,
    In (ScGetUser (Done auth)) (snd (fst (syncPOST env 0%nat))) /\
    auth_error auth = None /\ auth_user auth = Some user /\
    "user-123"%string = user_id user /\
    In (ScProfile "user-123" (Done prof)) (snd (fst (syncPOST env 0%nat))) /\
    prof_error prof = None /\ prof_data prof = Some profile /\
    peloton_user_id profile = Some "peloton-user-123"%string /\
    truthy "peloton-user-123" = true /\
    In (ScTokens "user-123" (Done tok)) (snd (fst (syncPOST env 0%nat))) /\
    tok_error tok = None /\ tok_data tok = Some tokens /\
    truthyJson (JString "America/Los_Angeles") = true /\
    (truthyOption (profile_timezone profile) = true ->
     Some (JString "America/Los_Angeles")
       = option_map JString (profile_timezone profile)).
Proof.
  intros env.
  pose (calls := runTrace Mock.host "user-123" "peloton-user-123"
          (Mock.peloton (Ok [Mock.workout "peloton-workout-1" 1705730400 "ride-123"]))
          (Mock.supabase
             (Mock.rows [Mock.planned "planned-workout-1" "ride-123" "2024-01-19" 0])
             (fun _ => Mock.updateOk))
          (Some {| timezone := Some "America/Los_Angeles"%string |}) 0%nat).
  apply (route_sync_guarded env 0%nat "user-123" "peloton-user-123"
           (JString "America/Los_Angeles") calls
           {| success := true; matched := 1%nat; error := None |}).
  vm_compute. do 5 right. left. reflexivity.
Defined.

(** ** From the summary of the sync to the response *)

Lemma route_sync_inversion {W} (env : SyncRouteEnv W) (w : W)
    (userId pelotonUserId : string) (tz : Json) (calls : list Event)
    (result : CompletionSyncResult) :
  In (ScSync userId pelotonUserId tz calls result) (snd (fst (syncPOST env w))) ->
  (exists peloton w0 w1,
     syncRun env userId pelotonUserId peloton tz w0 = (w1, calls, result)) /\
  snd (syncPOST env w) = syncResponse result.
Proof.
  route_unfold. route_split; intros Hin; in_trace Hin.
  all: injection Hin as <- <- <- <- <-.
  all: split; [|reflexivity].
  all: do 3 eexists; eassumption.
Qed.

Lemma run_success_counts {W} (host : Host)
    (userId pelotonUserId : string) (peloton : PelotonClient W)
    (supabase : SupabaseClient W) (options : option SyncOptions) (w : W) :
  success (runResult host userId pelotonUserId peloton supabase options w) = true ->
  matched (runResult host userId pelotonUserId peloton supabase options w) =
    succeededWrites (runTrace host userId pelotonUserId peloton supabase options w) /\
  failedWrites (runTrace host userId pelotonUserId peloton supabase options w) = 0%nat.
Proof.
  by_run_cases host userId pelotonUserId peloton supabase options w;
    try (cbn; discriminate); try (intros _; split; reflexivity).
  destruct (loop_facts host userId pelotonUserId supabase options
              feed reply rows w2 Herr Hdata) as (st & HI & Heq & _).
  fold res in HI, Heq.
  destruct (snd res) as [st'|thrown]; [|cbn; discriminate].
  rewrite (Heq st' eq_refl). cbn [summary success matched].
  rewrite <- (inv_failed _ _ _ HI), (inv_succeeded _ _ _ HI).
  intros Hz. apply Nat.eqb_eq in Hz. auto.
Qed.

Lemma run_failure_error {W} (host : Host)
    (userId pelotonUserId : string) (peloton : PelotonClient W)
    (supabase : SupabaseClient W) (options : option SyncOptions) (w : W) :
  success (runResult host userId pelotonUserId peloton supabase options w) = false ->
  exists err,
    error (runResult host userId pelotonUserId peloton supabase options w) = Some err.
Proof.
  by_run_cases host userId pelotonUserId peloton supabase options w;
    try (cbn; discriminate); try solve [intros _; cbn; eauto].
  destruct (snd res) as [st'|thrown]; [|cbn; eauto].
  cbn [summary success error].
  destruct (failedUpdates st'); [discriminate|intros _; cbn; eauto].
Qed.

Lemma run_fetch_rejected {W} (host : Host)
    (userId pelotonUserId : string) (peloton : PelotonClient W)
    (supabase : SupabaseClient W) (options : option SyncOptions) (w : W)
    puid opts e :
  In (EvGetUserWorkouts puid opts (Throw e))
     (runTrace host userId pelotonUserId peloton supabase options w) ->
  runResult host userId pelotonUserId peloton supabase options w = caught e.
Proof.
  by_run_cases host userId pelotonUserId peloton supabase options w; cbn [In].
  - intros [Hev|[]]. now injection Hev as _ _ <-.
  - intros [?|[]]; discriminate.
  - intros [?|[?|[]]]; discriminate.
  - intros [?|[?|[]]]; discriminate.
  - intros [?|[?|[]]]; discriminate.
  - destruct (matchAll_trace host supabase options (plannedByDateAndRide rows)
                (List.filter isCompletedWithRide feed) initialLoopState w2
                [EvGetUserWorkouts pelotonUserId fetchOptions (Ok feed);
                 EvSelect userId (Ok reply)]) as (added & Htr & Hadded).
    fold res in Htr. rewrite Htr. intros Hin.
    apply not_update_in_start in Hin; [|assumption|exact id].
    destruct Hin as [?|[?|[]]]; discriminate.
Qed.

Lemma syncRun_string {W} (env : SyncRouteEnv W) userId pelotonUserId peloton
    name w0 w1 calls result :
  syncRun env userId pelotonUserId peloton (JString name) w0 = (w1, calls, result) ->
  calls = runTrace (sc_host env) userId pelotonUserId peloton (sc_supabase env)
            (Some {| timezone := Some name |}) w0 /\
  result = runResult (sc_host env) userId pelotonUserId peloton (sc_supabase env)
             (Some {| timezone := Some name |}) w0.
Proof.
  unfold syncRun, runTrace, runResult. intros ->. split; reflexivity.
Qed.

(** X14.  When the handler has run the sync with a time-zone name, its
    response is 200 exactly when the sync succeeded.  A 200 then carries,
    as [matched], the number of updates of planned workouts that
    succeeded in that run, none of whose updates failed, with the message
    "Detected n completed workout(s)" for n > 0 and "No new completions
    detected" for n = 0; any other response is a 500 that carries the
    error message of the sync ("Sync failed" when that is empty) and its
    matched count. *)
Theorem route_response_reports_sync {W} (env : SyncRouteEnv W) (w : W)
    (userId pelotonUserId name : string) (calls : list Event)
    (result : CompletionSyncResult) :
  In (ScSync userId pelotonUserId (JString name) calls result)
     (snd (fst (syncPOST env w))) ->
  (status (snd (syncPOST env w)) = 200 <-> success result = true) /\
  (status (snd (syncPOST env w)) = 200 ->
   failedWrites calls = 0%nat /\
   body (snd (syncPOST env w)) =
     BodySynced
       (if (0 <? succeededWrites calls)%nat
        then "Detected " +:+ toString (Z.of_nat (succeededWrites calls))
               +:+ " completed workout(s)"
        else "No new completions detected")
       (succeededWrites calls)) /\
  (status (snd (syncPOST env w)) <> 200 ->
   exists err,
     error result = Some err /\
     snd (syncPOST env w) =
       {| status := 500;
          body := BodySyncFailed (if truthy err then err else "Sync failed")
                    (matched result) |}).
Proof.
  intros Hin.
  destruct (route_sync_inversion env w _ _ _ _ _ Hin)
    as ((peloton & w0 & w1 & Hrun) & ->).
  apply syncRun_string in Hrun as [Hcalls Hresult].
  unfold syncResponse.
  destruct (success result) eqn:Hs; cbn [status body].
  - split; [split; reflexivity|]. split; [|intros H; now contradiction H].
    intros _. rewrite Hresult in Hs.
    destruct (run_success_counts _ _ _ _ _ _ _ Hs) as [Hm Hf].
    rewrite <- Hcalls in Hm, Hf. rewrite <- Hresult in Hm.
    rewrite <- Hm. split; [exact Hf|reflexivity].
  - split; [split; discriminate|]. split; [discriminate|].
    intros _. rewrite Hresult in Hs.
    destruct (run_failure_error _ _ _ _ _ _ _ Hs) as [err Herr].
    rewrite <- Hresult in Herr. exists err. split; [exact Herr|].
    now rewrite Herr.
Qed.

Lemma route_response_reports_sync_witness :
  let env :=
    MockRoute.env (Done (JObject [])) MockRoute.signedIn
      (MockRoute.profile (Some "UTC"%string))
      (MockRoute.tokens None "2024-02-01T00:00:00Z") MockRoute.decryptOk
      (Ok [Mock.workout "peloton-workout-1" 1705708800 "ride-123";
           Mock.workout "peloton-workout-2" 1705752000 "ride-456"])
      (Mock.rows [Mock.planned "planned-workout-1" "ride-123" "2024-01-20" 0;
                  Mock.planned "planned-workout-2" "ride-456" "2024-01-20" 1])
      (fun n => if (n =? 0)%nat then Mock.updateOk
                else Mock.updateFails "Constraint violation") in
  snd (syncPOST env 0%nat) =
    {| status := 500;
       body := BodySyncFailed "1 workout(s) failed to update in database" 1 |}.
Proof.
  intros env.
  pose (sync := syncCompletedWorkouts Mock.host "user-123" "peloton-user-123"
          (Mock.peloton (Ok [Mock.workout "peloton-workout-1" 1705708800 "ride-123";
                             Mock.workout "peloton-workout-2" 1705752000 "ride-456"]))
          (sc_supabase env) (Some {| timezone := Some "UTC"%string |}) 0%nat).
  destruct (route_response_reports_sync env 0%nat "user-123" "peloton-user-123"
              "UTC" (snd (fst sync)) (snd sync)) as (_ & _ & Hfail).
  - vm_compute. do 5 right. left. reflexivity.
  - destruct Hfail as (err & Herr & ->); [vm_compute; discriminate|].
    vm_compute in Herr. injection Herr as <-. reflexivity.
Defined.

(** X15.  A rejection of the Peloton fetch inside the sync never reaches
    the handler's [catch]: whatever was thrown, the response is a 500
    that carries the thrown error's message ("Unknown error" when it is
    not an [Error], "Sync failed" when the message is empty) and a
    matched count of 0 -- never the 401 of an authentication failure. *)
Theorem route_fetch_rejection_is_500 {W} (env : SyncRouteEnv W) (w : W)
    (userId pelotonUserId name : string) (calls : list Event)
    (result : CompletionSyncResult) (puid : string)
    (opts : GetUserWorkoutsOptions) (e : Thrown) :
  In (ScSync userId pelotonUserId (JString name) calls result)
     (snd (fst (syncPOST env w))) ->
  In (EvGetUserWorkouts puid opts (Throw e)) calls ->
  snd (syncPOST env w) =
    {| status := 500;
       body := BodySyncFailed
         (match e with
          | ErrorObject message => if truthy message then message else "Sync failed"
          | NonError => "Unknown error"
          end) 0 |}.
Proof.
  intros Hin Hfetch.
  destruct (route_sync_inversion env w _ _ _ _ _ Hin)
    as ((peloton & w0 & w1 & Hrun) & ->).
  apply syncRun_string in Hrun as [Hcalls Hresult].
  rewrite Hcalls in Hfetch. apply run_fetch_rejected in Hfetch.
  rewrite <- Hresult in Hfetch. rewrite Hfetch.
  unfold syncResponse, caught. cbn. now destruct e as [message|].
Qed.

Lemma route_fetch_rejection_is_500_witness :
  let env :=
    MockRoute.env (Done (JObject [])) MockRoute.signedIn (MockRoute.profile None)
      (MockRoute.tokens None "2024-02-01T00:00:00Z") MockRoute.decryptOk
      (Throw (ErrorObject "Peloton authentication failed"))
      (Mock.rows []) (fun _ => Mock.updateOk) in
  snd (syncPOST env 0%nat) =
    {| status := 500;
       body := BodySyncFailed "Peloton authentication failed" 0 |}.
Proof.
  intros env.
  apply (route_fetch_rejection_is_500 env 0%nat "user-123" "peloton-user-123"
           "UTC"
           [EvGetUserWorkouts "peloton-user-123" fetchOptions
              (Throw (ErrorObject "Peloton authentication failed"))]
           {| success := false; matched := 0%nat;
              error := Some "Peloton authentication failed"%string |}
           "peloton-user-123" fetchOptions
           (ErrorObject "Peloton authentication failed")).
  - vm_compute. do 5 right. left. reflexivity.
  - left. reflexivity.
Defined.

(** X16.  The sync talks to Peloton through the client built from a
    decrypted access token of the caller's stored tokens: the stored
    access token when no refresh was made, and otherwise -- only after a
    refresh that reported success -- the access token read again from the
    store, or the stored one when that read returns no row. *)
Theorem route_sync_uses_stored_token {W} (env : SyncRouteEnv W) (w : W)
    (userId pelotonUserId : string) (tz : Json) (calls : list Event)
    (result : CompletionSyncResult) :
  In (ScSync userId pelotonUserId tz calls result) (snd (fst (syncPOST env w))) ->
  exists peloton w0 w1 plain encrypted tok tokens,
    syncRun env userId pelotonUserId peloton tz w0 = (w1, calls, result) /\
    sc_pelotonClient env plain = Done peloton /\
    decryptToken env encrypted = Done plain /\
    In (ScTokens userId (Done tok)) (snd (fst (syncPOST env w))) /\
    tok_data tok = Some tokens /\
    ((encrypted = access_token_encrypted tokens /\
      (forall u t r, ~ In (ScRefresh u t r) (snd (fst (syncPOST env w)))) /\
      (forall u r, ~ In (ScAccessToken u r) (snd (fst (syncPOST env w))))) \/
     (exists stored token res reread,
        refresh_token_encrypted tokens = Some stored /\
        decryptToken env stored = Done token /\
        In (ScRefresh userId token (Done res)) (snd (fst (syncPOST env w))) /\
        refresh_success res = true /\
        In (ScAccessToken userId (Done reread)) (snd (fst (syncPOST env w))) /\
        encrypted = default (access_token_encrypted tokens) (at_data reread))).
Proof.
  route_unfold. route_split; intros Hin; in_trace Hin.
  all: injection Hin as <- <- <- <- <-.
  all: do 7 eexists.
  all: split; [eassumption|].
  all: split; [eassumption|].
  all: split; [eassumption|].
  all: split; [in_list|].
  all: split; [eassumption|].
  all: first
         [ solve [ left; split; [reflexivity|];
                   split; [intros ? ? ? Hev|intros ? ? Hev]; in_trace Hev ]
         | right;
           match goal with
           | H : truthyOption (refresh_token_encrypted _) = true |- _ =>
               destruct (truthyOption_Some _ H) as (stored & Hstored & _ & Hd)
           end;
           do 4 eexists;
           split; [eassumption|];
           split; [rewrite <- Hd; eassumption|];
           split; [in_list|];
           split; [eassumption|];
           split; [in_list|];
           match goal with
           | H : at_data _ = _ |- _ => rewrite H
           end; reflexivity ].
Qed.

Lemma route_sync_uses_stored_token_witness :
  let env :=
    MockRoute.env (Done (JObject [])) MockRoute.signedIn (MockRoute.profile None)
      (MockRoute.tokens (Some "enc:refresh"%string) "2024-01-20T00:00:00Z")
      MockRoute.decryptOk
      (Ok [Mock.workout "peloton-workout-1" 1705708800 "ride-123"])
      (Mock.rows [Mock.planned "planned-workout-1" "ride-123" "2024-01-20" 0])
      (fun _ => Mock.updateOk) in
  exists token res reread,
    In (ScRefresh "user-123" token (Done res)) (snd (fst (syncPOST env 0%nat))) /\
    refresh_success res = true /\
    In (ScAccessToken "user-123" (Done reread)) (snd (fst (syncPOST env 0%nat))) /\
    decryptToken env (default "enc:access"%string (at_data reread))
      = Done "plain:enc:fresh"%string.
Proof.
  intros env.
  pose (sync := syncCompletedWorkouts Mock.host "user-123" "peloton-user-123"
          (Mock.peloton (Ok [Mock.workout "peloton-workout-1" 1705708800 "ride-123"]))
          (sc_supabase env) (Some {| timezone := Some "UTC"%string |}) 0%nat).
  destruct (route_sync_uses_stored_token env 0%nat "user-123" "peloton-user-123"
              (JString "UTC") (snd (fst sync)) (snd sync))
    as (peloton & w0 & w1 & plain & encrypted & tok & tokens
        & _ & _ & _ & Htok & Hdata & Hcases).
  - vm_compute. do 7 right. left. reflexivity.
  - destruct Hcases as [(_ & Hnone & _)|(stored & token & res & reread & _ & _
                                         & Hrefresh & Hsuccess & Hreread & _)].
    + exfalso.
      apply (Hnone "user-123"%string "plain:enc:refresh"%string
               (Done {| refresh_success := true |})).
      vm_compute. do 5 right. left. reflexivity.
    + exists token, res, reread.
      split; [exact Hrefresh|]. split; [exact Hsuccess|]. split; [exact Hreread|].
      vm_compute in Hreread.
      destruct Hreread as [H|[H|[H|[H|[H|[H|[H|[H|[]]]]]]]]]; try discriminate H.
      injection H as <-. reflexivity.
Defined.

(** X17.  Stored tokens whose [expires_at] does not parse as a date are
    never treated as expired: no refresh is attempted and the access
    token is not read again. *)
Theorem route_unparseable_expiry_never_refreshes {W} (env : SyncRouteEnv W)
    (w : W) (userId : string) (tok : TokensResponse) (tokens : Tokens) :
  In (ScTokens userId (Done tok)) (snd (fst (syncPOST env w))) ->
  tok_data tok = Some tokens ->
  sc_parseDate env (expires_at tokens) = None ->
  (forall u t r, ~ In (ScRefresh u t r) (snd (fst (syncPOST env w)))) /\
  (forall u r, ~ In (ScAccessToken u r) (snd (fst (syncPOST env w)))).
Proof.
  route_unfold. route_split; intros Hin Hdata Hparse; in_trace Hin.
  all: injection Hin as <- <-.
  all: try (split; [intros ? ? ? Hev|intros ? ? Hev]; in_trace Hev).
  all: match goal with
       | H : tok_data ?a = Some ?t |- _ =>
           rewrite H in Hdata; injection Hdata as <-
       end.
  all: congruence.
Qed.

Lemma route_unparseable_expiry_never_refreshes_witness :
  let env :=
    MockRoute.env (Done (JObject [])) MockRoute.signedIn (MockRoute.profile None)
      (MockRoute.tokens (Some "enc:refresh"%string) "not a date")
      MockRoute.decryptOk (Ok []) (Mock.rows []) (fun _ => Mock.updateOk) in
  (forall u t r, ~ In (ScRefresh u t r) (snd (fst (syncPOST env 0%nat)))) /\
  (forall u r, ~ In (ScAccessToken u r) (snd (fst (syncPOST env 0%nat)))).
Proof.
  intros env.
  apply (route_unparseable_expiry_never_refreshes env 0%nat "user-123"
           {| tok_data := Some {| access_token_encrypted := "enc:access";
                                  refresh_token_encrypted := Some "enc:refresh"%string;
                                  expires_at := "not a date" |};
              tok_error := None |}
           {| access_token_encrypted := "enc:access";
              refresh_token_encrypted := Some "enc:refresh"%string;
              expires_at := "not a date" |}).
  - vm_compute. do 4 right. left. reflexivity.
  - reflexivity.
  - reflexivity.
Defined.

(** X18.  When the token cipher rejects every stored token with a
    [DecryptionError], a caller whose tokens were loaded always gets a
    401: no refresh is requested from Peloton and the sync is not run.
    Tokens that are expired -- on the clock as it stands once the token
    query has answered -- and come without a refresh token are reported
    as expired; in every other case (tokens not expired, or expired with
    a refresh token) the body carries the cipher's message. *)
Theorem route_decryption_failure_is_401 {W} (env : SyncRouteEnv W) (w : W)
    (message userId : string) (tok : TokensResponse) (tokens : Tokens) :
  (forall encrypted, decryptToken env encrypted = Raise (RaisedDecryption message)) ->
  In (ScTokens userId (Done tok)) (snd (fst (syncPOST env w))) ->
  tok_error tok = None ->
  tok_data tok = Some tokens ->
  (exists w0 w1,
     sc_selectTokens env userId w0 = (w1, Done tok) /\
     snd (syncPOST env w) =
       {| status := 401;
          body := BodyError
            (if isExpired env tokens w1
                && negb (truthyOption (refresh_token_encrypted tokens))
             then "Peloton token expired. Please reconnect."
             else message) |}) /\
  (forall u t r, ~ In (ScRefresh u t r) (snd (fst (syncPOST env w)))) /\
  (forall u p tz calls result,
     ~ In (ScSync u p tz calls result) (snd (fst (syncPOST env w)))).
Proof.
  intros Hcipher.
  unfold syncPOST, syncRouteBody, syncWithTokens, tryRefresh, awaitSync,
    awaitBody, awaitS, liftS, bindS, retS, destructureS in *;
    cbn [fst snd] in *.
  route_split; intros Hin Herror Hdata; in_trace Hin.
  all: injection Hin as <- <-.
  all: repeat match goal with
         | H : decryptToken _ _ = _ |- _ =>
             rewrite Hcipher in H; try discriminate H; injection H as <-
         end.
  all: try congruence.
  all: match goal with
       | H : tok_data ?a = Some ?t |- _ =>
           rewrite H in Hdata; injection Hdata as <-
       end.
  all: cbn [routeCaught].
  all: split; [|split; [intros ? ? ? Hev|intros ? ? ? ? ? Hev]; in_trace Hev].
  all: do 2 eexists; split; [eassumption|].
  all: repeat match goal with
         | H : isExpired _ _ _ = _ |- _ => rewrite H; clear H
         | H : truthyOption (refresh_token_encrypted _) = _ |- _ =>
             rewrite H; clear H
         end.
  all: reflexivity.
Qed.

Lemma route_decryption_failure_is_401_witness :
  let cipher := fun _ : string =>
    @Raise string (RaisedDecryption "Failed to decrypt token") in
  let env refresh :=
    MockRoute.env (Done (JObject [])) MockRoute.signedIn (MockRoute.profile None)
      (MockRoute.tokens refresh "2024-01-20T00:00:00Z") cipher
      (Ok []) (Mock.rows []) (fun _ => Mock.updateOk) in
  snd (syncPOST (env (Some "enc:refresh"%string)) 0%nat) =
    {| status := 401; body := BodyError "Failed to decrypt token" |} /\
  snd (syncPOST (env None) 0%nat) =
    {| status := 401;
       body := BodyError "Peloton token expired. Please reconnect." |}.
Proof.
  intros cipher env. split.
  - destruct (route_decryption_failure_is_401 (env (Some "enc:refresh"%string))
                0%nat "Failed to decrypt token" "user-123"
                {| tok_data := Some {| access_token_encrypted := "enc:access";
                                       refresh_token_encrypted :=
                                         Some "enc:refresh"%string;
                                       expires_at := "2024-01-20T00:00:00Z" |};
                   tok_error := None |}
                {| access_token_encrypted := "enc:access";
                   refresh_token_encrypted := Some "enc:refresh"%string;
                   expires_at := "2024-01-20T00:00:00Z" |})
      as ((w0 & w1 & _ & ->) & _).
    + reflexivity.
    + vm_compute. do 4 right. left. reflexivity.
    + reflexivity.
    + reflexivity.
    + reflexivity.
  - destruct (route_decryption_failure_is_401 (env None)
                0%nat "Failed to decrypt token" "user-123"
                {| tok_data := Some {| access_token_encrypted := "enc:access";
                                       refresh_token_encrypted := None;
                                       expires_at := "2024-01-20T00:00:00Z" |};
                   tok_error := None |}
                {| access_token_encrypted := "enc:access";
                   refresh_token_encrypted := None;
                   expires_at := "2024-01-20T00:00:00Z" |})
      as ((w0 & w1 & _ & ->) & _).
    + reflexivity.
    + vm_compute. do 4 right. left. reflexivity.
    + reflexivity.
    + reflexivity.
    + reflexivity.
Defined.

(** * The FTP sync endpoint *)

Ltac ftp_unfold :=
  unfold ftpPOST, ftpBody, ftpGuarded, ftpFetch, awaitF, liftF, bindF, retF in *;
  cbn [fst snd] in *.

Lemma mapExc_Forall2 {A B} (f : A -> Exc B) (l : list A) : forall ys,
  mapExc f l = Ok ys -> Forall2 (fun x y => f x = Ok y) l ys.
Proof.
  induction l as [|x rest IH]; cbn [mapExc]; intros ys H.
  - injection H as <-. constructor.
  - destruct (f x) as [y|] eqn:Hx; [|discriminate].
    destruct (mapExc f rest) as [ys'|]; [|discriminate].
    injection H as <-. constructor; [exact Hx|now apply IH].
Qed.

Lemma mapExc_Throw {A B} (f : A -> Exc B) (l : list A) x e :
  In x l -> f x = Throw e -> exists e', mapExc f l = Throw e'.
Proof.
  induction l as [|y rest IH]; cbn [mapExc In]; [contradiction|].
  intros [->|Hin] Hx.
  - rewrite Hx. eauto.
  - destruct (f y); [|eauto].
    destruct (IH Hin Hx) as [e' ->]. eauto.
Qed.

Lemma ftpRow_rowOf userId record row :
  ftpRow userId record = Ok row -> rowOf userId record row.
Proof.
  unfold ftpRow, rowOf.
  destruct (toISOString (date record)) as [iso|]; [|discriminate].
  intros [= <-]. cbn. repeat split; reflexivity.
Qed.

Lemma ftpRecords_rows userId history rows :
  ftpRecords userId history = Ok rows ->
  Forall2 (rowOf userId) (List.filter hasCalculatedFtp history) rows /\
  Forall (fun row => fr_calculated_ftp row <> None) rows /\
  length rows = length (List.filter hasCalculatedFtp history).
Proof.
  unfold ftpRecords. intros H. apply mapExc_Forall2 in H.
  assert (Hall : Forall (fun r => hasCalculatedFtp r = true)
                   (List.filter hasCalculatedFtp history)).
  { apply List.Forall_forall. intros r Hr. now apply List.filter_In in Hr. }
  induction H as [|record row records rows' Hrow Hrest IH].
  - repeat split; constructor.
  - apply List.Forall_cons_iff in Hall as [Hhead Htail].
    destruct (IH Htail) as (H1 & H2 & H3).
    apply ftpRow_rowOf in Hrow.
    split; [constructor; assumption|]. split; [|cbn; now rewrite H3].
    constructor; [|assumption].
    destruct Hrow as (_ & _ & _ & _ & _ & -> & _).
    unfold hasCalculatedFtp in Hhead.
    destruct (calculatedFtp record); [discriminate|discriminate Hhead].
Qed.

(** X19.  Every upsert of the FTP handler is made for the authenticated
    user, after a history was fetched for the FTP workout that [getMe]
    named: its rows are, in order, the records of that history that carry
    a calculated FTP -- never an empty list, never a row without
    [calculated_ftp] -- each with the user's id, the record's workout id,
    title and outputs, and the record's date in ISO form. *)
Theorem ftp_upsert_rows {W} (env : FtpEnv W) (w : W)
    (rows : list FtpRow) (out : Exc UpdateResponse) :
  In (FvUpsert rows out) (snd (fst (ftpPOST env w))) ->
  exists auth user pelotonUser workout ftpHistory,
    In (FvGetUser (Ok auth)) (snd (fst (ftpPOST env w))) /\
    auth_error auth = None /\
    auth_user auth = Some user /\
    In (FvGetMe (Ok pelotonUser)) (snd (fst (ftpPOST env w))) /\
    cycling_ftp_workout_id pelotonUser = Some workout /\
    truthy workout = true /\
    In (FvGetFtpHistory workout (Ok ftpHistory)) (snd (fst (ftpPOST env w))) /\
    rows <> [] /\
    Forall2 (rowOf (user_id user)) (List.filter hasCalculatedFtp ftpHistory) rows /\
    Forall (fun row => fr_calculated_ftp row <> None) rows.
Proof.
  ftp_unfold. route_split; intros Hin; in_trace Hin.
  all: injection Hin as <- <-.
  all: match goal with
       | H : truthyOption (cycling_ftp_workout_id _) = true |- _ =>
           destruct (truthyOption_Some _ H) as (workout & Hworkout & Htruthy & ->)
       end.
  all: match goal with
       | H : ftpRecords _ _ = Ok _ |- _ =>
           destruct (ftpRecords_rows _ _ _ H) as (Hrows & Hftp & _)
       end.
  all: do 5 eexists.
  all: split; [in_list|].
  all: do 2 (split; [eassumption|]).
  all: split; [in_list|].
  all: split; [eassumption|].
  all: split; [exact Htruthy|].
  all: split; [in_list|].
  all: split; [|split; assumption].
  all: match goal with
       | H : (0 <? length ?l)%nat = true |- ?l <> [] =>
           intros ->; discriminate H
       end.
Qed.

Lemma ftp_upsert_rows_witness :
  let env := MockFtp.env MockFtp.signedIn (Ok MockFtp.me) (Ok MockFtp.history)
               Mock.updateOk (Mock.updateFails "duplicate key") in
  let row id iso ftp :=
    {| fr_user_id := "user-123"; fr_workout_id := id; fr_workout_date := iso;
       fr_ride_title := "20 min FTP Test Ride"; fr_avg_output := Some (ftp + 11);
       fr_calculated_ftp := Some ftp; fr_baseline_ftp := Some 190 |} in
  let rows := [row "ftp-test-1"%string "2023-11-14T22:13:20.000Z"%string 204;
               row "ftp-test-2"%string "2024-01-20T00:00:00.000Z"%string 215] in
  exists auth user pelotonUser workout ftpHistory,
    In (FvGetUser (Ok auth)) (snd (fst (ftpPOST env 0%nat))) /\
    auth_error auth = None /\
    auth_user auth = Some user /\
    In (FvGetMe (Ok pelotonUser)) (snd (fst (ftpPOST env 0%nat))) /\
    cycling_ftp_workout_id pelotonUser = Some workout /\
    truthy workout = true /\
    In (FvGetFtpHistory workout (Ok ftpHistory)) (snd (fst (ftpPOST env 0%nat))) /\
    rows <> [] /\
    Forall2 (rowOf (user_id user)) (List.filter hasCalculatedFtp ftpHistory) rows /\
    Forall (fun row => fr_calculated_ftp row <> None) rows.
Proof.
  intros env row rows.
  apply (ftp_upsert_rows env 0%nat rows (Mock.updateFails "duplicate key")).
  vm_compute. do 7 right. left. reflexivity.
Defined.

Lemma length_zero_nil {A} (l : list A) : length l = 0%nat -> l = [].
Proof. now destruct l. Qed.

(** X20.  A 200 of the FTP handler means that [getMe] resolved.  Without
    an FTP workout id the body says that no history was found, and the
    history is neither fetched nor written.  With one, the history was
    fetched, [syncedRecords] is the number of its records that carry a
    calculated FTP, [currentFtp] is the user's [cycling_ftp], and an
    upsert was made exactly when that number is not 0 -- whatever the
    store answered to it. *)
Theorem ftp_response_counts_records {W} (env : FtpEnv W) (w : W) :
  ftp_status (snd (ftpPOST env w)) = 200 ->
  exists pelotonUser,
    In (FvGetMe (Ok pelotonUser)) (snd (fst (ftpPOST env w))) /\
    ((truthyOption (cycling_ftp_workout_id pelotonUser) = false /\
      ftp_body (snd (ftpPOST env w)) = FtpNoHistory 0 "No FTP test history found" /\
      (forall workout r, ~ In (FvGetFtpHistory workout r) (snd (fst (ftpPOST env w)))) /\
      (forall rows r, ~ In (FvUpsert rows r) (snd (fst (ftpPOST env w))))) \/
     (exists workout ftpHistory,
        cycling_ftp_workout_id pelotonUser = Some workout /\
        In (FvGetFtpHistory workout (Ok ftpHistory)) (snd (fst (ftpPOST env w))) /\
        ftp_body (snd (ftpPOST env w)) =
          FtpSynced (length (List.filter hasCalculatedFtp ftpHistory))
            (cycling_ftp pelotonUser) /\
        (List.filter hasCalculatedFtp ftpHistory = [] ->
         forall rows r, ~ In (FvUpsert rows r) (snd (fst (ftpPOST env w)))) /\
        (List.filter hasCalculatedFtp ftpHistory <> [] ->
         exists rows r, In (FvUpsert rows (Ok r)) (snd (fst (ftpPOST env w)))))).
Proof.
  ftp_unfold. route_split; cbn [ftp_status ftp_body]; intros Hstatus;
    try discriminate Hstatus.
  all: eexists; split; [in_list|].
  all: try match goal with
       | H : ftpRecords _ _ = Ok _ |- _ =>
           destruct (ftpRecords_rows _ _ _ H) as (_ & _ & Hlen)
       end.
  all: first
    [ left; split; [assumption|]; split; [reflexivity|];
      split; [intros ? ? Hev|intros ? ? Hev]; in_trace Hev; fail
    | right;
      match goal with
      | H : truthyOption (cycling_ftp_workout_id _) = true |- _ =>
          destruct (truthyOption_Some _ H) as (workout & Hworkout & _ & ->)
      end;
      do 2 eexists;
      split; [eassumption|];
      split; [in_list|];
      split; [now rewrite Hlen|];
      match goal with
      | H : (0 <? length _)%nat = true |- _ =>
          split;
          [ intros Hnil; rewrite Hnil in Hlen; rewrite Hlen in H; discriminate H
          | intros _; do 2 eexists; in_list ]
      | H : (0 <? length _)%nat = false |- _ =>
          split;
          [ intros _ ? ? Hev; in_trace Hev
          | intros Hsome; exfalso; apply Hsome, length_zero_nil;
            rewrite <- Hlen; apply Nat.ltb_ge in H;
            now apply Nat.le_0_r in H ]
      end ].
Qed.

Lemma ftp_response_counts_records_witness :
  let env := MockFtp.env MockFtp.signedIn (Ok MockFtp.me) (Ok MockFtp.history)
               (Mock.updateFails "row not found")
               (Mock.updateFails "duplicate key") in
  ftp_body (snd (ftpPOST env 0%nat)) = FtpSynced 2 (Some 215) /\
  exists rows r, In (FvUpsert rows (Ok r)) (snd (fst (ftpPOST env 0%nat))).
Proof.
  intros env.
  destruct (ftp_response_counts_records env 0%nat)
    as (pelotonUser & Hme & [(_ & _ & _ & Hnone)|Hsome]).
  - reflexivity.
  - exfalso. eapply Hnone. vm_compute. do 7 right. left. reflexivity.
  - destruct Hsome as (workout & ftpHistory & _ & Hhistory & Hbody & _ & Hupsert).
    vm_compute in Hme, Hhistory.
    destruct Hme as [H|[H|[H|[H|[H|[H|[H|[H|[]]]]]]]]]; try discriminate H.
    injection H as <-.
    destruct Hhistory as [H|[H|[H|[H|[H|[H|[H|[H|[]]]]]]]]]; try discriminate H.
    injection H as <- <-.
    split; [exact Hbody|]. apply Hupsert. discriminate.
Defined.

(** X21.  A call of the FTP handler that rejects decides the response by
    where it was made: inside the inner [try] block ([getMe], the update
    of the profile, [getFtpHistory], the upsert) the response is the 401
    that blames the Peloton token, also when it was the store that
    rejected; before it, the response is the 500. *)
Theorem ftp_rejection_status {W} (env : FtpEnv W) (w : W) (ev : FtpEvent) :
  In ev (snd (fst (ftpPOST env w))) ->
  ftpRejected ev = true ->
  snd (ftpPOST env w) =
    if ftpInner ev
    then {| ftp_status := 401;
            ftp_body := FtpError "Failed to fetch from Peloton. Token may be expired." |}
    else {| ftp_status := 500; ftp_body := FtpError "Internal server error" |}.
Proof.
  ftp_unfold. route_split; intros Hin Hrej; cbn [In app] in Hin.
  all: repeat (destruct Hin as [<-|Hin];
               [try discriminate Hrej; try reflexivity|]).
  all: try contradiction.
  all: match goal with
       | H : ftpInner _ = _ |- _ => discriminate H
       end.
Qed.

Lemma ftp_rejection_status_witness :
  let env := MockFtp.env MockFtp.signedIn (Ok MockFtp.me) (Ok MockFtp.history)
               (Throw (ErrorObject "connection reset")) Mock.updateOk in
  snd (ftpPOST env 0%nat) =
    {| ftp_status := 401;
       ftp_body := FtpError "Failed to fetch from Peloton. Token may be expired." |}.
Proof.
  intros env.
  apply (ftp_rejection_status env 0%nat
           (FvUpdateProfile "user-123"
              {| current_ftp := Some 215; estimated_ftp := None |}
              (Throw (ErrorObject "connection reset")))).
  - vm_compute. do 5 right. left. reflexivity.
  - reflexivity.
Defined.

Lemma ftpRecords_invalid userId history record e :
  In record history ->
  calculatedFtp record <> None ->
  toISOString (date record) = Throw e ->
  exists e', ftpRecords userId history = Throw e'.
Proof.
  intros Hin Hftp Hdate. unfold ftpRecords.
  apply (mapExc_Throw (ftpRow userId) _ record e).
  - apply List.filter_In. split; [exact Hin|].
    unfold hasCalculatedFtp. now destruct (calculatedFtp record).
  - unfold ftpRow. now rewrite Hdate.
Qed.

(** X22.  When the fetched history holds a record with a calculated FTP
    whose date is invalid, building the rows throws: the response is the
    401 that blames the Peloton token and nothing is upserted -- but the
    profile has already been updated. *)
Theorem ftp_invalid_date_is_401 {W} (env : FtpEnv W) (w : W)
    (workout : string) (ftpHistory : list FtpHistoryRecord)
    (record : FtpHistoryRecord) (e : Thrown) :
  In (FvGetFtpHistory workout (Ok ftpHistory)) (snd (fst (ftpPOST env w))) ->
  In record ftpHistory ->
  calculatedFtp record <> None ->
  toISOString (date record) = Throw e ->
  snd (ftpPOST env w) =
    {| ftp_status := 401;
       ftp_body := FtpError "Failed to fetch from Peloton. Token may be expired." |} /\
  (forall rows r, ~ In (FvUpsert rows r) (snd (fst (ftpPOST env w)))) /\
  exists userId payload r,
    In (FvUpdateProfile userId payload (Ok r)) (snd (fst (ftpPOST env w))).
Proof.
  ftp_unfold. route_split; intros Hin Hrecord Hftp Hdate; in_trace Hin.
  all: injection Hin as <- <-.
  all: match goal with
       | H : ftpRecords ?u ?h = _ |- _ =>
           destruct (ftpRecords_invalid u h record e Hrecord Hftp Hdate)
             as [e' He'];
           rewrite He' in H; try discriminate H
       end.
  all: split; [reflexivity|].
  all: split; [intros ? ? Hev; in_trace Hev|].
  all: do 3 eexists; in_list.
Qed.

Lemma ftp_invalid_date_is_401_witness :
  let broken := MockFtp.record "ftp-test-3" None (Some 220) in
  let env := MockFtp.env MockFtp.signedIn (Ok MockFtp.me)
               (Ok (MockFtp.history ++ [broken])) Mock.updateOk Mock.updateOk in
  snd (ftpPOST env 0%nat) =
    {| ftp_status := 401;
       ftp_body := FtpError "Failed to fetch from Peloton. Token may be expired." |} /\
  (forall rows r, ~ In (FvUpsert rows r) (snd (fst (ftpPOST env 0%nat)))) /\
  exists userId payload r,
    In (FvUpdateProfile userId payload (Ok r)) (snd (fst (ftpPOST env 0%nat))).
Proof.
  intros broken env.
  apply (ftp_invalid_date_is_401 env 0%nat "ftp-test-2"
           (MockFtp.history ++ [broken]) broken
           (ErrorObject "Invalid time value")).
  - vm_compute. do 6 right. left. reflexivity.
  - vm_compute. do 3 right. left. reflexivity.
  - discriminate.
  - reflexivity.
Defined.

(** X23.  The FTP handler updates the profile only of the authenticated
    user, only when that user's token row holds a non-empty access token
    -- from which, as stored, the Peloton client is built -- and the
    profile a non-empty Peloton user id, and only after [getMe] resolved.
    The update carries the user's FTP values with 0 and missing values
    replaced by [null]. *)
Theorem ftp_profile_update_guarded {W} (env : FtpEnv W) (w : W)
    (userId : string) (payload : ProfileFtp) (out : Exc UpdateResponse) :
  In (FvUpdateProfile userId payload out) (snd (fst (ftpPOST env w))) ->
  exists auth user tokenData row token prof profile pelotonClient pelotonUser,
    In (FvGetUser (Ok auth)) (snd (fst (ftpPOST env w))) /\
    auth_error auth = None /\
    auth_user auth = Some user /\
    userId = user_id user /\
    In (FvSelectToken userId (Ok tokenData)) (snd (fst (ftpPOST env w))) /\
    trr_data tokenData = Some row /\
    tr_access_token_encrypted row = Some token /\
    truthy token = true /\
    In (FvSelectProfile userId (Ok prof)) (snd (fst (ftpPOST env w))) /\
    prof_data prof = Some profile /\
    truthyOption (peloton_user_id profile) = true /\
    ftp_pelotonClient env token = Ok pelotonClient /\
    In (FvGetMe (Ok pelotonUser)) (snd (fst (ftpPOST env w))) /\
    payload = {| current_ftp := orNull (cycling_ftp pelotonUser);
                 estimated_ftp := orNull (estimated_cycling_ftp pelotonUser) |} /\
    current_ftp payload <> Some 0 /\
    estimated_ftp payload <> Some 0.
Proof.
  assert (Hnull : forall x, orNull x <> Some 0).
  { intros [n|]; cbn; [|discriminate].
    destruct (Z.eqb_spec n 0); [discriminate|congruence]. }
  ftp_unfold. route_split; intros Hin; in_trace Hin.
  all: injection Hin as <- <- <-.
  all: match goal with
       | H : truthyOption (tr_access_token_encrypted _) = true |- _ =>
           destruct (truthyOption_Some _ H) as (token & Htoken & Htruthy & Hd)
       end.
  all: rewrite Hd in *.
  all: do 9 eexists.
  all: split; [in_list|].
  all: do 2 (split; [eassumption|]).
  all: split; [reflexivity|].
  all: split; [in_list|].
  all: do 3 (split; [eassumption|]).
  all: split; [in_list|].
  all: do 3 (split; [eassumption|]).
  all: split; [in_list|].
  all: split; [reflexivity|].
  all: split; apply Hnull.
Qed.

Lemma ftp_profile_update_guarded_witness :
  let env := MockFtp.env MockFtp.signedIn (Ok MockFtp.me) (Ok MockFtp.history)
               Mock.updateOk Mock.updateOk in
  exists pelotonUser,
    In (FvGetMe (Ok pelotonUser)) (snd (fst (ftpPOST env 0%nat))) /\
    {| current_ftp := Some 215; estimated_ftp := None |} =
    {| current_ftp := orNull (cycling_ftp pelotonUser);
       estimated_ftp := orNull (estimated_cycling_ftp pelotonUser) |}.
Proof.
  intros env.
  destruct (ftp_profile_update_guarded env 0%nat "user-123"
              {| current_ftp := Some 215; estimated_ftp := None |} Mock.updateOk)
    as (auth & user & tokenData & row & token & prof & profile & pelotonClient
        & pelotonUser & H).
  - vm_compute. do 5 right. left. reflexivity.
  - exists pelotonUser. split; apply H.
Defined.
